(** * med-pulse-bot: the detection-to-attendance pipeline

    A shallow embedding of the attendance service of med-pulse-bot
    ([internal/services]: [ProcessDetection], [saveDetection],
    [recordAttendance], [sendCheckInNotification], [calculateStatus],
    [calculateLateStatus]), of the PocketBase employee lookup it is wired
    to ([internal/repository]: [GetByMacAddress]), and of the parts of
    Go's [time] package the service calls, followed by the properties of
    the pipeline proved over that embedding.  Around the service it also
    embeds the detection endpoint ([internal/handlers]: [HandleDetect]),
    the other PocketBase repositories ([IsCheckedInToday] and the two
    [Create] methods), the Telegram notifier ([bot]: [Init],
    [SendNotification], [SendPersonalNotification], [registerEmployee])
    and the classification of a device in the scanner firmware
    ([isITag03], [getDeviceType]).

    Conventions.  Go's [int] and the second counts of [time.Time] are
    unbounded integers; durations are [int64] with the wrap-around written
    out where Go computes one.  Strings are byte strings.  The request
    reaches the service through a pointer, so it is part of the state a
    run can change.  The repositories and the notifier are interfaces:
    a run is observed through the calls it makes on them, each logged with
    its answer, and the answers are arbitrary functions of the history so
    far.  Log lines are left out, and the [context.Context] argument, which
    the service only passes on, is dropped. *)

From Stdlib Require Import ZArith Lia List Bool String Ascii DecimalString.
From Stdlib Require Import Floats.SpecFloat.
From Stdlib Require DecimalPos.
Import ListNotations.

Local Open Scope string_scope.
Local Open Scope Z_scope.

(* ===================================================================== *)
(** ** Go's [time] package, as far as the service uses it *)
(* ===================================================================== *)

Module GoTime.

(** *** Durations: [type Duration int64], a count of nanoseconds *)

Definition Duration := Z.

Definition Nanosecond : Duration := 1.
Definition Second : Duration := 1000000000 * Nanosecond.
Definition Minute : Duration := 60 * Second.

Definition minDuration : Duration := - 2 ^ 63.
Definition maxDuration : Duration := 2 ^ 63 - 1.

(** Two's-complement wrap-around of an [int64] computation. *)
Definition wrap64 (z : Z) : Z := (z + 2 ^ 63) mod 2 ^ 64 - 2 ^ 63.

(** *** [float64], as far as [Duration.Minutes] needs it *)

(** IEEE 754 binary64 values, with the operations of the standard
    library's executable specification (53 bits of precision, exponent
    bound 1024, rounding to nearest even). *)
Definition float64 : Type := spec_float.

(** The conversion [float64(z)] of an integer. *)
Definition float64OfInt (z : Z) : float64 := binary_normalize 53 1024 z 0 false.

(** [d.Minutes()]:
    [min := d / Minute; nsec := d % Minute;
     return float64(min) + float64(nsec)/(60*1e9)],
    the integer division and remainder truncating toward zero. *)
Definition Minutes (d : Duration) : float64 :=
  SFadd 53 1024
    (float64OfInt (Z.quot d Minute))
    (SFdiv 53 1024 (float64OfInt (Z.rem d Minute))
       (float64OfInt (60 * 1000000000))).

(** The conversion [int(f)] of a finite float: the fraction is dropped.
    (An infinity or a NaN has no defined conversion; [Minutes] yields
    neither.) *)
Definition intOfFloat64 (f : float64) : Z :=
  match f with
  | S754_finite s m e =>
      let v :=
        if 0 <=? e then Zpos m * 2 ^ e else Z.quot (Zpos m) (2 ^ (- e)) in
      if s then - v else v
  | _ => 0
  end.

(** *** Calendar arithmetic (proleptic Gregorian, days since 1970-01-01) *)

Definition secondsPerMinute : Z := 60.
Definition secondsPerHour : Z := 60 * secondsPerMinute.
Definition secondsPerDay : Z := 24 * secondsPerHour.

(** Day number of a civil date.  The year is shifted to start in March so
    that the leap day is the last day of the shifted year; a 400-year era
    has 146097 days.  [day] enters linearly, so a day outside the month
    overflows into the next one, as in [time.Date]. *)
Definition daysFromCivil (year month day : Z) : Z :=
  let y := if month <=? 2 then year - 1 else year in
  let era := y / 400 in
  let yoe := y - era * 400 in
  let mp := if 2 <? month then month - 3 else month + 9 in
  let doy := (153 * mp + 2) / 5 + day - 1 in
  let doe := yoe * 365 + yoe / 4 - yoe / 100 + doy in
  era * 146097 + doe - 719468.

(** The civil date (year, month, day) of a day number. *)
Definition civilFromDays (z : Z) : Z * Z * Z :=
  let z := z + 719468 in
  let era := z / 146097 in
  let doe := z - era * 146097 in
  let yoe := (doe - doe / 1460 + doe / 36524 - doe / 146096) / 365 in
  let y := yoe + era * 400 in
  let doy := doe - (365 * yoe + yoe / 4 - yoe / 100) in
  let mp := (5 * doy + 2) / 153 in
  let d := doy - (153 * mp + 2) / 5 + 1 in
  let m := if mp <? 10 then mp + 3 else mp - 9 in
  (if m <=? 2 then y + 1 else y, m, d).

(** *** Locations: a base offset and a sorted list of zone transitions *)

Record zoneTrans := mkZoneTrans {
  when : Z;      (* transition instant, seconds since the Unix epoch *)
  zoffset : Z    (* seconds east of UTC from that instant on *)
}.

Record Location := mkLocation {
  firstOffset : Z;        (* offset in force before the first transition *)
  tx : list zoneTrans
}.

Definition UTC : Location := mkLocation 0 [].
Definition FixedZone (offset : Z) : Location := mkLocation offset [].

Definition alpha : Z := - 2 ^ 63.
Definition omega : Z := 2 ^ 63 - 1.

(** [lookupFrom off start l sec]: the zone in force at [sec], scanning the
    remaining transitions [l]; [off] and [start] describe the zone found so
    far.  Returns (offset, start, end) with [start <= sec < end]. *)
Fixpoint lookupFrom (off start : Z) (l : list zoneTrans) (sec : Z)
  : Z * Z * Z :=
  match l with
  | [] => (off, start, omega)
  | t :: rest =>
      if sec <? when t then (off, start, when t)
      else lookupFrom (zoffset t) (when t) rest sec
  end.

(** [Location.lookup]: Go searches the sorted transitions by bisection
    for the last one at or before [sec]; a scan finds the same entry.
    (Rules that extend a zone past its last listed transition are taken to
    be listed.) *)
Definition lookup (l : Location) (sec : Z) : Z * Z * Z :=
  lookupFrom (firstOffset l) alpha (tx l) sec.

Definition offsetAt (l : Location) (sec : Z) : Z := fst (fst (lookup l sec)).

(** *** Instants *)

(** A [time.Time] is an instant with a location.  Go stores seconds and
    nanoseconds separately, the nanoseconds always within [0, 1e9); the
    instant is kept here as one nanosecond count and [sec]/[nsec] are its
    two parts, which builds that invariant in. *)
Record Time := mkTime {
  unixNano : Z;
  loc : Location
}.

Definition sec (t : Time) : Z := unixNano t / Second.
Definition nsec (t : Time) : Z := unixNano t mod Second.

Definition unixTime (s ns : Z) (l : Location) : Time :=
  mkTime (s * Second + ns) l.

(** [t.abs()], shifted to the Unix epoch: seconds of local wall time. *)
Definition localSec (t : Time) : Z := sec t + offsetAt (loc t) (sec t).

Definition date (t : Time) : Z * Z * Z :=
  civilFromDays (localSec t / secondsPerDay).

Definition Year (t : Time) : Z := fst (fst (date t)).
Definition Month (t : Time) : Z := snd (fst (date t)).
Definition Day (t : Time) : Z := snd (date t).

Definition Hour (t : Time) : Z :=
  (localSec t mod secondsPerDay) / secondsPerHour.
Definition Minute_ (t : Time) : Z :=
  (localSec t mod secondsPerHour) / secondsPerMinute.
Definition Second_ (t : Time) : Z := localSec t mod secondsPerMinute.

(** [norm hi lo base]: carry [lo] into [hi] so that [0 <= lo < base]. *)
Definition norm (hi lo base : Z) : Z * Z := (hi + lo / base, lo mod base).

(** [time.Date]: normalise the fields, count the seconds since the epoch
    as if in UTC, then subtract the zone offset.  The offset is looked up
    at the unadjusted instant first and looked up again when the adjusted
    instant falls outside the zone that was found. *)
Definition Date (year month day hour min sec_ nsec_ : Z) (l : Location)
  : Time :=
  let '(year, m) := norm year (month - 1) 12 in
  let month := m + 1 in
  let '(sec_, nsec_) := norm sec_ nsec_ 1000000000 in
  let '(min, sec_) := norm min sec_ 60 in
  let '(hour, min) := norm hour min 60 in
  let '(day, hour) := norm day hour 24 in
  let d := daysFromCivil year month 1 + (day - 1) in
  let unix :=
    d * secondsPerDay
    + (hour * secondsPerHour + min * secondsPerMinute + sec_) in
  let '(offset, start, end_) := lookup l unix in
  let unix :=
    if offset =? 0 then unix
    else
      let utc := unix - offset in
      let offset :=
        if (utc <? start) || (end_ <=? utc) then offsetAt l utc
        else offset in
      unix - offset in
  unixTime unix nsec_ l.

(** [t.Before(u)]: seconds first, nanoseconds to break the tie.  (Go
    compares monotonic clock readings when both times carry one; a time
    built by [time.Date] carries none, so where the service compares or
    subtracts, the wall clock decides.) *)
Definition Before (t u : Time) : bool :=
  (sec t <? sec u) || ((sec t =? sec u) && (nsec t <? nsec u)).

Definition Equal (t u : Time) : bool :=
  (sec t =? sec u) && (nsec t =? nsec u).

(** [t.Add(d)]; Go's [/] and [%] truncate toward zero. *)
Definition Add (t : Time) (d : Duration) : Time :=
  let dsec := Z.quot d 1000000000 in
  let ns := nsec t + Z.rem d 1000000000 in
  let '(dsec, ns) :=
    if 1000000000 <=? ns then (dsec + 1, ns - 1000000000)
    else if ns <? 0 then (dsec - 1, ns + 1000000000)
    else (dsec, ns) in
  unixTime (sec t + dsec) ns (loc t).

(** [t.Sub(u)]: the difference as an [int64] nanosecond count, replaced by
    the nearest representable duration when it does not fit. *)
Definition Sub (t u : Time) : Duration :=
  let d := wrap64 ((sec t - sec u) * Second + (nsec t - nsec u)) in
  if Equal (Add u d) t then d
  else if Before t u then minDuration
  else maxDuration.

(** *** [time.Parse] with the layout ["15:04:05"] *)

(** The value of a decimal digit, [None] for any other byte. *)
Definition digitVal (c : ascii) : option Z :=
  let n := Z.of_nat (nat_of_ascii c) in
  if (48 <=? n) && (n <=? 57) then Some (n - 48) else None.

(** [getnum s fixed]: a one- or two-digit number at the head of [s]; with
    [fixed] it must have two digits. *)
Definition getnum (s : string) (fixed : bool) : option (Z * string) :=
  match s with
  | EmptyString => None
  | String c0 rest =>
      match digitVal c0 with
      | None => None
      | Some d0 =>
          let one := if fixed then None else Some (d0, rest) in
          match rest with
          | EmptyString => one
          | String c1 rest' =>
              match digitVal c1 with
              | Some d1 => Some (d0 * 10 + d1, rest')
              | None => one
              end
          end
      end
  end.

(** [skip value ":"]: the literal colon between two fields. *)
Definition skipColon (value : string) : option string :=
  match value with
  | String ":" rest => Some rest
  | _ => None
  end.

Definition commaOrPeriod (c : ascii) : bool :=
  (Ascii.eqb c ".") || (Ascii.eqb c ",").

(** The leading decimal digits of a string, and what follows them. *)
Fixpoint spanDigits (s : string) : list Z * string :=
  match s with
  | EmptyString => ([], s)
  | String c rest =>
      match digitVal c with
      | Some d => let '(ds, r) := spanDigits rest in (d :: ds, r)
      | None => ([], s)
      end
  end.

(** [parseNanoseconds]: at most nine fraction digits count, scaled to
    nanoseconds. *)
Definition parseNanoseconds (digits : list Z) : Z :=
  let ds := firstn 9 digits in
  fold_left (fun a d => a * 10 + d) ds 0 * 10 ^ (9 - Z.of_nat (List.length ds)).

(** A fractional second in the input is accepted after the seconds field
    although the layout has none: a period or comma followed by at least
    one digit. *)
Definition fraction (value : string) : Z * string :=
  match value with
  | String c rest =>
      match spanDigits rest with
      | (d :: ds, r) =>
          if commaOrPeriod c then (parseNanoseconds (d :: ds), r)
          else (0, value)
      | ([], _) => (0, value)
      end
  | EmptyString => (0, value)
  end.

(** [time.Parse("15:04:05", value)]: hour (one or two digits, below 24),
    colon, two-digit minute and second (below 60), an optional fraction,
    and nothing after it.  [None] stands for a non-nil error.  The fields
    the layout does not mention default to 1 January of year 0, UTC. *)
Definition Parse (value : string) : option Time :=
  match getnum value false with
  | None => None
  | Some (hour, value) =>
      if 24 <=? hour then None else
      match skipColon value with
      | None => None
      | Some value =>
          match getnum value true with
          | None => None
          | Some (min, value) =>
              if 60 <=? min then None else
              match skipColon value with
              | None => None
              | Some value =>
                  match getnum value true with
                  | None => None
                  | Some (sec_, value) =>
                      if 60 <=? sec_ then None else
                      let '(nsec_, value) := fraction value in
                      match value with
                      | EmptyString =>
                          Some (Date 0 1 1 hour min sec_ nsec_ UTC)
                      | String _ _ => None
                      end
                  end
              end
          end
      end
  end.

(** *** [t.Format("15:04:05")] and the [%d] verb *)

Definition formatInt (z : Z) : string := NilZero.string_of_int (Z.to_int z).

Definition pad2 (z : Z) : string :=
  if z <? 10 then "0" ++ formatInt z else formatInt z.

Definition Format (t : Time) : string :=
  pad2 (Hour t) ++ ":" ++ pad2 (Minute_ t) ++ ":" ++ pad2 (Second_ t).

(** Seconds since local midnight of a wall-clock reading. *)
Definition secondOfDay (t : Time) : Z :=
  Hour t * 3600 + Minute_ t * 60 + Second_ t.

(** *** Predicates on locations used in the statements below *)

(** Every offset a location can answer with. *)
Definition offsets (l : Location) : list Z :=
  firstOffset l :: map zoffset (tx l).

(** The locations in use: one without transitions ([UTC], [FixedZone]),
    or one from the zone database, every offset of which is less than a
    day from UTC. *)
Definition offsetsFit (l : Location) : Prop :=
  tx l = [] \/ Forall (fun o => - 86400 < o < 86400) (offsets l).

(** Transitions in increasing order, each at least [gap] seconds after
    the one before it.  Go keeps the transitions of a location sorted
    ([spaced 0]); in the zone database a change of offset is followed by
    the next one months later. *)
Fixpoint spacedFrom (gap start : Z) (l : list zoneTrans) : Prop :=
  match l with
  | [] => True
  | t :: rest => start + gap <= when t /\ spacedFrom gap (when t) rest
  end.

Definition spaced (gap : Z) (l : Location) : Prop :=
  match tx l with
  | [] => True
  | t :: rest => spacedFrom gap (when t) rest
  end.


End GoTime.

(* ===================================================================== *)
(** ** [internal/models] *)
(* ===================================================================== *)

Module DetectionRequest.
Record t := mk {
  ScannerMac : string;
  MacAddress : string;
  RSSI : Z;
  DeviceType : string;
  IsITag03 : bool;
  IsTargetDevice : bool;
  DeviceName : string
}.

(** [req.IsTargetDevice = v] through the pointer. *)
Definition setIsTargetDevice (v : bool) (r : t) : t :=
  mk (ScannerMac r) (MacAddress r) (RSSI r) (DeviceType r) (IsITag03 r)
     v (DeviceName r).

(** [req.DeviceName = v] through the pointer. *)
Definition setDeviceName (v : string) (r : t) : t :=
  mk (ScannerMac r) (MacAddress r) (RSSI r) (DeviceType r) (IsITag03 r)
     (IsTargetDevice r) v.
End DetectionRequest.

Module Employee.
Record t := mk {
  ID : string;
  TelegramChatID : Z;
  Name : string;
  MacAddress : string;
  WorkStartTime : string;
  IsActive : bool
}.
End Employee.

Module Attendance.
Record t := mk {
  ID : string;
  EmployeeID : string;
  CheckInTime : GoTime.Time;
  ScannerMac : string;
  Status : string;
  CreatedDate : GoTime.Time
}.
End Attendance.

Module EmployeeDetection.
Record t := mk {
  ID : string;
  EmployeeID : string;
  MacAddress : string;
  ScannerMac : string;
  RSSI : Z;
  DeviceType : string;
  IsITag03 : bool;
  IsTargetDevice : bool;
  DeviceName : string;
  DetectedAt : GoTime.Time
}.
End EmployeeDetection.

(* ===================================================================== *)
(** ** Errors and collaborators *)
(* ===================================================================== *)

(** A Go [error]: a plain message, or a message wrapping another error
    ([fmt.Errorf] with the [%w] verb). *)
Inductive error :=
| errorString (msg : string)
| wrapError (msg : string) (err : error).

Definition Error (e : error) : string :=
  match e with
  | errorString msg => msg
  | wrapError msg _ => msg
  end.

(** [fmt.Errorf(prefix + "%w", err)]. *)
Definition Errorf (prefix : string) (err : error) : error :=
  wrapError (prefix ++ Error err) err.

(** [errors.Unwrap]. *)
Definition Unwrap (e : error) : option error :=
  match e with
  | errorString _ => None
  | wrapError _ err => Some err
  end.

(** One call on a collaborator, with what it answered.  The repositories
    and the notifier are interfaces ([internal/repository],
    [services.BotNotifier]); what the service does to the outside world is
    the sequence of calls it makes on them. *)
Inductive Call :=
| CallGetByMacAddress (macAddress : string) (result : Employee.t + error)
| CallIsCheckedInToday (employeeID : string) (result : bool + error)
| CallDetectionCreate (detection : EmployeeDetection.t)
    (result : option error)
| CallAttendanceCreate (attendance : Attendance.t) (result : option error)
| CallSendPersonalNotification (chatID : Z) (message : string)
| CallSendNotification (message : string).

(** Calls made so far, oldest first. *)
Definition History := list Call.

(** [repository.EmployeeRepository].  A lookup answers with an employee or
    with a non-nil error; the answer may depend on what happened before. *)
Record EmployeeRepository := {
  GetByMacAddress : History -> string -> Employee.t + error;
  IsCheckedInToday : History -> string -> bool + error
}.

(** [repository.AttendanceRepository]; [None] is a nil error. *)
Record AttendanceRepository := {
  AttendanceCreate : History -> Attendance.t -> option error
}.

(** [repository.EmployeeDetectionRepository]. *)
Record EmployeeDetectionRepository := {
  DetectionCreate : History -> EmployeeDetection.t -> option error
}.

(** [services.AttendanceService].  The scanner repository is never called
    (its one use is commented out) and the notifier's methods return
    nothing, so neither needs a behaviour here; [clock] is [time.Now]. *)
Record AttendanceService := {
  employeeRepo : EmployeeRepository;
  attendanceRepo : AttendanceRepository;
  detectionRepo : EmployeeDetectionRepository;
  clock : History -> GoTime.Time
}.

(** What a run of the service can change: the request behind the [req]
    pointer, and the outside world through collaborator calls. *)
Record State := mkState {
  req : DetectionRequest.t;
  history : History
}.

(** Computations over that state. *)
Definition M (A : Type) : Type := State -> A * State.

Definition ret {A} (a : A) : M A := fun st => (a, st).

Definition bind {A B} (m : M A) (k : A -> M B) : M B :=
  fun st => let '(a, st') := m st in k a st'.

Declare Scope service_scope.
Delimit Scope service_scope with service.
Notation "x <- m ;; k" := (bind m (fun x => k))
  (at level 61, m at next level, right associativity) : service_scope.
Notation "m ;; k" := (bind m (fun _ => k))
  (at level 61, right associativity) : service_scope.
Local Open Scope service_scope.

Definition getReq : M DetectionRequest.t := fun st => (req st, st).

Definition modifyReq (f : DetectionRequest.t -> DetectionRequest.t)
  : M unit :=
  fun st => (tt, mkState (f (req st)) (history st)).

(** Make a call: ask the collaborator, given the history so far, and log
    the call with its answer. *)
Definition call {A} (answer : History -> A) (log : A -> Call) : M A :=
  fun st =>
    let a := answer (history st) in
    (a, mkState (req st) (history st ++ [log a])%list).

Definition notify (c : Call) : M unit :=
  fun st => (tt, mkState (req st) (history st ++ [c])%list).

(* ===================================================================== *)
(** ** [internal/services]: the attendance service *)
(* ===================================================================== *)

Import GoTime.

(** Today's work start: the parsed time of day on the check-in's calendar
    date, in the check-in's location (the [time.Date] call shared by
    [calculateStatus] and [calculateLateStatus]). *)
Definition todayWorkStart (checkInTime workStart : Time) : Time :=
  Date (Year checkInTime) (Month checkInTime) (Day checkInTime)
       (Hour workStart) (Minute_ workStart) (Second_ workStart)
       0 (loc checkInTime).

(** Grace period: 5 minutes *)
Definition gracePeriod : Duration := 5 * Minute.

(** [calculateStatus] determines if check-in is on time or late. *)
Definition calculateStatus (checkInTime : Time) (workStartTime : string)
  : string :=
  match Parse workStartTime with
  | None => "ontime" (* Default to ontime if can't parse *)
  | Some workStart =>
      if Before checkInTime
           (Add (todayWorkStart checkInTime workStart) gracePeriod)
      then "ontime"
      else "late"
  end.

(** [calculateLateStatus] calculates late minutes for display. *)
Definition calculateLateStatus (checkInTime : Time) (workStartTime : string)
  : string :=
  match Parse workStartTime with
  | None => "เข้าสาย"
  | Some workStart =>
      let lateMinutes :=
        intOfFloat64
          (Minutes (Sub checkInTime (todayWorkStart checkInTime workStart))) in
      "เข้าสาย " ++ formatInt lateMinutes ++ " นาที"
  end.

(** The expected start as the specification words it, for comparison
    with [todayWorkStart]: an instant of the check-in's location whose
    wall clock reads the check-in's calendar date at the hour, minute and
    second of [workStart], on the second. *)
Definition isExpectedStart (u checkInTime workStart : Time) : Prop :=
  loc u = loc checkInTime /\
  date u = date checkInTime /\
  Hour u = Hour workStart /\
  Minute_ u = Minute_ workStart /\
  Second_ u = Second_ workStart /\
  nsec u = 0.

Definition nl : string := String (ascii_of_nat 10) EmptyString.

Section Service.

Variable s : AttendanceService.

(** [sendCheckInNotification] sends the check-in notification to the
    employee, and a second message to the admin when the status is late. *)
Definition sendCheckInNotification (employee : Employee.t)
    (checkInTime : Time) (scannerMac status : string) : M unit :=
  let late := String.eqb status "late" in
  let statusEmoji := if late then "⚠️" else "✅" in
  let statusText :=
    if late
    then calculateLateStatus checkInTime (Employee.WorkStartTime employee)
    else "เข้างานตรงเวลา" in
  let message :=
    statusEmoji ++ " *สวัสดีตอนเช้า คุณ" ++ Employee.Name employee ++ "!*"
    ++ nl ++ nl
    ++ "🕐 เวลาเข้างาน: `" ++ Format checkInTime ++ "`" ++ nl
    ++ "📍 สถานที่: `Scanner " ++ scannerMac ++ "`" ++ nl
    ++ "⏰ สถานะ: *" ++ statusText ++ "*" ++ nl ++ nl
    ++ "ขอให้มีความสุขกับการทำงานวันนี้! 😊" in
  notify (CallSendPersonalNotification
            (Employee.TelegramChatID employee) message) ;;
  (* Send to admin if late *)
  if late then
    let adminMessage :=
      "⚠️ *พนักงานเข้าสาย*" ++ nl
      ++ "👤 ชื่อ: `" ++ Employee.Name employee ++ "`" ++ nl
      ++ "🕐 เวลา: `" ++ Format checkInTime ++ "`" ++ nl
      ++ "⏰ " ++ statusText in
    notify (CallSendNotification adminMessage)
  else ret tt.

(** [recordAttendance] records attendance and sends notifications.  The
    result is the returned [error], [None] for nil. *)
Definition recordAttendance (employee : Employee.t) (scannerMac : string)
  : M (option error) :=
  fun st0 =>
  let now := clock s (history st0) in
  let status := calculateStatus now (Employee.WorkStartTime employee) in
  let attendance :=
    Attendance.mk "" (Employee.ID employee) now scannerMac status now in
  (err <- call (fun h => AttendanceCreate (attendanceRepo s) h attendance)
               (CallAttendanceCreate attendance) ;;
   match err with
   | Some err => ret (Some (Errorf "failed to create attendance record: " err))
   | None =>
       (* Send notification to employee *)
       sendCheckInNotification employee now scannerMac status ;;
       ret None
   end) st0.

(** [saveDetection] saves the detection record, reading the request
    through the [req] pointer. *)
Definition saveDetection (employeeID : string) : M (option error) :=
  fun st0 =>
  let r := req st0 in
  let detection :=
    EmployeeDetection.mk ""
      employeeID
      (DetectionRequest.MacAddress r)
      (DetectionRequest.ScannerMac r)
      (DetectionRequest.RSSI r)
      (DetectionRequest.DeviceType r)
      (DetectionRequest.IsITag03 r)
      (DetectionRequest.IsTargetDevice r)
      (DetectionRequest.DeviceName r)
      (clock s (history st0)) in
  (err <- call (fun h => DetectionCreate (detectionRepo s) h detection)
               (CallDetectionCreate detection) ;;
   match err with
   | Some err => ret (Some (Errorf "failed to create detection: " err))
   | None => ret None
   end) st0.

(** RSSI threshold for ~10 meters *)
Definition rssiThreshold : Z := -70.

(** [ProcessDetection] processes a BLE device detection.  The [ctx]
    argument is only handed on to the collaborators. *)
Definition ProcessDetection : M (option error) :=
  (* Check if MAC/UUID matches any employee (target device detection) *)
  r <- getReq ;;
  found <- call (fun h => GetByMacAddress (employeeRepo s) h
                            (DetectionRequest.MacAddress r))
                (CallGetByMacAddress (DetectionRequest.MacAddress r)) ;;
  match found with
  | inr _ =>
      (* Not a registered employee device - ignore silently *)
      ret None
  | inl employee =>
      (* Device belongs to an employee - mark as target device *)
      modifyReq (DetectionRequest.setIsTargetDevice true) ;;
      modifyReq (DetectionRequest.setDeviceName (Employee.Name employee)) ;;
      (* Check if device is close enough *)
      r <- getReq ;;
      if DetectionRequest.RSSI r <? rssiThreshold then ret None
      else
        (* Check if already checked in today *)
        checked <- call (fun h => IsCheckedInToday (employeeRepo s) h
                                    (Employee.ID employee))
                        (CallIsCheckedInToday (Employee.ID employee)) ;;
        match checked with
        | inr err =>
            ret (Some (Errorf "failed to check attendance status: " err))
        | inl isCheckedIn =>
            (* If not checked in, save detection and record attendance *)
            if negb isCheckedIn then
              err <- saveDetection (Employee.ID employee) ;;
              match err with
              | Some err => ret (Some (Errorf "failed to save detection: " err))
              | None =>
                  r <- getReq ;;
                  err <- recordAttendance employee
                           (DetectionRequest.ScannerMac r) ;;
                  match err with
                  | Some err =>
                      ret (Some (Errorf "failed to record attendance: " err))
                  | None => ret None
                  end
              end
            else ret None
        end
  end.

End Service.

(* ===================================================================== *)
(** ** [internal/repository]: the PocketBase employee lookup *)
(* ===================================================================== *)

Module PocketBase.

(** What [httpClient.Do] and the decoding of the body come to: a transport
    failure, or a response with its status and its body, the body being
    the decoded [items] or the decoder's error. *)
Inductive httpReply :=
| transportError (err : error)
| httpResponse (statusCode : Z) (status : string)
    (body : error + list Employee.t).

Definition lowerByte (c : ascii) : ascii :=
  let n := nat_of_ascii c in
  if (65 <=? n)%nat && (n <=? 90)%nat then ascii_of_nat (n + 32) else c.

(** [strings.ToLower] on the ASCII text of a hardware address. *)
Fixpoint ToLower (s : string) : string :=
  match s with
  | EmptyString => EmptyString
  | String c rest => String (lowerByte c) (ToLower rest)
  end.

Definition errNotFound : error := errorString "employee not found".

(** [PocketBaseRESTEmployeeRepository.GetByMacAddress]; [server] answers
    the record query for a filter expression. *)
Definition GetByMacAddress (server : string -> httpReply)
    (macAddress : string) : Employee.t + error :=
  let filter :=
    "mac_address='" ++ ToLower macAddress ++ "' && is_active=true" in
  match server filter with
  | transportError err => inr err
  | httpResponse statusCode status body =>
      if negb (statusCode =? 200)
      then inr (errorString ("failed to get employee: " ++ status))
      else
        match body with
        | inl err => inr err
        | inr [] => inr errNotFound
        | inr (item :: _) => inl item
        end
  end.

End PocketBase.

(* ===================================================================== *)
(** ** Reading a run of [ProcessDetection] *)
(* ===================================================================== *)

(** The returned [error]; [None] is nil. *)
Definition result (s : AttendanceService) (st : State) : option error :=
  fst (ProcessDetection s st).

(** The request behind the pointer once the call has returned. *)
Definition finalReq (s : AttendanceService) (st : State)
  : DetectionRequest.t :=
  req (snd (ProcessDetection s st)).

(** The collaborator calls this run added to the history, oldest first. *)
Definition calls (s : AttendanceService) (st : State) : History :=
  skipn (List.length (history st)) (history (snd (ProcessDetection s st))).

Definition isDetectionCreate (c : Call) : bool :=
  match c with CallDetectionCreate _ _ => true | _ => false end.

Definition isAttendanceCreate (c : Call) : bool :=
  match c with CallAttendanceCreate _ _ => true | _ => false end.

Definition isNotification (c : Call) : bool :=
  match c with
  | CallSendPersonalNotification _ _ | CallSendNotification _ => true
  | _ => false
  end.

(** Writes of detection records, of attendance records, and notifications
    sent, among some calls. *)
Definition detectionWrites (h : History) : History :=
  filter isDetectionCreate h.
Definition attendanceWrites (h : History) : History :=
  filter isAttendanceCreate h.
Definition notifications (h : History) : History :=
  filter isNotification h.

(** The request as [ProcessDetection] marks it once the device is known
    to belong to [employee]. *)
Definition markTarget (employee : Employee.t) (r : DetectionRequest.t)
  : DetectionRequest.t :=
  DetectionRequest.setDeviceName (Employee.Name employee)
    (DetectionRequest.setIsTargetDevice true r).

(** What the lookup answers for the request of [st]. *)
Definition lookupAnswer (s : AttendanceService) (st : State)
  : Employee.t + error :=
  GetByMacAddress (employeeRepo s) (history st)
    (DetectionRequest.MacAddress (req st)).

Definition lookupCall (s : AttendanceService) (st : State) : Call :=
  CallGetByMacAddress (DetectionRequest.MacAddress (req st))
    (lookupAnswer s st).

(** What the check-in query answers for [employee], asked after the
    lookup. *)
Definition checkedInAnswer (s : AttendanceService) (st : State)
    (employee : Employee.t) : bool + error :=
  IsCheckedInToday (employeeRepo s) (history st ++ [lookupCall s st])%list
    (Employee.ID employee).

Definition checkedInCall (s : AttendanceService) (st : State)
    (employee : Employee.t) : Call :=
  CallIsCheckedInToday (Employee.ID employee) (checkedInAnswer s st employee).

(** The detection record [saveDetection] builds for [employee], and what
    the repository answers when asked to create it after the two
    queries. *)
Definition detectionOf (s : AttendanceService) (st : State)
    (employee : Employee.t) : EmployeeDetection.t :=
  let r := markTarget employee (req st) in
  EmployeeDetection.mk ""
    (Employee.ID employee)
    (DetectionRequest.MacAddress r)
    (DetectionRequest.ScannerMac r)
    (DetectionRequest.RSSI r)
    (DetectionRequest.DeviceType r)
    (DetectionRequest.IsITag03 r)
    true
    (Employee.Name employee)
    (clock s (history st ++ [lookupCall s st; checkedInCall s st employee])%list).

Definition detectionAnswer (s : AttendanceService) (st : State)
    (employee : Employee.t) : option error :=
  DetectionCreate (detectionRepo s)
    (history st ++ [lookupCall s st; checkedInCall s st employee])%list
    (detectionOf s st employee).

Definition detectionCall (s : AttendanceService) (st : State)
    (employee : Employee.t) : Call :=
  CallDetectionCreate (detectionOf s st employee)
    (detectionAnswer s st employee).


(** *** The attendance write and the outcomes of a run *)

(** The history when [recordAttendance] starts: the two queries and the
    detection write have been made. *)
Definition beforeAttendance (s : AttendanceService) (st : State)
    (employee : Employee.t) : History :=
  (history st
   ++ [lookupCall s st; checkedInCall s st employee;
       detectionCall s st employee])%list.

(** The attendance record [recordAttendance] builds for [employee], and
    what the repository answers when asked to create it. *)
Definition attendanceOf (s : AttendanceService) (st : State)
    (employee : Employee.t) : Attendance.t :=
  let now := clock s (beforeAttendance s st employee) in
  Attendance.mk ""
    (Employee.ID employee)
    now
    (DetectionRequest.ScannerMac (req st))
    (calculateStatus now (Employee.WorkStartTime employee))
    now.

Definition attendanceAnswer (s : AttendanceService) (st : State)
    (employee : Employee.t) : option error :=
  AttendanceCreate (attendanceRepo s) (beforeAttendance s st employee)
    (attendanceOf s st employee).

Definition attendanceCall (s : AttendanceService) (st : State)
    (employee : Employee.t) : Call :=
  CallAttendanceCreate (attendanceOf s st employee)
    (attendanceAnswer s st employee).

(** The error a collaborator call came back with, if any. *)
Definition failure (c : Call) : option error :=
  match c with
  | CallGetByMacAddress _ (inr err) => Some err
  | CallIsCheckedInToday _ (inr err) => Some err
  | CallDetectionCreate _ (Some err) => Some err
  | CallAttendanceCreate _ (Some err) => Some err
  | _ => None
  end.

(** An error and everything it wraps, outermost first: the errors that
    [errors.Is] compares against. *)
Fixpoint chain (e : error) : list error :=
  match e with
  | errorString _ => [e]
  | wrapError _ inner => e :: chain inner
  end.

(** The seven ways a run of [ProcessDetection] can go, each with the
    returned error, the request left behind and the calls made. *)
Inductive Outcome (s : AttendanceService) (st : State)
  : option error -> DetectionRequest.t -> History -> Prop :=
| Unknown (err : error) :
    lookupAnswer s st = inr err ->
    Outcome s st None (req st) [lookupCall s st]
| TooFar (employee : Employee.t) :
    lookupAnswer s st = inl employee ->
    DetectionRequest.RSSI (req st) < rssiThreshold ->
    Outcome s st None (markTarget employee (req st)) [lookupCall s st]
| CheckFailed (employee : Employee.t) (err : error) :
    lookupAnswer s st = inl employee ->
    rssiThreshold <= DetectionRequest.RSSI (req st) ->
    checkedInAnswer s st employee = inr err ->
    Outcome s st
      (Some (Errorf "failed to check attendance status: " err))
      (markTarget employee (req st))
      [lookupCall s st; checkedInCall s st employee]
| AlreadyArrived (employee : Employee.t) :
    lookupAnswer s st = inl employee ->
    rssiThreshold <= DetectionRequest.RSSI (req st) ->
    checkedInAnswer s st employee = inl true ->
    Outcome s st None (markTarget employee (req st))
      [lookupCall s st; checkedInCall s st employee]
| SaveFailed (employee : Employee.t) (err : error) :
    lookupAnswer s st = inl employee ->
    rssiThreshold <= DetectionRequest.RSSI (req st) ->
    checkedInAnswer s st employee = inl false ->
    detectionAnswer s st employee = Some err ->
    Outcome s st
      (Some (Errorf "failed to save detection: "
               (Errorf "failed to create detection: " err)))
      (markTarget employee (req st))
      [lookupCall s st; checkedInCall s st employee;
       detectionCall s st employee]
| RecordFailed (employee : Employee.t) (err : error) :
    lookupAnswer s st = inl employee ->
    rssiThreshold <= DetectionRequest.RSSI (req st) ->
    checkedInAnswer s st employee = inl false ->
    detectionAnswer s st employee = None ->
    attendanceAnswer s st employee = Some err ->
    Outcome s st
      (Some (Errorf "failed to record attendance: "
               (Errorf "failed to create attendance record: " err)))
      (markTarget employee (req st))
      [lookupCall s st; checkedInCall s st employee;
       detectionCall s st employee; attendanceCall s st employee]
| Recorded (employee : Employee.t) (message : string) (admin : History) :
    lookupAnswer s st = inl employee ->
    rssiThreshold <= DetectionRequest.RSSI (req st) ->
    checkedInAnswer s st employee = inl false ->
    detectionAnswer s st employee = None ->
    attendanceAnswer s st employee = None ->
    (Attendance.Status (attendanceOf s st employee) = "late" ->
     exists adminMessage, admin = [CallSendNotification adminMessage]) ->
    (Attendance.Status (attendanceOf s st employee) <> "late" ->
     admin = []) ->
    Outcome s st None (markTarget employee (req st))
      ([lookupCall s st; checkedInCall s st employee;
        detectionCall s st employee; attendanceCall s st employee;
        CallSendPersonalNotification (Employee.TelegramChatID employee)
          message] ++ admin)%list.


(** A store that remembers today's arrivals: once an attendance record
    has been created for an employee on the day the clock shows, the
    check-in query answers true for that employee. *)
Definition remembersToday (s : AttendanceService) : Prop :=
  forall (h : History) (a : Attendance.t),
    In (CallAttendanceCreate a None) h ->
    date (Attendance.CreatedDate a) = date (clock s h) ->
    IsCheckedInToday (employeeRepo s) h (Attendance.EmployeeID a) = inl true.


(** *** Sightings processed one after another *)

(** A successful attendance write for an employee. *)
Definition recordedFor (employeeID : string) (c : Call) : bool :=
  match c with
  | CallAttendanceCreate a None =>
      String.eqb (Attendance.EmployeeID a) employeeID
  | _ => false
  end.

(** The history after the service has processed the requests in turn,
    each run starting where the one before left off. *)
Definition serve (s : AttendanceService)
    (requests : list DetectionRequest.t) (h : History) : History :=
  fold_left
    (fun h r => history (snd (ProcessDetection s (mkState r h))))
    requests h.

(** A clock that stays within one calendar day. *)
Definition withinOneDay (s : AttendanceService) : Prop :=
  forall h h' : History, date (clock s h) = date (clock s h').



(* ===================================================================== *)
(** ** [internal/handlers]: the detection endpoint *)
(* ===================================================================== *)

Module Handlers.

(** What the handler reads of an [http.Request]. *)
Record Request := mkRequest {
  Method : string;
  Body : string
}.

(** What the handler leaves in the [http.ResponseWriter]. *)
Record Response := mkResponse {
  Code : Z;
  Payload : string
}.

Definition MethodPost : string := "POST".
Definition StatusOK : Z := 200.
Definition StatusBadRequest : Z := 400.
Definition StatusMethodNotAllowed : Z := 405.

(** [http.Error]: the status code, and the message on a line of its
    own. *)
Definition httpError (msg : string) (code : Z) : Response :=
  mkResponse code (msg ++ nl).

Section Handler.

(** [json.NewDecoder(r.Body).Decode(&req)]: the decoded request, or the
    decoder's error. *)
Variable Decode : string -> DetectionRequest.t + error.

(** [services.AttendanceProcessor]: anything with a [ProcessDetection]
    method. *)
Variable service : M (option error).

(** [HandleDetect] processes BLE scanner detection requests.  The result
    is the response and the collaborator calls made so far. *)
Definition HandleDetect (r : Request) (h : History) : Response * History :=
  if negb (String.eqb (Method r) MethodPost)
  then (httpError "Method not allowed" StatusMethodNotAllowed, h)
  else
    match Decode (Body r) with
    | inr _ => (httpError "Invalid request body" StatusBadRequest, h)
    | inl req =>
        (* Don't return error to client - detection is async *)
        let '(_, st) := service (mkState req h) in
        (mkResponse StatusOK "OK", history st)
    end.

End Handler.

End Handlers.



(* ===================================================================== *)
(** ** [internal/repository]: the attendance and detection records *)
(* ===================================================================== *)

Module Repository.

Import GoTime.

(** *** [t.Format] with the layouts ["2006-01-02"] and [time.RFC3339] *)

Fixpoint zeros (n : nat) : string :=
  match n with
  | O => ""
  | S n => "0" ++ zeros n
  end.

(** [appendInt]: the decimal form of [x], a minus sign first when it is
    negative, the digits padded with zeros to [width]. *)
Definition appendInt (x : Z) (width : nat) : string :=
  let digits := formatInt (Z.abs x) in
  (if x <? 0 then "-" else "")
  ++ zeros (width - String.length digits) ++ digits.

(** [t.Format("2006-01-02")]. *)
Definition formatDate (t : Time) : string :=
  appendInt (Year t) 4 ++ "-" ++ appendInt (Month t) 2
  ++ "-" ++ appendInt (Day t) 2.

(** The zone of [time.RFC3339]: [Z] for UTC, otherwise sign, hours and
    minutes of the offset. *)
Definition formatZone (offset : Z) : string :=
  if offset =? 0 then "Z"
  else
    let zone := Z.quot offset 60 in
    (if zone <? 0 then "-" else "+")
    ++ appendInt (Z.quot (Z.abs zone) 60) 2 ++ ":"
    ++ appendInt (Z.rem (Z.abs zone) 60) 2.

(** [t.Format(time.RFC3339)]. *)
Definition formatRFC3339 (t : Time) : string :=
  formatDate t ++ "T"
  ++ appendInt (Hour t) 2 ++ ":" ++ appendInt (Minute_ t) 2
  ++ ":" ++ appendInt (Second_ t) 2
  ++ formatZone (offsetAt (loc t) (sec t)).

(** The number a string of decimal digits denotes; used to read a
    formatted field back. *)
Fixpoint readDigits (s : string) (acc : Z) : Z :=
  match s with
  | EmptyString => acc
  | String c rest =>
      match digitVal c with
      | Some d => readDigits rest (acc * 10 + d)
      | None => acc
      end
  end.

(** *** Requests and replies *)

(** A value of the [map[string]interface{}] that [json.Marshal] turns
    into the request body. *)
Inductive value :=
| Str (s : string)
| Int (z : Z)
| Bool (b : bool).

Definition Data := list (string * value).

(** The string under a key, [""] when the key is absent or holds
    something else. *)
Fixpoint field (key : string) (data : Data) : string :=
  match data with
  | [] => ""
  | (k, v) :: rest =>
      if String.eqb k key
      then match v with Str s => s | _ => "" end
      else field key rest
  end.

(** What [httpClient.Do] comes to: a transport failure, or a response
    with its status code, status line and body, and what decoding the
    body gives. *)
Inductive reply (A : Type) :=
| transportError (err : error)
| response (statusCode : Z) (status body : string) (decoded : error + A).

Arguments transportError {A} err.
Arguments response {A} statusCode status body decoded.

(** *** [PocketBaseRESTEmployeeRepository.IsCheckedInToday] *)

(** The filter of the attendance query. *)
Definition checkInFilter (employeeID today : string) : string :=
  "employee_id='" ++ employeeID ++ "' && created_date='" ++ today ++ "'".

(** [server] answers the query on the attendance collection for a filter
    expression, [now] is [time.Now()].  The status code of the response
    is not looked at. *)
Definition IsCheckedInToday {Item : Type}
    (server : string -> reply (list Item)) (now : Time)
    (employeeID : string) : bool + error :=
  let today := formatDate now in
  let filter := checkInFilter employeeID today in
  match server filter with
  | transportError err => inr err
  | response _ _ _ (inl err) => inr err
  | response _ _ _ (inr items) => inl (0 <? List.length items)%nat
  end.

(** *** [PocketBaseRESTAttendanceRepository.Create] *)

Definition attendanceData (attendance : Attendance.t) : Data :=
  [ ("employee_id", Str (Attendance.EmployeeID attendance));
    ("check_in_time", Str (formatRFC3339 (Attendance.CheckInTime attendance)));
    ("scanner_mac", Str (Attendance.ScannerMac attendance));
    ("status", Str (Attendance.Status attendance));
    ("created_date", Str (formatDate (Attendance.CreatedDate attendance))) ].

Definition created (statusCode : Z) : bool :=
  (statusCode =? 200) || (statusCode =? 201).

(** [server] answers the POST on the attendance collection; the decoded
    body is the [id] of the new record.  The result is the returned
    error and the attendance behind the pointer, its [ID] set on
    success. *)
Definition AttendanceCreate (server : Data -> reply string)
    (attendance : Attendance.t) : option error * Attendance.t :=
  match server (attendanceData attendance) with
  | transportError err => (Some err, attendance)
  | response statusCode status body decoded =>
      if negb (created statusCode)
      then (Some (errorString ("failed to create attendance: " ++ status
                               ++ " - " ++ body)),
            attendance)
      else
        match decoded with
        | inl err => (Some err, attendance)
        | inr id =>
            (None,
             Attendance.mk id
               (Attendance.EmployeeID attendance)
               (Attendance.CheckInTime attendance)
               (Attendance.ScannerMac attendance)
               (Attendance.Status attendance)
               (Attendance.CreatedDate attendance))
        end
  end.

(** *** [PocketBaseRESTDetectionRepository.Create] *)

Definition detectionData (detection : EmployeeDetection.t) : Data :=
  [ ("employee_id", Str (EmployeeDetection.EmployeeID detection));
    ("mac_address",
     Str (PocketBase.ToLower (EmployeeDetection.MacAddress detection)));
    ("scanner_mac", Str (EmployeeDetection.ScannerMac detection));
    ("rssi", Int (EmployeeDetection.RSSI detection));
    ("device_type", Str (EmployeeDetection.DeviceType detection));
    ("is_itag03", Bool (EmployeeDetection.IsITag03 detection));
    ("is_target_device", Bool (EmployeeDetection.IsTargetDevice detection));
    ("device_name", Str (EmployeeDetection.DeviceName detection));
    ("detected_at",
     Str (formatRFC3339 (EmployeeDetection.DetectedAt detection))) ].

(** The body of the response is read only for the error text. *)
Definition DetectionCreate (server : Data -> reply unit)
    (detection : EmployeeDetection.t) : option error :=
  match server (detectionData detection) with
  | transportError err => Some err
  | response statusCode status body _ =>
      if negb (created statusCode)
      then Some (errorString ("failed to create detection: " ++ status
                              ++ " - " ++ body))
      else None
  end.

End Repository.

(** *** The service as [initApplication] wires it *)

(** The PocketBase server as the repositories see it; an answer may
    depend on the calls made before.  [now] is [time.Now]. *)
Record Backend := {
  employees : History -> string -> PocketBase.httpReply;
  attendanceQuery : History -> string -> Repository.reply (list Repository.Data);
  attendanceInsert : History -> Repository.Data -> Repository.reply string;
  detectionInsert : History -> Repository.Data -> Repository.reply unit;
  now : History -> GoTime.Time
}.

(** The service [initApplication] builds, over the three PocketBase
    repositories. *)
Definition attendanceService (b : Backend) : AttendanceService :=
  {| employeeRepo :=
       {| GetByMacAddress :=
            fun h => PocketBase.GetByMacAddress (employees b h);
          IsCheckedInToday :=
            fun h =>
              Repository.IsCheckedInToday (attendanceQuery b h) (now b h) |};
     attendanceRepo :=
       {| AttendanceCreate :=
            fun h attendance =>
              fst (Repository.AttendanceCreate (attendanceInsert b h)
                     attendance) |};
     detectionRepo :=
       {| DetectionCreate :=
            fun h => Repository.DetectionCreate (detectionInsert b h) |};
     clock := now b |}.



(* ===================================================================== *)
(** ** [bot]: the Telegram notifier *)
(* ===================================================================== *)

Module Bot.

Import GoTime.

(** *** [strconv.ParseInt(s, 10, 64)] *)

Inductive NumError := ErrSyntax | ErrRange.

Definition maxUint64 : Z := 2 ^ 64 - 1.

(** The loop of [ParseUint] in base 10: [n] is the value read so far.
    The result is the value and the error, [None] for nil. *)
Fixpoint parseDigits (s : string) (n : Z) : Z * option NumError :=
  match s with
  | EmptyString => (n, None)
  | String c rest =>
      match digitVal c with
      | None => (0, Some ErrSyntax)
      | Some d =>
          if maxUint64 / 10 + 1 <=? n
          then (maxUint64, Some ErrRange)   (* n*base overflows *)
          else
            let n1 := n * 10 + d in
            if maxUint64 <? n1
            then (maxUint64, Some ErrRange) (* n+d overflows *)
            else parseDigits rest n1
      end
  end.

Definition ParseUint (s : string) : Z * option NumError :=
  match s with
  | EmptyString => (0, Some ErrSyntax)
  | _ => parseDigits s 0
  end.

Definition ParseInt (s : string) : Z * option NumError :=
  match s with
  | EmptyString => (0, Some ErrSyntax)
  | String c rest =>
      (* Pick off leading sign. *)
      let '(neg, digits) :=
        if Ascii.eqb c "+" then (false, rest)
        else if Ascii.eqb c "-" then (true, rest)
        else (false, s) in
      (* Convert unsigned and check range. *)
      let '(un, err) := ParseUint digits in
      match err with
      | Some ErrSyntax => (0, Some ErrSyntax)
      | _ =>
          let cutoff := 2 ^ 63 in
          if negb neg && (cutoff <=? un) then (cutoff - 1, Some ErrRange)
          else if neg && (cutoff <? un) then (- cutoff, Some ErrRange)
          else (if neg then - un else un, None)
      end
  end.

(** *** The package state and the two senders *)

(** A [tgbotapi.MessageConfig] as the senders fill it in. *)
Record Message := mkMessage {
  ChatID : Z;
  Text : string;
  ParseMode : string
}.

Section Telegram.

(** [*tgbotapi.BotAPI], and [tgbotapi.NewBotAPI], which answers with a
    bot or with nil and an error. *)
Variable BotAPI : Type.
Variable NewBotAPI : string -> BotAPI + error.

(** The package variables [bot] and [targetChatID], and the messages
    handed to [bot.Send] so far.  A failed [Send] is only logged. *)
Record Globals := mkGlobals {
  bot : option BotAPI;
  targetChatID : Z;
  sent : list Message
}.

(** The variables before [Init]: a nil bot and chat 0. *)
Definition start : Globals := mkGlobals None 0 [].

(** [Init] initializes the Telegram Bot. *)
Definition Init (token authorizedChatIDStr : string) (g : Globals)
  : option error * Globals :=
  match NewBotAPI token with
  | inr err => (Some err, mkGlobals None (targetChatID g) (sent g))
  | inl b =>
      let id :=
        if negb (String.eqb authorizedChatIDStr "") then
          match ParseInt authorizedChatIDStr with
          | (id, None) => id
          | (_, Some _) => targetChatID g
          end
        else targetChatID g in
      (None, mkGlobals (Some b) id (sent g))
  end.

(** [SendNotification] sends message to admin. *)
Definition SendNotification (message : string) (g : Globals) : Globals :=
  match bot g with
  | None => g
  | Some _ =>
      if targetChatID g =? 0 then g
      else mkGlobals (bot g) (targetChatID g)
             (sent g ++ [mkMessage (targetChatID g) message "Markdown"])
  end.

(** [SendPersonalNotification] sends to specific user. *)
Definition SendPersonalNotification (chatID : Z) (message : string)
    (g : Globals) : Globals :=
  match bot g with
  | None => g
  | Some _ =>
      mkGlobals (bot g) (targetChatID g)
        (sent g ++ [mkMessage chatID message "Markdown"])
  end.

(** [Notifier]: what the service's notifier calls do to the package
    state; the other collaborators do not touch it. *)
Definition relay (g : Globals) (c : Call) : Globals :=
  match c with
  | CallSendPersonalNotification chatID message =>
      SendPersonalNotification chatID message g
  | CallSendNotification message => SendNotification message g
  | _ => g
  end.

Definition deliver (calls : History) (g : Globals) : Globals :=
  fold_left relay calls g.

End Telegram.

Arguments mkGlobals {BotAPI} bot targetChatID sent.
Arguments bot {BotAPI} g.
Arguments targetChatID {BotAPI} g.
Arguments sent {BotAPI} g.
Arguments start {BotAPI}.
Arguments Init {BotAPI} NewBotAPI token authorizedChatIDStr g.
Arguments SendNotification {BotAPI} message g.
Arguments SendPersonalNotification {BotAPI} chatID message g.
Arguments relay {BotAPI} g c.
Arguments deliver {BotAPI} calls g.

(** The number a decimal numeral denotes when read after [n]; used to
    follow [ParseInt] over a formatted number. *)
Fixpoint uintVal (d : Decimal.uint) (n : Z) : Z :=
  match d with
  | Decimal.Nil => n
  | Decimal.D0 d => uintVal d (n * 10)
  | Decimal.D1 d => uintVal d (n * 10 + 1)
  | Decimal.D2 d => uintVal d (n * 10 + 2)
  | Decimal.D3 d => uintVal d (n * 10 + 3)
  | Decimal.D4 d => uintVal d (n * 10 + 4)
  | Decimal.D5 d => uintVal d (n * 10 + 5)
  | Decimal.D6 d => uintVal d (n * 10 + 6)
  | Decimal.D7 d => uintVal d (n * 10 + 7)
  | Decimal.D8 d => uintVal d (n * 10 + 8)
  | Decimal.D9 d => uintVal d (n * 10 + 9)
  end.

(** The reply to the [getid] command. *)
Definition getid (chatID : Z) : string :=
  "Chat ID: `" ++ formatInt chatID ++ "`".

(** *** [registerEmployee] *)

Definition upperByte (c : ascii) : ascii :=
  let n := nat_of_ascii c in
  if (97 <=? n)%nat && (n <=? 122)%nat then ascii_of_nat (n - 32) else c.

(** [strings.ToUpper] on the ASCII text of a hardware address. *)
Fixpoint ToUpper (s : string) : string :=
  match s with
  | EmptyString => EmptyString
  | String c rest => String (upperByte c) (ToUpper rest)
  end.

Definition employeeData (mac : string) (chatID : Z)
    (name code dept : string) : Repository.Data :=
  [ ("mac_address", Repository.Str (ToUpper mac));
    ("telegram_chat_id", Repository.Int chatID);
    ("name", Repository.Str name);
    ("employee_code", Repository.Str code);
    ("department", Repository.Str dept);
    ("is_active", Repository.Bool true) ].

(** [server] answers the POST to a URL; [pbURL] is the package
    variable. *)
Definition registerEmployee (pbURL : string)
    (server : string -> Repository.Data -> Repository.reply unit)
    (mac : string) (chatID : Z) (name code dept : string) : option error :=
  if String.eqb pbURL "" then Some (errorString "PocketBase URL not set")
  else
    let url := pbURL ++ "/api/collections/employees/records" in
    match server url (employeeData mac chatID name code dept) with
    | Repository.transportError err => Some err
    | Repository.response statusCode status body _ =>
        if negb (Repository.created statusCode)
        then Some (errorString (status ++ ": " ++ body))
        else None
    end.

(** Bytes of the ASCII range, and ASCII letters. *)
Definition isASCII (s : string) : bool :=
  forallb (fun c => (nat_of_ascii c <? 128)%nat) (list_ascii_of_string s).

Definition isLetter (c : ascii) : bool :=
  let n := nat_of_ascii c in
  ((65 <=? n)%nat && (n <=? 90)%nat) || ((97 <=? n)%nat && (n <=? 122)%nat).

Definition hasLetter (s : string) : bool :=
  existsb isLetter (list_ascii_of_string s).

(** A server that holds one employee under a stored address and compares
    the address of a lookup with it character by character. *)
Definition exactServer (stored : string) (employee : Employee.t)
    (filter : string) : PocketBase.httpReply :=
  if String.eqb filter ("mac_address='" ++ stored ++ "' && is_active=true")
  then PocketBase.httpResponse 200 "200 OK" (inr [employee])
  else PocketBase.httpResponse 200 "200 OK" (inr []).

End Bot.



(* ===================================================================== *)
(** ** [firmware/scanner]: how the scanner classifies a device *)
(* ===================================================================== *)

Module Scanner.

(** What the firmware reads of a [BLEAdvertisedDevice]; the service UUID
    is its [toString()], the manufacturer data a string of bytes. *)
Record BLEAdvertisedDevice := mkDevice {
  haveServiceUUID : bool;
  getServiceUUID : string;
  haveManufacturerData : bool;
  getManufacturerData : string;
  haveName : bool;
  getName : string;
  getRSSI : Z
}.

(** The C string in the buffer of an Arduino [String]: the bytes before
    the first NUL. *)
Fixpoint cstr (s : string) : string :=
  match s with
  | EmptyString => EmptyString
  | String c rest =>
      if Ascii.eqb c zero then EmptyString else String c (cstr rest)
  end.

(** [s.indexOf(needle) >= 0]: [strstr] over the buffer of [s]. *)
Definition found (needle s : string) : bool :=
  match String.index 0 (cstr needle) (cstr s) with
  | Some _ => true
  | None => false
  end.

(** [(uint8_t)s[i]], 0 past the end. *)
Definition byteAt (s : string) (i : nat) : Z :=
  match String.get i s with
  | Some c => Z.of_nat (nat_of_ascii c)
  | None => 0
  end.

(** [(uint8_t)manuData[0] | ((uint8_t)manuData[1] << 8)] as [uint16_t]. *)
Definition companyId (manuData : string) : Z :=
  Z.lor (byteAt manuData 0) (Z.shiftl (byteAt manuData 1) 8).

(** Apple Find My network company ID *)
Definition APPLE_COMPANY_ID : Z := 76.

(** [isITag03]: check if device is iTag03 based on advertisement
    patterns. *)
Definition isITag03 (dev : BLEAdvertisedDevice) : bool :=
  if haveServiceUUID dev
     && (found "fd6f" (getServiceUUID dev)
         || found "FD6F" (getServiceUUID dev))
  then true
  else if haveManufacturerData dev
          && (2 <=? String.length (getManufacturerData dev))%nat
          && (companyId (getManufacturerData dev) =? APPLE_COMPANY_ID)
  then true
  else if haveName dev
          && (found "iTag" (getName dev)
              || found "ITAG" (getName dev)
              || (String.length (getName dev) =? 0)%nat)
          && (-65 <? getRSSI dev)
  then true
  else false.

(** The [switch] on the company ID; [None] is its [default]. *)
Definition vendor (id : Z) : option string :=
  if id =? 76 then Some "Apple"
  else if id =? 117 then Some "Samsung"
  else if id =? 6 then Some "Microsoft"
  else if id =? 261 then Some "Google"
  else None.

Definition serviceType (dev : BLEAdvertisedDevice) : string :=
  if haveServiceUUID dev then
    if found "fe9f" (getServiceUUID dev) || found "FE9F" (getServiceUUID dev)
    then "Tile"
    else if found "fd6f" (getServiceUUID dev)
            || found "FD6F" (getServiceUUID dev)
    then "FindMy_Tag"
    else "Unknown"
  else "Unknown".

(** [getDeviceType]: get device type string. *)
Definition getDeviceType (dev : BLEAdvertisedDevice) : string :=
  if isITag03 dev then "iTag03"
  else
    (* Check for other device types *)
    let byVendor :=
      if haveManufacturerData dev
         && (2 <=? String.length (getManufacturerData dev))%nat
      then vendor (companyId (getManufacturerData dev))
      else None in
    match byVendor with
    | Some type => type
    | None =>
        (* Check service UUIDs for specific devices *)
        serviceType dev
    end.

End Scanner.



(* ===================================================================== *)
(** ** Sample data, after [attendance_test.go] and [detection_test.go] *)
(* ===================================================================== *)

Module Samples.

(** The deployment's zone, UTC+7 without transitions. *)
Definition bangkok : Location := FixedZone (7 * 3600).

(** [time.Date(2026, 2, 1, h, m, s, 0, time.Local)]. *)
Definition feb1 (h m s : Z) : Time := Date 2026 2 1 h m s 0 bangkok.

(** What ["08:00:00"] parses to. *)
Definition eightOClock : Time := Date 0 1 1 8 0 0 0 UTC.

(** New York in 2026, a zone with transitions: daylight saving time from
    8 March 07:00 UTC to 1 November 06:00 UTC. *)
Definition eastern : Location :=
  mkLocation (-18000)
    [mkZoneTrans 1772953200 (-14400); mkZoneTrans 1793512800 (-18000)].

(** [time.Date(2026, 7, 1, h, m, s, 0, eastern)]. *)
Definition july1 (h m s : Z) : Time := Date 2026 7 1 h m s 0 eastern.

Definition somchai : Employee.t :=
  Employee.mk "emp001" 123456789 "Somchai" "11:22:33:44:55:66" "08:00:00"
    true.

(** The request of [detection_test.go], with the signal strength left
    open. *)
Definition request (rssi : Z) : DetectionRequest.t :=
  DetectionRequest.mk "AA:BB:CC:DD:EE:FF" "11:22:33:44:55:66" rssi "iTag03"
    true false "".

(** A fresh sighting: the request and an empty history. *)
Definition sighting (rssi : Z) : State := mkState (request rssi) [].

(** Collaborators with fixed answers. *)
Definition stub (found : Employee.t + error) (checked : bool + error)
    (detection attendance : option error) (now : Time)
  : AttendanceService :=
  {| employeeRepo :=
       {| GetByMacAddress := fun _ _ => found;
          IsCheckedInToday := fun _ _ => checked |};
     attendanceRepo := {| AttendanceCreate := fun _ _ => attendance |};
     detectionRepo := {| DetectionCreate := fun _ _ => detection |};
     clock := fun _ => now |}.

(** A PocketBase server that is up and knows [somchai], and one that
    answers every query with a server error. *)
Definition serverUp (filter : string) : PocketBase.httpReply :=
  if String.eqb filter "mac_address='11:22:33:44:55:66' && is_active=true"
  then PocketBase.httpResponse 200 "200 OK" (inr [somchai])
  else PocketBase.httpResponse 200 "200 OK" (inr []).

Definition serverDown (filter : string) : PocketBase.httpReply :=
  PocketBase.httpResponse 500 "500 Internal Server Error" (inr []).

Definition sameDay (t u : Time) : bool :=
  let '(y1, m1, d1) := date t in
  let '(y2, m2, d2) := date u in
  (y1 =? y2) && (m1 =? m2) && (d1 =? d2).

(** Did an earlier call create an attendance record for this employee on
    the day of [now]? *)
Definition attended (now : Time) (employeeID : string) (c : Call) : bool :=
  match c with
  | CallAttendanceCreate a None =>
      String.eqb (Attendance.EmployeeID a) employeeID
      && sameDay (Attendance.CreatedDate a) now
  | _ => false
  end.

(** Collaborators over the PocketBase lookup and an attendance store that
    remembers what was created; every write succeeds. *)
Definition office (server : string -> PocketBase.httpReply) (now : Time)
  : AttendanceService :=
  {| employeeRepo :=
       {| GetByMacAddress := fun _ => PocketBase.GetByMacAddress server;
          IsCheckedInToday :=
            fun h employeeID => inl (existsb (attended now employeeID) h) |};
     attendanceRepo := {| AttendanceCreate := fun _ _ => None |};
     detectionRepo := {| DetectionCreate := fun _ _ => None |};
     clock := fun _ => now |}.

(** Check-in at 08:06:00 on 1 February 2026. *)
Definition morning : Time := feb1 8 6 0.

(** The history once the office has processed a first sighting, and the
    same sighting arriving again after it. *)
Definition firstRun : History :=
  history (snd (ProcessDetection (office serverUp morning) (sighting (-50)))).

Definition replay : State := mkState (request (-50)) firstRun.

(** A later sighting by the same tag, after the office has processed the
    first one and made the calls [later]. *)
Definition afterwards (later : History) (rssi : Z) : State :=
  mkState (request rssi) (firstRun ++ later)%list.

Definition refused : error := errorString "connection refused".


(** Collaborators whose detection repository refuses every write, and
    collaborators whose check-in query fails. *)
Definition brokenAudit : AttendanceService :=
  stub (inl somchai) (inl false) (Some refused) None morning.

Definition brokenQuery : AttendanceService :=
  stub (inl somchai) (inr refused) None None morning.

Definition serverError : error :=
  errorString "failed to get employee: 500 Internal Server Error".

(** Collaborators whose attendance repository refuses every write. *)
Definition brokenStore : AttendanceService :=
  stub (inl somchai) (inl false) None (Some refused) morning.

(** The bodies a PocketBase server sends, as JSON text. *)
Definition dq : string := String (ascii_of_nat 34) EmptyString.

(** An empty page of records: an object whose [items] is the empty
    list. *)
Definition noItems : string := "{" ++ dq ++ "items" ++ dq ++ ":[]}".

(** A new record: an object with its [id]. *)
Definition recordBody (id : string) : string :=
  "{" ++ dq ++ "id" ++ dq ++ ":" ++ dq ++ id ++ dq ++ "}".

(** An error: an object with [code], [message] and [data], and no
    [items]. *)
Definition errorBody (code message : string) : string :=
  "{" ++ dq ++ "code" ++ dq ++ ":" ++ code ++ ","
  ++ dq ++ "message" ++ dq ++ ":" ++ dq ++ message ++ dq ++ ","
  ++ dq ++ "data" ++ dq ++ ":{}}".

(** A PocketBase server that knows [somchai] and accepts every write,
    but refuses the attendance query (the token may not list that
    collection); its error body decodes to a result without items. *)
Definition forbidden : Backend :=
  {| employees := fun _ => serverUp;
     attendanceQuery :=
       fun _ _ =>
         Repository.response 403 "403 Forbidden"
           (errorBody "403" "Only superusers can perform this action.")
           (inr []);
     attendanceInsert :=
       fun _ _ =>
         Repository.response 200 "200 OK" (recordBody "att001")
           (inr "att001");
     detectionInsert :=
       fun _ _ =>
         Repository.response 200 "200 OK" (recordBody "det001") (inr tt);
     now := fun _ => morning |}.

(** A server that rejects every detection record, and one whose answer to
    an attendance insert is not JSON. *)
Definition rejecting : Backend :=
  {| employees := fun _ => serverUp;
     attendanceQuery :=
       fun _ _ => Repository.response 200 "200 OK" noItems (inr []);
     attendanceInsert :=
       fun _ _ =>
         Repository.response 200 "200 OK" (recordBody "att001")
           (inr "att001");
     detectionInsert :=
       fun _ _ =>
         Repository.response 400 "400 Bad Request"
           (errorBody "400" "Failed to create record.") (inr tt);
     now := fun _ => morning |}.

Definition garbled : Backend :=
  {| employees := fun _ => serverUp;
     attendanceQuery :=
       fun _ _ => Repository.response 200 "200 OK" noItems (inr []);
     attendanceInsert :=
       fun _ _ =>
         Repository.response 200 "200 OK" "<html>"
           (inl (errorString
                   "invalid character '<' looking for beginning of value"));
     detectionInsert :=
       fun _ _ =>
         Repository.response 200 "200 OK" (recordBody "det001") (inr tt);
     now := fun _ => morning |}.

(** A Telegram that accepts every token but the empty one. *)
Definition login (token : string) : unit + error :=
  if String.eqb token "" then inr (errorString "Not Found") else inl tt.


End Samples.


(* ===================================================================== *)
(** ** Facts about the time model *)
(* ===================================================================== *)

Module GoTimeFacts.

Ltac divmod := Z.div_mod_to_equations; Z.quot_rem_to_equations; lia.

Lemma Second_value : Second = 1000000000.
Proof. reflexivity. Qed.

Lemma Minute_value : Minute = 60000000000.
Proof. reflexivity. Qed.

Lemma sec_nsec (t : Time) :
  unixNano t = sec t * 1000000000 + nsec t /\ 0 <= nsec t < 1000000000.
Proof. unfold sec, nsec; rewrite Second_value; divmod. Qed.

Lemma unixNano_unixTime s ns l : unixNano (unixTime s ns l) = s * 1000000000 + ns.
Proof. reflexivity. Qed.

(** [Before] is the strict order of the instants. *)
Lemma Before_lt (t u : Time) : Before t u = (unixNano t <? unixNano u).
Proof.
  apply Bool.eq_iff_eq_true. unfold Before.
  rewrite orb_true_iff, andb_true_iff, !Z.ltb_lt, Z.eqb_eq.
  destruct (sec_nsec t) as [Et Ht], (sec_nsec u) as [Eu Hu]. lia.
Qed.

Lemma Equal_eq (t u : Time) : Equal t u = (unixNano t =? unixNano u).
Proof.
  apply Bool.eq_iff_eq_true. unfold Equal.
  rewrite andb_true_iff, !Z.eqb_eq.
  destruct (sec_nsec t) as [Et Ht], (sec_nsec u) as [Eu Hu]. lia.
Qed.

(** [Add] moves the instant by the duration and keeps the location. *)
Lemma unixNano_Add (t : Time) (d : Duration) :
  unixNano (Add t d) = unixNano t + d.
Proof.
  unfold Add. destruct (sec_nsec t) as [Et Ht].
  destruct (1000000000 <=? nsec t + Z.rem d 1000000000) eqn:E1;
    [| destruct (nsec t + Z.rem d 1000000000 <? 0) eqn:E2];
    rewrite unixNano_unixTime, Et; divmod.
Qed.

Lemma wrap64_small (z : Z) : - 2 ^ 63 <= z <= 2 ^ 63 - 1 -> wrap64 z = z.
Proof. unfold wrap64. intros H. divmod. Qed.

(** [Sub] is the difference of the instants whenever that fits [int64]. *)
Lemma Sub_exact (t u : Time) :
  minDuration <= unixNano t - unixNano u <= maxDuration ->
  Sub t u = unixNano t - unixNano u.
Proof.
  unfold minDuration, maxDuration. intros H. unfold Sub.
  destruct (sec_nsec t) as [Et Ht], (sec_nsec u) as [Eu Hu].
  rewrite Second_value.
  replace ((sec t - sec u) * 1000000000 + (nsec t - nsec u))
    with (unixNano t - unixNano u) by lia.
  rewrite wrap64_small by exact H.
  rewrite Equal_eq, unixNano_Add.
  replace (unixNano u + (unixNano t - unixNano u)) with (unixNano t) by lia.
  rewrite Z.eqb_refl. reflexivity.
Qed.

(** *** The calendar *)

(** Within a 400-year era the day of the era determines the year of the
    era and the day of the (March-based) year. *)
Lemma yoe_doy_range (doe : Z) :
  0 <= doe < 146097 ->
  let yoe := (doe - doe / 1460 + doe / 36524 - doe / 146096) / 365 in
  let doy := doe - (365 * yoe + yoe / 4 - yoe / 100) in
  0 <= yoe < 400 /\ 0 <= doy < 366.
Proof. intros H; cbv zeta; divmod. Qed.

Lemma mp_range (doy : Z) :
  0 <= doy < 366 ->
  let mp := (5 * doy + 2) / 153 in
  0 <= mp < 12 /\ 1 <= doy - (153 * mp + 2) / 5 + 1 <= 31.
Proof. intros H; cbv zeta; divmod. Qed.

(** The month of a civil date lies in 1..12 and the day in 1..31. *)
Lemma civilFromDays_range (z : Z) :
  let '(y, m, d) := civilFromDays z in 1 <= m <= 12 /\ 1 <= d <= 31.
Proof.
  unfold civilFromDays.
  set (z' := z + 719468).
  set (era := z' / 146097).
  set (doe := z' - era * 146097).
  assert (Hdoe : 0 <= doe < 146097) by (unfold doe, era; divmod).
  pose proof (yoe_doy_range doe Hdoe) as Hy. cbv zeta in Hy.
  set (yoe := (doe - doe / 1460 + doe / 36524 - doe / 146096) / 365) in *.
  set (doy := doe - (365 * yoe + yoe / 4 - yoe / 100)) in *.
  destruct Hy as [Hyoe Hdoy].
  pose proof (mp_range doy Hdoy) as Hm. cbv zeta in Hm.
  set (mp := (5 * doy + 2) / 153) in *.
  destruct Hm as [Hmp Hd].
  destruct (mp <? 10) eqn:E; [apply Z.ltb_lt in E | apply Z.ltb_ge in E]; lia.
Qed.

(** Converting a day number to a civil date and back gives the day number. *)
Lemma daysFromCivil_civilFromDays (z : Z) :
  let '(y, m, d) := civilFromDays z in daysFromCivil y m d = z.
Proof.
  unfold civilFromDays.
  set (z' := z + 719468).
  set (era := z' / 146097).
  set (doe := z' - era * 146097).
  assert (Hdoe : 0 <= doe < 146097) by (unfold doe, era; divmod).
  pose proof (yoe_doy_range doe Hdoe) as Hy. cbv zeta in Hy.
  set (yoe := (doe - doe / 1460 + doe / 36524 - doe / 146096) / 365) in *.
  set (doy := doe - (365 * yoe + yoe / 4 - yoe / 100)) in *.
  destruct Hy as [Hyoe Hdoy].
  pose proof (mp_range doy Hdoy) as Hm. cbv zeta in Hm.
  set (mp := (5 * doy + 2) / 153) in *.
  destruct Hm as [Hmp Hd].
  set (m := if mp <? 10 then mp + 3 else mp - 9).
  unfold daysFromCivil.
  assert (Hy' : (if m <=? 2 then (if m <=? 2 then yoe + era * 400 + 1
                                   else yoe + era * 400) - 1
                 else (if m <=? 2 then yoe + era * 400 + 1
                       else yoe + era * 400)) = yoe + era * 400).
  { destruct (m <=? 2); lia. }
  rewrite Hy'.
  assert (Hmp' : (if 2 <? m then m - 3 else m + 9) = mp).
  { unfold m. destruct (mp <? 10) eqn:E;
      [apply Z.ltb_lt in E | apply Z.ltb_ge in E].
    - destruct (2 <? mp + 3) eqn:E'; [lia | apply Z.ltb_ge in E'; lia].
    - destruct (2 <? mp - 9) eqn:E'; [apply Z.ltb_lt in E'; lia | lia]. }
  rewrite Hmp'.
  assert (Hera : (yoe + era * 400) / 400 = era) by divmod.
  rewrite Hera.
  replace (yoe + era * 400 - era * 400) with yoe by lia.
  unfold doy, doe, z'. lia.
Qed.

(** The day of the month enters the day number linearly. *)
Lemma daysFromCivil_day (y m d : Z) :
  daysFromCivil y m 1 + (d - 1) = daysFromCivil y m d.
Proof. unfold daysFromCivil. lia. Qed.


(** *** Locations *)

Lemma lookupFrom_offset off start l s :
  In (fst (fst (lookupFrom off start l s))) (off :: map zoffset l).
Proof.
  revert off start. induction l as [| t rest IH]; intros off start; simpl.
  - left; reflexivity.
  - destruct (s <? when t).
    + left; reflexivity.
    + right. apply IH.
Qed.

Lemma lookup_offset l s : In (fst (fst (lookup l s))) (offsets l).
Proof. apply lookupFrom_offset. Qed.

Lemma offsetAt_In l s : In (offsetAt l s) (offsets l).
Proof. apply lookup_offset. Qed.

(** Two offsets of one location are less than two days apart. *)
Lemma offsetsFit_close l o1 o2 :
  offsetsFit l -> In o1 (offsets l) -> In o2 (offsets l) ->
  - 172800 < o1 - o2 < 172800.
Proof.
  intros [Hnil | Hall] H1 H2.
  - unfold offsets in H1, H2. rewrite Hnil in H1, H2. simpl in H1, H2.
    destruct H1 as [<- | []], H2 as [<- | []]. lia.
  - rewrite Forall_forall in Hall.
    pose proof (Hall o1 H1). pose proof (Hall o2 H2). lia.
Qed.

Lemma offsets_FixedZone off o : In o (offsets (FixedZone off)) -> o = off.
Proof. simpl. intros [H | []]. symmetry; exact H. Qed.

(** *** Clock fields *)

Lemma Hour_range (t : Time) : 0 <= Hour t < 24.
Proof. unfold Hour, secondsPerDay, secondsPerHour, secondsPerMinute. divmod. Qed.

Lemma Minute_range (t : Time) : 0 <= Minute_ t < 60.
Proof. unfold Minute_, secondsPerHour, secondsPerMinute. divmod. Qed.

Lemma Second_range (t : Time) : 0 <= Second_ t < 60.
Proof. unfold Second_, secondsPerMinute. divmod. Qed.

(** *** [Date] on fields that are already in range *)

Lemma Date_in_range (y m d h mi s : Z) (l : Location) :
  1 <= m <= 12 -> 0 <= h < 24 -> 0 <= mi < 60 -> 0 <= s < 60 ->
  exists off,
    In off (offsets l) /\
    Date y m d h mi s 0 l =
      unixTime (daysFromCivil y m d * 86400 + (h * 3600 + mi * 60 + s) - off)
               0 l.
Proof.
  intros Hm Hh Hmi Hs. unfold Date, norm.
  replace ((m - 1) / 12) with 0 by divmod.
  replace ((m - 1) mod 12 + 1) with m by divmod.
  replace (0 / 1000000000) with 0 by reflexivity.
  replace (0 mod 1000000000) with 0 by reflexivity.
  replace (s + 0) with s by lia.
  replace (s / 60) with 0 by divmod.
  replace (s mod 60) with s by divmod.
  replace (mi + 0) with mi by lia.
  replace (mi / 60) with 0 by divmod.
  replace (mi mod 60) with mi by divmod.
  replace (h + 0) with h by lia.
  replace (h / 24) with 0 by divmod.
  replace (h mod 24) with h by divmod.
  replace (y + 0) with y by lia.
  replace (d + 0) with d by lia.
  rewrite daysFromCivil_day.
  change secondsPerDay with 86400.
  change secondsPerHour with 3600.
  change secondsPerMinute with 60.
  set (unix := daysFromCivil y m d * 86400 + (h * 3600 + mi * 60 + s)).
  pose proof (lookup_offset l unix) as Hin.
  destruct (lookup l unix) as [[offset start] end_]. simpl in Hin.
  destruct (offset =? 0) eqn:E0.
  - apply Z.eqb_eq in E0. exists offset. split; [exact Hin |].
    f_equal. lia.
  - destruct ((unix - offset <? start) || (end_ <=? unix - offset)).
    + exists (offsetAt l (unix - offset)). split; [apply offsetAt_In |].
      reflexivity.
    + exists offset. split; [exact Hin | reflexivity].
Qed.


(** *** Rounding: what [int(d.Minutes())] comes to

    [Minutes] rounds twice, once in the division and once in the sum.
    Each rounding keeps the leading 53 bits of the exact mantissa and adds
    at most one unit in the last place; that bound, without the direction
    of the rounding, is enough to show that the fraction of a minute stays
    at or below 1 - 2^-36 and that adding it to a whole number of minutes
    below 2^16 never reaches the next whole number. *)

(** [digits2_pos] is the bit length. *)

Lemma digits2_size p : digits2_pos p = Pos.size p.
Proof. induction p; simpl; congruence. Qed.

(** A positive number lies between the powers of two around its bit
    length. *)
Lemma digits2_bounds p :
  2 ^ (Zpos (digits2_pos p) - 1) <= Zpos p < 2 ^ Zpos (digits2_pos p).
Proof.
  rewrite digits2_size.
  pose proof (Pos.size_gt p) as Hgt.
  pose proof (Pos.size_le p) as Hle.
  assert (E : forall q, Zpos (2 ^ q) = 2 ^ Zpos q).
  { intros q. rewrite Pos2Z.inj_pow. reflexivity. }
  apply Pos2Z.pos_lt_pos in Hgt. rewrite E in Hgt.
  apply Pos2Z.pos_le_pos in Hle. rewrite E in Hle.
  split; [| exact Hgt].
  replace (Zpos (Pos.size p)) with (Zpos (Pos.size p) - 1 + 1) in Hle by lia.
  rewrite Z.pow_add_r in Hle by lia.
  change (Zpos p~0) with (2 * Zpos p) in Hle. lia.
Qed.

(** The bit length is the only exponent with that property. *)
Lemma digits_unique m d :
  0 < m -> 2 ^ (d - 1) <= m < 2 ^ d -> 0 < d -> Zdigits2 m = d.
Proof.
  intros Hm H Hd. destruct m as [| p | p]; try lia.
  simpl. pose proof (digits2_bounds p) as B.
  set (d' := Zpos (digits2_pos p)) in *.
  assert (0 < d') by (unfold d'; lia).
  destruct (Z.lt_trichotomy d' d) as [L | [E | G]]; [| exact E |].
  - exfalso. assert (2 ^ d' <= 2 ^ (d - 1)) by (apply Z.pow_le_mono_r; lia). lia.
  - exfalso. assert (2 ^ d <= 2 ^ (d' - 1)) by (apply Z.pow_le_mono_r; lia). lia.
Qed.

(** The specification's iterator is [Pos.iter]. *)
Lemma iter_pos_iter {A} (f : A -> A) p x : iter_pos f p x = Pos.iter f x p.
Proof.
  revert x. induction p; intros x; simpl; rewrite ?IHp; try reflexivity.
  rewrite !Pos.iter_swap. reflexivity.
Qed.

(** One step of the right shift halves the mantissa. *)
Lemma shr_1_m mrs : 0 <= shr_m mrs -> shr_m (shr_1 mrs) = shr_m mrs / 2.
Proof.
  destruct mrs as [m r s]. cbn [shr_m]. intros H.
  destruct m as [| [p | p |] | p]; cbn [shr_1 shr_m]; try lia.
  - reflexivity.
  - rewrite (Pos2Z.inj_xI p). divmod.
  - rewrite (Pos2Z.inj_xO p). divmod.
  - reflexivity.
Qed.

(** [n] steps divide it by 2^n. *)
Lemma shr_iter_m n mrs :
  0 <= shr_m mrs ->
  shr_m (Nat.iter n shr_1 mrs) = shr_m mrs / 2 ^ Z.of_nat n.
Proof.
  intros H. induction n as [| n IH].
  - simpl. rewrite Z.div_1_r. reflexivity.
  - rewrite Nat2Z.inj_succ.
    change (Nat.iter (S n) shr_1 mrs) with (shr_1 (Nat.iter n shr_1 mrs)).
    rewrite shr_1_m.
    + rewrite IH. rewrite Z.pow_succ_r by lia.
      rewrite Z.div_div by lia. f_equal. lia.
    + rewrite IH. apply Z.div_pos; lia.
Qed.

(** The mantissa after [shr]: a right shift when the amount is positive. *)
Lemma shr_m_spec mrs e n :
  0 <= shr_m mrs ->
  shr mrs e n
  = (fst (shr mrs e n), if 0 <? n then e + n else e) /\
  shr_m (fst (shr mrs e n)) = if 0 <? n then shr_m mrs / 2 ^ n else shr_m mrs.
Proof.
  intros H. destruct n as [| p | p]; try (split; reflexivity).
  unfold shr. cbn [fst]. change (0 <? Z.pos p) with true. cbv iota.
  split; [reflexivity |].
  rewrite iter_pos_iter, Pos2Nat.inj_iter.
  change (nat_rect (fun _ => shr_record) mrs (fun _ => shr_1) (Pos.to_nat p))
    with (Nat.iter (Pos.to_nat p) shr_1 mrs).
  rewrite shr_iter_m by exact H.
  rewrite positive_nat_Z. reflexivity.
Qed.

(** The exponent of the last place, away from the subnormal range. *)
Lemma fexp_normal e : -1074 <= e - 53 -> fexp 53 1024 e = e - 53.
Proof. unfold fexp, emin. lia. Qed.

(** Rounding to nearest keeps the mantissa or adds one. *)
Lemma round_nearest_even_cases m l :
  round_nearest_even m l = m \/ round_nearest_even m l = m + 1.
Proof.
  unfold round_nearest_even.
  destruct l as [| []]; try (left; reflexivity); try (right; reflexivity).
  destruct (Z.even m); [left | right]; reflexivity.
Qed.

(** The same bounds for [Zdigits2]. *)
Lemma digits_bounds m : 0 < m -> 2 ^ (Zdigits2 m - 1) <= m < 2 ^ Zdigits2 m.
Proof.
  intros H. destruct m as [| p | p]; try lia. apply digits2_bounds.
Qed.

(** A positive number has at least one bit. *)
Lemma digits_pos m : 0 < m -> 0 < Zdigits2 m.
Proof. intros H. destruct m as [| p | p]; simpl; lia. Qed.

(** Rounding a positive mantissa of at least 53 digits, in the normal
    range: the result is finite, and its value lies between the mantissa
    shifted right and that plus one. *)
Lemma binary_round_aux_bounds sx mx ex lx :
  0 < mx ->
  let d := Zdigits2 mx in
  let k := d - 53 in
  53 <= d -> -1074 <= ex + k -> ex + k + 1 <= 971 ->
  exists m' e',
    binary_round_aux 53 1024 sx mx ex lx = S754_finite sx m' e' /\
    ex + k <= e' <= ex + k + 1 /\
    2 ^ 52 <= Zpos m' < 2 ^ 53 /\
    mx / 2 ^ k <= Zpos m' * 2 ^ (e' - (ex + k)) <= mx / 2 ^ k + 1 /\
    (k = 0 -> lx = loc_Exact -> Zpos m' = mx /\ e' = ex).
Proof.
  intros Hm d k Hd Hlo Hhi.
  pose proof (digits_bounds mx Hm) as Hb. fold d in Hb.
  unfold binary_round_aux, shr_fexp. fold d.
  rewrite (fexp_normal (d + ex)) by lia.
  replace (d + ex - 53 - ex) with k by lia.
  assert (H0 : 0 <= shr_m (shr_record_of_loc mx lx))
    by (destruct lx as [| []]; simpl; lia).
  destruct (shr_m_spec (shr_record_of_loc mx lx) ex k H0) as [E1 M1].
  assert (Hm0 : shr_m (shr_record_of_loc mx lx) = mx)
    by (destruct lx as [| []]; reflexivity).
  rewrite Hm0 in M1.
  set (mrs1 := fst (shr (shr_record_of_loc mx lx) ex k)) in *.
  rewrite E1.
  set (m1 := shr_m mrs1) in *.
  assert (Em1 : m1 = mx / 2 ^ k).
  { rewrite M1. destruct (Z.ltb_spec 0 k); [reflexivity |].
    replace k with 0 by lia. rewrite Z.div_1_r. reflexivity. }
  assert (Ee1 : (if 0 <? k then ex + k else ex) = ex + k).
  { destruct (Z.ltb_spec 0 k); lia. }
  rewrite Ee1.
  assert (Hm1 : 2 ^ 52 <= m1 < 2 ^ 53).
  { rewrite Em1.
    assert (P : 2 ^ d = 2 ^ 53 * 2 ^ k)
      by (rewrite <- Z.pow_add_r by lia; f_equal; lia).
    assert (P' : 2 ^ (d - 1) = 2 ^ 52 * 2 ^ k)
      by (rewrite <- Z.pow_add_r by lia; f_equal; lia).
    assert (0 < 2 ^ k) by (apply Z.pow_pos_nonneg; lia).
    split.
    - apply Z.div_le_lower_bound; lia.
    - apply Z.div_lt_upper_bound; lia. }
  set (m2 := round_nearest_even m1 (loc_of_shr_record mrs1)).
  assert (Hm2 : m2 = m1 \/ m2 = m1 + 1) by apply round_nearest_even_cases.
  assert (Hm2pos : 0 < m2) by lia.
  assert (Hcase : (m2 < 2 ^ 53 /\ Zdigits2 m2 = 53)
                  \/ (m2 = 2 ^ 53 /\ Zdigits2 m2 = 54)).
  { destruct (Z.lt_ge_cases m2 (2 ^ 53)) as [L | G].
    - left. split; [exact L |]. apply digits_unique; lia.
    - right. assert (m2 = 2 ^ 53) by lia. split; [assumption |].
      apply digits_unique; lia. }
  assert (H20 : 0 <= shr_m (shr_record_of_loc m2 loc_Exact)) by (simpl; lia).
  destruct Hcase as [[L D2] | [E D2]].
  - rewrite D2. rewrite (fexp_normal (53 + (ex + k))) by lia.
    replace (53 + (ex + k) - 53 - (ex + k)) with 0 by lia.
    cbn [shr shr_record_of_loc shr_m].
    destruct m2 as [| p2 | p2] eqn:Ep; try lia.
    replace (ex + k <=? 1024 - 53) with true
      by (symmetry; apply Z.leb_le; lia).
    exists p2, (ex + k). split; [reflexivity |].
    split; [lia |]. split; [lia |].
    replace (ex + k - (ex + k)) with 0 by lia.
    rewrite Z.mul_1_r. split; [lia |].
    intros Hk Hl. split; [| lia].
    subst lx.
    assert (Hmrs : mrs1 = shr_record_of_loc mx loc_Exact)
      by (unfold mrs1; rewrite Hk; reflexivity).
    assert (E2 : m2 = m1)
      by (unfold m2; rewrite Hmrs; reflexivity).
    rewrite Hk, Z.div_1_r in Em1. lia.
  - rewrite D2. rewrite (fexp_normal (54 + (ex + k))) by lia.
    replace (54 + (ex + k) - 53 - (ex + k)) with 1 by lia.
    destruct (shr_m_spec (shr_record_of_loc m2 loc_Exact) (ex + k) 1 H20)
      as [E3 M3].
    rewrite E3. change (0 <? 1) with true in *. cbv iota in *.
    change (shr_m (shr_record_of_loc m2 loc_Exact)) with m2 in M3.
    rewrite M3.
    rewrite E. change (2 ^ 53 / 2 ^ 1) with 4503599627370496.
    replace (ex + k + 1 <=? 1024 - 53) with true
      by (symmetry; apply Z.leb_le; lia).
    exists 4503599627370496%positive, (ex + k + 1). split; [reflexivity |].
    split; [lia |]. split; [cbv; split; congruence |].
    replace (ex + k + 1 - (ex + k)) with 1 by lia.
    change (Z.pos 4503599627370496 * 2 ^ 1) with (2 ^ 53).
    split; [lia |].
    intros Hk Hl. exfalso.
    subst lx.
    assert (Hmrs : mrs1 = shr_record_of_loc mx loc_Exact)
      by (unfold mrs1; rewrite Hk; reflexivity).
    assert (E2 : m2 = m1)
      by (unfold m2; rewrite Hmrs; reflexivity).
    lia.
Qed.

(** [n] doublings multiply by 2^n. *)
Lemma iter_xO m n : Zpos (Nat.iter n xO m) = Zpos m * 2 ^ Z.of_nat n.
Proof.
  induction n as [| n IH].
  - simpl. lia.
  - change (Nat.iter (S n) xO m) with (xO (Nat.iter n xO m)).
    rewrite Pos2Z.inj_xO, IH, Nat2Z.inj_succ, Z.pow_succ_r by lia. lia.
Qed.

(** Aligning to a lower exponent shifts the mantissa left. *)
Lemma shl_align_spec mx ex ex' :
  ex' <= ex ->
  exists m', shl_align mx ex ex' = (m', ex') /\
             Zpos m' = Zpos mx * 2 ^ (ex - ex').
Proof.
  intros H. unfold shl_align.
  destruct (ex' - ex) as [| p | p] eqn:E; try lia.
  - exists mx. replace ex' with ex by lia. rewrite Z.sub_diag.
    split; [reflexivity | lia].
  - exists (Pos.iter xO mx p). split; [reflexivity |].
    rewrite Pos2Nat.inj_iter.
    change (nat_rect (fun _ => positive) mx (fun _ => xO) (Pos.to_nat p))
      with (Nat.iter (Pos.to_nat p) xO mx).
    rewrite iter_xO, positive_nat_Z. f_equal. f_equal. lia.
Qed.

(** Aligning to a higher exponent changes nothing. *)
Lemma shl_align_none mx ex ex' :
  ex <= ex' -> shl_align mx ex ex' = (mx, ex).
Proof.
  intros H. unfold shl_align.
  destruct (ex' - ex) as [| p | p] eqn:E; try lia; reflexivity.
Qed.

(** An integer below 2^53 converts exactly. *)
Lemma float64OfInt_pos z :
  0 < z < 2 ^ 53 ->
  exists m,
    float64OfInt z = S754_finite false m (Zdigits2 z - 53) /\
    Zpos m = z * 2 ^ (53 - Zdigits2 z).
Proof.
  intros [Hz Hlt]. destruct z as [| p | p]; try lia.
  unfold float64OfInt, binary_normalize, binary_round.
  pose proof (digits_bounds (Zpos p) Hz) as Hb.
  pose proof (digits_pos (Zpos p) Hz) as Hd.
  set (d := Zdigits2 (Zpos p)) in *.
  change (Zpos (digits2_pos p)) with d.
  assert (Hd53 : d <= 53).
  { destruct (Z.le_gt_cases d 53) as [L | G]; [exact L | exfalso].
    assert (2 ^ 53 <= 2 ^ (d - 1)) by (apply Z.pow_le_mono_r; lia). lia. }
  rewrite Z.add_0_r, (fexp_normal d) by lia.
  destruct (shl_align_spec p 0 (d - 53)) as (m & E & Em); [lia |].
  rewrite E. replace (0 - (d - 53)) with (53 - d) in Em by lia.
  assert (Hm : 2 ^ 52 <= Zpos m < 2 ^ 53).
  { rewrite Em.
    assert (P : 2 ^ 53 = 2 ^ d * 2 ^ (53 - d))
      by (rewrite <- Z.pow_add_r by lia; f_equal; lia).
    assert (P' : 2 ^ 52 = 2 ^ (d - 1) * 2 ^ (53 - d))
      by (rewrite <- Z.pow_add_r by lia; f_equal; lia).
    assert (0 < 2 ^ (53 - d)) by (apply Z.pow_pos_nonneg; lia).
    rewrite P, P'. split.
    - apply Z.mul_le_mono_nonneg_r; lia.
    - apply Z.mul_lt_mono_pos_r; lia. }
  assert (Hdm : Zdigits2 (Zpos m) = 53) by (apply digits_unique; lia).
  destruct (binary_round_aux_bounds false (Zpos m) (d - 53) loc_Exact)
    as (m' & e' & E' & _ & _ & _ & Hex);
    try (cbv zeta; rewrite Hdm; lia); [lia |].
  cbv zeta in Hex. rewrite Hdm in Hex.
  destruct (Hex eq_refl eq_refl) as [Hm' He'].
  rewrite E'. exists m. split; [| exact Em].
  f_equal; [| exact He'].
  injection Hm' as ->. reflexivity.
Qed.

(** A power of two splits at any smaller exponent. *)
Lemma pow2_split a c : 0 <= c <= a -> 2 ^ a = 2 ^ c * 2 ^ (a - c) /\ 1 <= 2 ^ (a - c).
Proof.
  intros H. split.
  - rewrite <- Z.pow_add_r by lia. f_equal. lia.
  - assert (0 < 2 ^ (a - c)) by (apply Z.pow_pos_nonneg; lia). lia.
Qed.

(** [60*1e9] as a float. *)
Lemma float64_minute :
  float64OfInt 60000000000 = S754_finite false 7864320000000000 (-17).
Proof. reflexivity. Qed.

(** [Z.div_eucl] is quotient and remainder. *)
Lemma div_eucl_div a b : Z.div_eucl a b = (a / b, a mod b).
Proof. unfold Z.div, Z.modulo. destruct (Z.div_eucl a b). reflexivity. Qed.

(** The fraction of a minute, as a float: positive, and at most
    1 - 2^-36. *)
Lemma fraction_bounds n :
  0 < n < 60000000000 ->
  exists mQ eQ,
    SFdiv 53 1024 (float64OfInt n) (float64OfInt 60000000000)
      = S754_finite false mQ eQ /\
    -100 <= eQ <= -53 /\
    2 ^ 52 <= Zpos mQ < 2 ^ 53 /\
    Zpos mQ * 2 ^ 36 <= 2 ^ (- eQ) * (2 ^ 36 - 1).
Proof.
  intros Hn.
  destruct (float64OfInt_pos n) as (mB & EB & EmB); [lia |].
  assert (Hn0 : 0 < n) by lia.
  pose proof (digits_bounds n Hn0) as Hb.
  pose proof (digits_pos n Hn0) as Hdp.
  set (dn := Zdigits2 n) in *.
  assert (Hdn : dn <= 36).
  { destruct (Z.le_gt_cases dn 36) as [L | G]; [exact L | exfalso].
    assert (2 ^ 36 <= 2 ^ (dn - 1)) by (apply Z.pow_le_mono_r; lia). lia. }
  rewrite EB, float64_minute. unfold SFdiv, SFdiv_core_binary.
  assert (HmB : 2 ^ 52 <= Zpos mB < 2 ^ 53).
  { rewrite EmB.
    destruct (pow2_split 53 dn) as [P _]; [lia |].
    destruct (pow2_split 52 (dn - 1)) as [P' _]; [lia |].
    replace (52 - (dn - 1)) with (53 - dn) in P' by lia.
    assert (0 < 2 ^ (53 - dn)) by (apply Z.pow_pos_nonneg; lia).
    rewrite P, P'. split.
    - apply Z.mul_le_mono_nonneg_r; lia.
    - apply Z.mul_lt_mono_pos_r; lia. }
  assert (DB : Zdigits2 (Zpos mB) = 53) by (apply digits_unique; lia).
  rewrite DB.
  change (Zdigits2 (Zpos 7864320000000000)) with 53.
  replace (53 + (dn - 53) - (53 + -17)) with (dn - 36) by lia.
  rewrite (fexp_normal (dn - 36)) by lia.
  replace (Z.min (dn - 36 - 53) (dn - 53 - -17)) with (dn - 89) by lia.
  replace (dn - 53 - -17 - (dn - 89)) with 53 by lia.
  rewrite Z.shiftl_mul_pow2 by lia.
  rewrite div_eucl_div.
  set (q := Zpos mB * 2 ^ 53 / 7864320000000000).
  set (lz := new_location 7864320000000000 _).
  cbn [xorb].
  (* the quotient, against n and the weight of its last place *)
  destruct (pow2_split (89 - dn) 53) as [PW HW]; [lia |].
  set (W := 2 ^ (89 - dn)) in *.
  assert (EmW : Zpos mB * 2 ^ 53 = n * W * 2 ^ 17).
  { rewrite EmB. unfold W. rewrite <- !Z.mul_assoc. f_equal.
    rewrite <- !Z.pow_add_r by lia. f_equal. lia. }
  assert (Hq : q * 60000000000 <= n * W /\ n * W < (q + 1) * 60000000000).
  { unfold q. rewrite EmW.
    change 7864320000000000 with (60000000000 * 2 ^ 17).
    rewrite Z.div_mul_cancel_r by lia.
    assert (0 <= n * W) by (unfold W; apply Z.mul_nonneg_nonneg; lia).
    divmod. }
  assert (Hq52 : 2 ^ 52 <= q < 2 ^ 54).
  { unfold q. split.
    - apply Z.div_le_lower_bound; [lia |].
      change (2 ^ 52) with 4503599627370496 in *.
      change (2 ^ 53) with 9007199254740992 in *. lia.
    - apply Z.div_lt_upper_bound; [lia |].
      change (2 ^ 52) with 4503599627370496 in *.
      change (2 ^ 53) with 9007199254740992 in *.
      change (2 ^ 54) with 18014398509481984. lia. }
  assert (Hq0 : 0 < q) by lia.
  assert (Hk : exists k, (k = 0 \/ k = 1) /\ Zdigits2 q = 53 + k
                         /\ 2 ^ (52 + k) <= q).
  { destruct (Z.lt_ge_cases q (2 ^ 53)) as [L | G].
    - exists 0. split; [left; reflexivity |]. split; [| exact (proj1 Hq52)].
      apply digits_unique; lia.
    - exists 1. split; [right; reflexivity |]. split; [| exact G].
      apply digits_unique; lia. }
  destruct Hk as (k & Hk & Dq & Hqk).
  destruct (binary_round_aux_bounds false q (dn - 89) lz Hq0)
    as (mQ & eQ & E & HeQ & HmQ & Hval & _);
    try (rewrite Dq; lia).
  rewrite Dq in HeQ, Hval. replace (53 + k - 53) with k in HeQ, Hval by lia.
  exists mQ, eQ. split; [exact E |].
  (* W = 2^53 * W', and n < 6e10 *)
  set (W' := 2 ^ (89 - dn - 53)) in *.
  change (2 ^ 36) with 68719476736.
  change (2 ^ 52) with 4503599627370496 in *.
  change (2 ^ 53) with 9007199254740992 in *.
  change (2 ^ 54) with 18014398509481984 in *.
  assert (HnW : n * W <= 59999999999 * W) by (apply Z.mul_le_mono_nonneg_r; lia).
  destruct Hk as [-> | ->].
  - (* no shift *)
    rewrite Z.add_0_r in *. change (2 ^ 0) with 1 in Hval.
    rewrite Z.div_1_r in Hval.
    assert (HeQ' : eQ = dn - 89 \/ eQ = dn - 89 + 1) by lia.
    destruct HeQ' as [-> | ->].
    + replace (dn - 89 - (dn - 89)) with 0 in Hval by lia.
      change (2 ^ 0) with 1 in Hval.
      replace (- (dn - 89)) with (89 - dn) by lia. fold W.
      repeat split; try lia.
    + replace (dn - 89 + 1 - (dn - 89)) with 1 in Hval by lia.
      change (2 ^ 1) with 2 in Hval.
      assert (W' <> 1) by lia.
      assert (Hdn' : dn <= 35).
      { destruct (Z.eq_dec dn 36) as [-> |]; [| lia].
        exfalso. apply H. reflexivity. }
      destruct (pow2_split (89 - dn) 54) as [PW2 HW2]; [lia |].
      fold W in PW2. change (2 ^ 54) with 18014398509481984 in PW2.
      destruct (pow2_split (- (dn - 89 + 1)) 53) as [PV HV]; [lia |].
      replace (- (dn - 89 + 1) - 53) with (89 - dn - 54) in PV, HV by lia.
      rewrite PV. change (2 ^ 53) with 9007199254740992.
      repeat split; try lia.
  - (* one bit dropped *)
    change (2 ^ 1) with 2 in Hval.
    assert (Hq2 : q / 2 * 2 <= q) by divmod.
    assert (HeQ' : eQ = dn - 89 + 1 \/ eQ = dn - 89 + 1 + 1) by lia.
    assert (W' <> 1) by lia.
    assert (Hdn' : dn <= 35).
    { destruct (Z.eq_dec dn 36) as [-> |]; [| lia].
      exfalso. apply H. reflexivity. }
    destruct (pow2_split (89 - dn) 54) as [PW2 HW2]; [lia |].
    fold W in PW2. change (2 ^ 54) with 18014398509481984 in PW2.
    destruct HeQ' as [-> | ->].
    + replace (dn - 89 + 1 - (dn - 89 + 1)) with 0 in Hval by lia.
      change (2 ^ 0) with 1 in Hval.
      destruct (pow2_split (- (dn - 89 + 1)) 53) as [PV HV]; [lia |].
      replace (- (dn - 89 + 1) - 53) with (89 - dn - 54) in PV, HV by lia.
      rewrite PV. change (2 ^ 53) with 9007199254740992.
      repeat split; try lia.
    + replace (dn - 89 + 1 + 1 - (dn - 89 + 1)) with 1 in Hval by lia.
      change (2 ^ 1) with 2 in Hval.
      set (W2 := 2 ^ (89 - dn - 54)) in *.
      assert (W2 <> 1) by lia.
      assert (Hdn2 : dn <= 34).
      { destruct (Z.eq_dec dn 35) as [-> |]; [| lia].
        exfalso. apply H0. reflexivity. }
      destruct (pow2_split (89 - dn) 55) as [PW3 HW3]; [lia |].
      fold W in PW3. change (2 ^ 55) with 36028797018963968 in PW3.
      destruct (pow2_split (- (dn - 89 + 1 + 1)) 53) as [PV HV]; [lia |].
      replace (- (dn - 89 + 1 + 1) - 53) with (89 - dn - 55) in PV, HV by lia.
      rewrite PV. change (2 ^ 53) with 9007199254740992.
      repeat split; try lia.
Qed.

(** Adding a fraction of at most 1 - 2^-36 to a whole number below 2^16
    and truncating gives the whole number back. *)
Lemma add_fraction_truncates x mQ eQ :
  0 < x < 2 ^ 16 ->
  -100 <= eQ <= -53 ->
  2 ^ 52 <= Zpos mQ < 2 ^ 53 ->
  Zpos mQ * 2 ^ 36 <= 2 ^ (- eQ) * (2 ^ 36 - 1) ->
  intOfFloat64 (SFadd 53 1024 (float64OfInt x) (S754_finite false mQ eQ)) = x.
Proof.
  intros Hx HeQ HmQ HQ.
  destruct (float64OfInt_pos x) as (mA & EA & EmA);
    [change (2 ^ 53) with 9007199254740992;
     change (2 ^ 16) with 65536 in Hx; lia |].
  assert (Hx0 : 0 < x) by lia.
  pose proof (digits_bounds x Hx0) as Hb.
  pose proof (digits_pos x Hx0) as Hdp.
  set (dx := Zdigits2 x) in *.
  assert (Hdx : dx <= 16).
  { destruct (Z.le_gt_cases dx 16) as [L | G]; [exact L | exfalso].
    assert (2 ^ 16 <= 2 ^ (dx - 1)) by (apply Z.pow_le_mono_r; lia). lia. }
  rewrite EA. unfold SFadd.
  replace (Z.min (dx - 53) eQ) with eQ by lia.
  destruct (shl_align_spec mA (dx - 53) eQ) as (mA' & EA' & EmA'); [lia |].
  rewrite EA', (shl_align_none mQ eQ eQ) by lia.
  cbn [fst cond_Zopp].
  (* the exact sum, in units of 2^eQ *)
  set (L := - eQ) in *.
  assert (EM : Zpos mA' + Zpos mQ = x * 2 ^ L + Zpos mQ).
  { rewrite EmA', EmA. f_equal. rewrite <- Z.mul_assoc. f_equal.
    rewrite <- Z.pow_add_r by lia. f_equal. lia. }
  change (Zpos mA' + Zpos mQ) with (Zpos (mA' + mQ)) in *.
  set (pM := (mA' + mQ)%positive) in *.
  unfold binary_normalize, binary_round.
  assert (HM0 : 0 < Zpos pM) by lia.
  pose proof (digits_bounds (Zpos pM) HM0) as HbM.
  set (dM := Zdigits2 (Zpos pM)) in *.
  change (Zpos (digits2_pos pM)) with dM.
  assert (H2L : 0 < 2 ^ L) by (apply Z.pow_pos_nonneg; lia).
  assert (HMlo : 2 ^ L <= Zpos pM) by nia.
  assert (HMQ : Zpos mQ < 2 ^ L) by nia.
  assert (HMhi : Zpos pM < 2 ^ (L + 16)).
  { rewrite Z.pow_add_r by lia. rewrite EM. nia. }
  assert (HdMlo : L + 1 <= dM).
  { destruct (Z.le_gt_cases (L + 1) dM) as [G | G]; [exact G | exfalso].
    assert (2 ^ dM <= 2 ^ L) by (apply Z.pow_le_mono_r; lia). lia. }
  assert (HdMhi : dM <= L + 16).
  { destruct (Z.le_gt_cases dM (L + 16)) as [G | G]; [exact G | exfalso].
    assert (2 ^ (L + 16) <= 2 ^ (dM - 1)) by (apply Z.pow_le_mono_r; lia).
    lia. }
  rewrite (fexp_normal (dM + eQ)) by lia.
  rewrite (shl_align_none pM eQ (dM + eQ - 53)) by lia.
  destruct (binary_round_aux_bounds false (Zpos pM) eQ loc_Exact HM0)
    as (m' & e' & E & He' & Hm' & Hval & _);
    try (fold dM; lia).
  fold dM in He', Hval.
  rewrite E. unfold intOfFloat64.
  set (k := dM - 53) in *.
  set (j := L - k).
  assert (Hj : 37 <= j <= 52) by (unfold j, k; lia).
  replace (eQ + k) with (- j) in He', Hval by (unfold j, L; lia).
  replace (0 <=? e') with false by (symmetry; apply Z.leb_gt; lia).
  (* powers of two as plain numbers *)
  destruct (pow2_split j 37) as [PJ HJ']; [lia |].
  set (J' := 2 ^ (j - 37)) in *.
  assert (PL : 2 ^ L = 2 ^ j * 2 ^ k)
    by (rewrite <- Z.pow_add_r by (unfold k; lia); f_equal; unfold j; lia).
  assert (HK : 0 < 2 ^ k) by (apply Z.pow_pos_nonneg; unfold k; lia).
  set (K := 2 ^ k) in *. set (J := 2 ^ j) in *.
  change (2 ^ 37) with 137438953472 in PJ.
  change (2 ^ 36) with 68719476736 in HQ.
  rewrite PL in EM, HQ.
  assert (HmQK : Zpos mQ <= (J - 2 * J') * K).
  { rewrite PJ in HQ |- *. nia. }
  assert (Hlo : x * J <= Zpos pM / K).
  { apply Z.div_le_lower_bound; [exact HK |]. rewrite EM. nia. }
  assert (Hhi : Zpos pM / K <= x * J + J - 2 * J').
  { apply Z.div_le_upper_bound; [exact HK |]. rewrite EM. nia. }
  rewrite Z.quot_div_nonneg by (try apply Z.pow_pos_nonneg; lia).
  assert (He'' : e' = - j \/ e' = - j + 1) by lia.
  destruct He'' as [-> | ->].
  - replace (- j - - j) with 0 in Hval by lia. rewrite Z.mul_1_r in Hval.
    replace (- - j) with j by lia. fold J.
    symmetry. apply (Z.div_unique _ _ _ (Zpos m' - x * J)); lia.
  - replace (- j + 1 - - j) with 1 in Hval by lia.
    change (2 ^ 1) with 2 in Hval.
    replace (- (- j + 1)) with (j - 1) by lia.
    destruct (pow2_split j 1) as [PJ1 _]; [lia |].
    fold J in PJ1. change (2 ^ 1) with 2 in PJ1.
    set (H := 2 ^ (j - 1)) in *.
    symmetry. apply (Z.div_unique _ _ _ (Zpos m' - x * H)); lia.
Qed.

(** [int(d.Minutes())] is the whole number of minutes in [d], for a
    non-negative duration of less than 2^16 minutes. *)
Lemma intMinutes_quot d :
  0 <= d < 2 ^ 16 * Minute ->
  intOfFloat64 (Minutes d) = Z.quot d Minute.
Proof.
  intros Hd. unfold Minutes.
  change Minute with 60000000000 in *.
  change (60 * 1000000000) with 60000000000.
  change (2 ^ 16) with 65536 in Hd.
  set (x := Z.quot d 60000000000).
  set (n := Z.rem d 60000000000).
  assert (Hx : 0 <= x < 65536) by (unfold x; divmod).
  assert (Hn : 0 <= n < 60000000000) by (unfold n; divmod).
  destruct (Z.eq_dec n 0) as [En | Nn].
  - (* a whole number of minutes *)
    rewrite En. change (float64OfInt 0) with (S754_zero false).
    rewrite float64_minute. cbn [SFdiv xorb].
    destruct (Z.eq_dec x 0) as [Ex | Nx].
    + rewrite Ex. reflexivity.
    + destruct (float64OfInt_pos x) as (mA & EA & EmA);
        [change (2 ^ 53) with 9007199254740992; lia |].
      rewrite EA. cbn [SFadd intOfFloat64].
      assert (Hx0 : 0 < x) by lia.
      pose proof (digits_bounds x Hx0) as Hb.
      pose proof (digits_pos x Hx0) as Hdp.
      set (dx := Zdigits2 x) in *.
      assert (Hdx : dx <= 16).
      { destruct (Z.le_gt_cases dx 16) as [L | G]; [exact L | exfalso].
        assert (2 ^ 16 <= 2 ^ (dx - 1)) by (apply Z.pow_le_mono_r; lia).
        change (2 ^ 16) with 65536 in *. lia. }
      replace (0 <=? dx - 53) with false by (symmetry; apply Z.leb_gt; lia).
      replace (- (dx - 53)) with (53 - dx) by lia.
      assert (0 < 2 ^ (53 - dx)) by (apply Z.pow_pos_nonneg; lia).
      rewrite Z.quot_div_nonneg by lia.
      rewrite EmA. apply Z.div_mul. lia.
  - destruct (fraction_bounds n) as (mQ & eQ & EQ & HeQ & HmQ & HQ); [lia |].
    rewrite EQ.
    destruct (Z.eq_dec x 0) as [Ex | Nx].
    + (* under a minute *)
      rewrite Ex. change (float64OfInt 0) with (S754_zero false).
      cbn [SFadd intOfFloat64].
      replace (0 <=? eQ) with false by (symmetry; apply Z.leb_gt; lia).
      assert (0 < 2 ^ (- eQ)) by (apply Z.pow_pos_nonneg; lia).
      rewrite Z.quot_div_nonneg by lia.
      apply Z.div_small. change (2 ^ 36) with 68719476736 in HQ. lia.
    + apply add_fraction_truncates; try assumption.
      change (2 ^ 16) with 65536. lia.
Qed.

(** *** Locations with transitions *)

Lemma spacedFrom_weaken gap start l :
  0 <= gap -> spacedFrom gap start l -> spacedFrom 0 start l.
Proof.
  intros Hg. revert start. induction l as [| t rest IH]; intros start; cbn.
  - trivial.
  - intros [H1 H2]. split; [lia | apply IH; exact H2].
Qed.

Lemma spaced_weaken gap l : 0 <= gap -> spaced gap l -> spaced 0 l.
Proof.
  unfold spaced. destruct (tx l) as [| t rest]; [trivial |].
  apply spacedFrom_weaken.
Qed.

(** The zone a look-up finds starts no earlier than the scan did. *)
Lemma lookupFrom_start off start l x o s e :
  spacedFrom 0 start l -> lookupFrom off start l x = (o, s, e) -> start <= s.
Proof.
  revert off start. induction l as [| t rest IH]; intros off start Hs E;
    cbn in *.
  - injection E as _ <- _. lia.
  - destruct Hs as [H1 H2]. destruct (x <? when t).
    + injection E as _ <- _. lia.
    + pose proof (IH _ _ H2 E). lia.
Qed.

(** Every instant between the start and the end of the zone found is in
    that zone. *)
Lemma lookupFrom_inside off start l x y o s e :
  spacedFrom 0 start l -> lookupFrom off start l x = (o, s, e) ->
  s <= y < e -> lookupFrom off start l y = (o, s, e).
Proof.
  revert off start. induction l as [| t rest IH]; intros off start Hs E Hy;
    cbn in *.
  - exact E.
  - destruct Hs as [H1 H2]. destruct (x <? when t).
    + injection E as <- <- <-.
      destruct (Z.ltb_spec y (when t)); [reflexivity | lia].
    + pose proof (lookupFrom_start _ _ _ _ _ _ _ H2 E) as Hge.
      destruct (Z.ltb_spec y (when t)); [lia |].
      apply IH; assumption.
Qed.

Lemma lookup_inside l x y o s e :
  spaced 0 l -> lookup l x = (o, s, e) -> s <= y < e -> offsetAt l y = o.
Proof.
  unfold spaced, offsetAt, lookup. intros Hs E Hy.
  destruct (tx l) as [| t rest].
  - cbn in *. injection E as <- _ _. reflexivity.
  - cbn in *. destruct (x <? when t).
    + injection E as <- <- <-.
      destruct (Z.ltb_spec y (when t)); [reflexivity | lia].
    + pose proof (lookupFrom_start _ _ _ _ _ _ _ Hs E) as Hge.
      destruct (Z.ltb_spec y (when t)); [lia |].
      rewrite (lookupFrom_inside _ _ _ _ _ _ _ _ Hs E Hy). reflexivity.
Qed.

(** A window shorter than the gap holds at most one transition: the
    offset is [p] before an instant [T] and [q] from it on. *)
Lemma lookupFrom_window gap off start l lo hi :
  spacedFrom gap start l -> hi - lo < gap ->
  exists T p q, forall x, lo <= x <= hi ->
    fst (fst (lookupFrom off start l x)) = if x <? T then p else q.
Proof.
  revert off start. induction l as [| t rest IH]; intros off start Hs Hw.
  - exists lo, off, off. intros x Hx. cbn. destruct (x <? lo); reflexivity.
  - cbn in Hs. destruct Hs as [H1 H2].
    destruct (Z.lt_ge_cases hi (when t)) as [Hhi | Hhi].
    + exists lo, off, off. intros x Hx. cbn.
      destruct (Z.ltb_spec x (when t)); [| lia].
      destruct (x <? lo); reflexivity.
    + destruct (Z.le_gt_cases (when t) lo) as [Hlo | Hlo].
      * destruct (IH (zoffset t) (when t) H2 Hw) as (T & p & q & H).
        exists T, p, q. intros x Hx. cbn.
        destruct (Z.ltb_spec x (when t)); [lia |]. apply H. exact Hx.
      * exists (when t), off, (zoffset t). intros x Hx. cbn.
        destruct (Z.ltb_spec x (when t)); [reflexivity |].
        destruct rest as [| t' rest']; [reflexivity |].
        cbn in *. destruct H2 as [H2 _].
        destruct (Z.ltb_spec x (when t')); [reflexivity | lia].
Qed.

Lemma offsetAt_window gap l lo hi :
  spaced gap l -> hi - lo < gap ->
  exists T p q, forall x, lo <= x <= hi ->
    offsetAt l x = if x <? T then p else q.
Proof.
  unfold spaced, offsetAt, lookup. intros Hs Hw.
  destruct (tx l) as [| t rest].
  - exists lo, (firstOffset l), (firstOffset l). intros x Hx. cbn.
    destruct (x <? lo); reflexivity.
  - destruct (Z.lt_ge_cases hi (when t)) as [Hhi | Hhi].
    + exists lo, (firstOffset l), (firstOffset l). intros x Hx. cbn.
      destruct (Z.ltb_spec x (when t)); [| lia].
      destruct (x <? lo); reflexivity.
    + destruct (Z.le_gt_cases (when t) lo) as [Hlo | Hlo].
      * destruct (lookupFrom_window gap (zoffset t) (when t) rest lo hi Hs Hw)
          as (T & p & q & H).
        exists T, p, q. intros x Hx. cbn.
        destruct (Z.ltb_spec x (when t)); [lia |]. apply H. exact Hx.
      * exists (when t), (firstOffset l), (zoffset t). intros x Hx. cbn.
        destruct (Z.ltb_spec x (when t)); [reflexivity |].
        destruct rest as [| t' rest']; [reflexivity |].
        cbn in *. destruct Hs as [H2 _].
        destruct (Z.ltb_spec x (when t')); [reflexivity | lia].
Qed.

(** Where some instant of the location reads the wall-clock second [W]
    (the instant [W - k], at which the offset is [k]), the instant the two
    look-ups of [Date] arrive at reads [W] too. *)
Lemma reading_found l W k :
  Forall (fun o => - 86400 < o < 86400) (offsets l) ->
  spaced 172800 l ->
  offsetAt l (W - k) = k ->
  let b := offsetAt l (W - offsetAt l W) in
  offsetAt l (W - b) = b.
Proof.
  intros Hall Hs Hk b. rewrite Forall_forall in Hall.
  destruct (offsetAt_window 172800 l (W - 86399) (W + 86399) Hs ltac:(lia))
    as (T & p & q & H).
  pose proof (Hall _ (offsetAt_In l W)) as Ha.
  pose proof (Hall _ (offsetAt_In l (W - offsetAt l W))) as Hb.
  pose proof (Hall _ (offsetAt_In l (W - k))) as Hk'. rewrite Hk in Hk'.
  fold b in Hb.
  pose proof (H W ltac:(lia)) as Ea.
  pose proof (H (W - offsetAt l W) ltac:(lia)) as Eb. fold b in Eb.
  pose proof (H (W - b) ltac:(lia)) as Ec.
  pose proof (H (W - k) ltac:(lia)) as Ek. rewrite Hk in Ek.
  rewrite Ec.
  destruct (Z.ltb_spec W T), (Z.ltb_spec (W - offsetAt l W) T),
           (Z.ltb_spec (W - b) T), (Z.ltb_spec (W - k) T); lia.
Qed.

(** [Date] on fields in range, in a location with sorted transitions:
    the offset subtracted is the one in force at the first guess. *)
Lemma Date_sorted (y m d h mi s : Z) (l : Location) :
  1 <= m <= 12 -> 0 <= h < 24 -> 0 <= mi < 60 -> 0 <= s < 60 ->
  spaced 0 l ->
  let unix := daysFromCivil y m d * 86400 + (h * 3600 + mi * 60 + s) in
  Date y m d h mi s 0 l =
    unixTime (unix - offsetAt l (unix - offsetAt l unix)) 0 l.
Proof.
  intros Hm Hh Hmi Hs Hsorted. unfold Date, norm.
  replace ((m - 1) / 12) with 0 by divmod.
  replace ((m - 1) mod 12 + 1) with m by divmod.
  replace (0 / 1000000000) with 0 by reflexivity.
  replace (0 mod 1000000000) with 0 by reflexivity.
  replace (s + 0) with s by lia.
  replace (s / 60) with 0 by divmod.
  replace (s mod 60) with s by divmod.
  replace (mi + 0) with mi by lia.
  replace (mi / 60) with 0 by divmod.
  replace (mi mod 60) with mi by divmod.
  replace (h + 0) with h by lia.
  replace (h / 24) with 0 by divmod.
  replace (h mod 24) with h by divmod.
  replace (y + 0) with y by lia.
  replace (d + 0) with d by lia.
  rewrite daysFromCivil_day.
  change secondsPerDay with 86400.
  change secondsPerHour with 3600.
  change secondsPerMinute with 60.
  cbv zeta.
  set (unix := daysFromCivil y m d * 86400 + (h * 3600 + mi * 60 + s)).
  assert (Ho : offsetAt l unix = fst (fst (lookup l unix))) by reflexivity.
  pose proof (lookup_inside l unix) as Hin.
  destruct (lookup l unix) as [[offset start] end_]. cbn [fst] in Ho.
  specialize (Hin (unix - offset) offset start end_ Hsorted eq_refl).
  rewrite Ho.
  destruct (Z.eqb_spec offset 0) as [E0 | N0].
  - rewrite E0 in *. replace (unix - 0) with unix by lia.
    rewrite Ho. f_equal. lia.
  - destruct (Z.ltb_spec (unix - offset) start) as [Hlt | Hge];
      cbn [orb]; [reflexivity |].
    destruct (Z.leb_spec end_ (unix - offset)) as [Hle | Hgt];
      [reflexivity |].
    rewrite (Hin ltac:(lia)). reflexivity.
Qed.

End GoTimeFacts.

(* ===================================================================== *)
(** ** The timeliness classifier *)
(* ===================================================================== *)

Module Classifier.

Import GoTimeFacts.

(** Today's work start in seconds: midnight of the check-in's local day,
    plus the parsed time of day, less one of the location's offsets. *)
Lemma todayWorkStart_unixNano (checkInTime workStart : Time) :
  exists off,
    In off (offsets (loc checkInTime)) /\
    unixNano (todayWorkStart checkInTime workStart) =
      (localSec checkInTime / 86400 * 86400 + secondOfDay workStart - off)
      * 1000000000.
Proof.
  unfold todayWorkStart, Year, Month, Day, date, secondOfDay.
  change secondsPerDay with 86400.
  set (D := localSec checkInTime / 86400).
  pose proof (civilFromDays_range D) as Hr.
  pose proof (daysFromCivil_civilFromDays D) as Hd.
  destruct (civilFromDays D) as [[y m] d]. simpl fst; simpl snd.
  destruct (Date_in_range y m d (Hour workStart) (Minute_ workStart)
              (Second_ workStart) (loc checkInTime))
    as (off & Hin & E);
    [ tauto | apply Hour_range | apply Minute_range | apply Second_range | ].
  exists off. split; [exact Hin |].
  rewrite E, unixNano_unixTime, Hd. lia.
Qed.

(** The check-in and today's work start are less than three days apart:
    they share a local calendar day, up to a change of offset. *)
Lemma checkIn_near_workStart (checkInTime workStart : Time) :
  offsetsFit (loc checkInTime) ->
  - 259200000000000
    < unixNano checkInTime - unixNano (todayWorkStart checkInTime workStart)
    < 259200000000000.
Proof.
  intros Hfit.
  destruct (todayWorkStart_unixNano checkInTime workStart) as (off & Hin & E).
  rewrite E. clear E.
  pose proof (offsetsFit_close _ _ _ Hfit Hin
                (offsetAt_In (loc checkInTime) (sec checkInTime))) as Hoff.
  destruct (sec_nsec checkInTime) as [Et Ht]. rewrite Et.
  pose proof (Hour_range workStart). pose proof (Minute_range workStart).
  pose proof (Second_range workStart).
  unfold secondOfDay, localSec.
  set (o := offsetAt (loc checkInTime) (sec checkInTime)) in *.
  divmod.
Qed.

Lemma loc_Date y m d h mi s ns l : loc (Date y m d h mi s ns l) = l.
Proof.
  unfold Date, norm.
  destruct (lookup l _) as [[offset start] end_]. reflexivity.
Qed.

Lemma loc_todayWorkStart (checkInTime workStart : Time) :
  loc (todayWorkStart checkInTime workStart) = loc checkInTime.
Proof. apply loc_Date. Qed.

Lemma localSec_FixedZone (t : Time) (off : Z) :
  loc t = FixedZone off -> localSec t = sec t + off.
Proof. unfold localSec. intros ->. reflexivity. Qed.

Lemma secondOfDay_mod (t : Time) : secondOfDay t = localSec t mod 86400.
Proof.
  unfold secondOfDay, Hour, Minute_, Second_.
  change secondsPerDay with 86400. change secondsPerHour with 3600.
  change secondsPerMinute with 60. divmod.
Qed.

(** In a zone without transitions, today's work start falls on the
    check-in's calendar date and shows the parsed time of day. *)
Lemma todayWorkStart_fixed_zone (checkInTime workStart : Time) (off : Z) :
  loc checkInTime = FixedZone off ->
  let start := todayWorkStart checkInTime workStart in
  date start = date checkInTime /\
  Hour start = Hour workStart /\
  Minute_ start = Minute_ workStart /\
  Second_ start = Second_ workStart /\
  nsec start = 0.
Proof.
  intros Hloc start.
  destruct (todayWorkStart_unixNano checkInTime workStart) as (o & Hin & E).
  rewrite Hloc in Hin. apply offsets_FixedZone in Hin. subst o.
  fold start in E.
  assert (Hl : loc start = FixedZone off)
    by (unfold start; rewrite loc_todayWorkStart; exact Hloc).
  pose proof (localSec_FixedZone start off Hl) as Ls.
  pose proof (secondOfDay_mod workStart) as Hw.
  assert (Hsec : sec start
                 = localSec checkInTime / 86400 * 86400
                   + secondOfDay workStart - off)
    by (unfold sec; rewrite E, Second_value; divmod).
  assert (Hns : nsec start = 0)
    by (unfold nsec; rewrite E, Second_value; divmod).
  assert (HL : localSec start
               = localSec checkInTime / 86400 * 86400 + secondOfDay workStart)
    by lia.
  assert (Hday : localSec start / 86400 = localSec checkInTime / 86400)
    by (rewrite HL, Hw; divmod).
  assert (Hsod : localSec start mod 86400 = localSec workStart mod 86400)
    by (rewrite HL, Hw; divmod).
  unfold date, Hour, Minute_, Second_.
  change secondsPerDay with 86400. change secondsPerHour with 3600.
  change secondsPerMinute with 60.
  rewrite Hday, Hsod.
  repeat split; try reflexivity; try exact Hns; divmod.
Qed.

(** In a zone without transitions the check-in is ahead of today's work
    start by the difference of the two wall-clock readings. *)
Lemma fixed_zone_lateness (checkInTime workStart : Time) (off : Z) :
  loc checkInTime = FixedZone off ->
  unixNano checkInTime - unixNano (todayWorkStart checkInTime workStart)
  = (secondOfDay checkInTime - secondOfDay workStart) * 1000000000
    + nsec checkInTime.
Proof.
  intros Hloc.
  destruct (todayWorkStart_unixNano checkInTime workStart) as (o & Hin & E).
  rewrite Hloc in Hin. apply offsets_FixedZone in Hin. subst o.
  rewrite E. destruct (sec_nsec checkInTime) as [Et Ht].
  rewrite (secondOfDay_mod checkInTime).
  pose proof (localSec_FixedZone checkInTime off Hloc) as L.
  rewrite Et at 1. rewrite L. divmod.
Qed.

(** *** Today's work start in any location *)

(** In a location with sorted transitions today's work start is the
    wall-clock second of the check-in's day at the parsed time of day,
    less the offset in force at the first guess of [time.Date]. *)
Lemma todayWorkStart_sorted (checkInTime workStart : Time) :
  spaced 0 (loc checkInTime) ->
  let W := localSec checkInTime / 86400 * 86400 + secondOfDay workStart in
  unixNano (todayWorkStart checkInTime workStart) =
    (W - offsetAt (loc checkInTime)
           (W - offsetAt (loc checkInTime) W)) * 1000000000.
Proof.
  intros Hsorted.
  unfold todayWorkStart, Year, Month, Day, date, secondOfDay.
  change secondsPerDay with 86400.
  set (D := localSec checkInTime / 86400).
  pose proof (civilFromDays_range D) as Hr.
  pose proof (daysFromCivil_civilFromDays D) as Hd.
  destruct (civilFromDays D) as [[y m] d]. simpl fst; simpl snd.
  rewrite (Date_sorted y m d (Hour workStart) (Minute_ workStart)
             (Second_ workStart) (loc checkInTime));
    [ | tauto | apply Hour_range | apply Minute_range | apply Second_range
      | exact Hsorted ].
  cbv zeta. rewrite unixNano_unixTime, Hd.
  replace (D * 86400 + (Hour workStart * 3600 + Minute_ workStart * 60
                        + Second_ workStart))
    with (D * 86400 + Hour workStart * 3600 + Minute_ workStart * 60
          + Second_ workStart) by lia.
  lia.
Qed.

Lemma civilFromDays_inj (z z' : Z) :
  civilFromDays z = civilFromDays z' -> z = z'.
Proof.
  intros E.
  pose proof (daysFromCivil_civilFromDays z) as H.
  pose proof (daysFromCivil_civilFromDays z') as H'.
  rewrite E in H. destruct (civilFromDays z') as [[y m] d]. congruence.
Qed.

(** A time reads the check-in's calendar date at the time of day of
    [workStart] exactly when its wall-clock second is that day's midnight
    plus the second of the day. *)
Lemma wall_reading (t checkInTime workStart : Time) :
  localSec t = localSec checkInTime / 86400 * 86400 + secondOfDay workStart
  <-> date t = date checkInTime /\
      Hour t = Hour workStart /\
      Minute_ t = Minute_ workStart /\
      Second_ t = Second_ workStart.
Proof.
  pose proof (secondOfDay_mod workStart) as Hw.
  pose proof (secondOfDay_mod t) as Ht.
  split.
  - intros HL.
    assert (Hday : localSec t / 86400 = localSec checkInTime / 86400)
      by (rewrite HL, Hw; divmod).
    assert (Hsod : localSec t mod 86400 = localSec workStart mod 86400)
      by (rewrite HL, Hw; divmod).
    unfold date, Hour, Minute_, Second_.
    change secondsPerDay with 86400. change secondsPerHour with 3600.
    change secondsPerMinute with 60.
    rewrite Hday, Hsod.
    repeat split; try reflexivity; divmod.
  - intros (Hd & Hh & Hm & Hs).
    unfold date in Hd. change secondsPerDay with 86400 in Hd.
    apply civilFromDays_inj in Hd.
    assert (Hsod : secondOfDay t = secondOfDay workStart)
      by (unfold secondOfDay; rewrite Hh, Hm, Hs; reflexivity).
    rewrite Ht in Hsod. rewrite <- Hsod, <- Hd. divmod.
Qed.

(** Where some instant of the check-in's location reads the check-in's
    date at the parsed time of day, today's work start reads it too;
    the location has no transitions, or offsets of less than a day and
    transitions at least two days apart. *)
Lemma todayWorkStart_reads (checkInTime workStart : Time) :
  offsetsFit (loc checkInTime) ->
  spaced 172800 (loc checkInTime) ->
  (exists u : Time,
     loc u = loc checkInTime /\ date u = date checkInTime /\
     Hour u = Hour workStart /\ Minute_ u = Minute_ workStart /\
     Second_ u = Second_ workStart) ->
  let start := todayWorkStart checkInTime workStart in
  date start = date checkInTime /\
  Hour start = Hour workStart /\
  Minute_ start = Minute_ workStart /\
  Second_ start = Second_ workStart /\
  nsec start = 0.
Proof.
  intros Hfit Hspaced (u & Hlu & Hu) start.
  destruct Hfit as [Hnil | Hall].
  { assert (Hl : loc checkInTime = FixedZone (firstOffset (loc checkInTime))).
    { destruct (loc checkInTime) as [fo t0]. cbn in Hnil. subst t0.
      reflexivity. }
    exact (todayWorkStart_fixed_zone checkInTime workStart _ Hl). }
  pose proof (todayWorkStart_sorted checkInTime workStart
                (spaced_weaken 172800 _ ltac:(lia) Hspaced)) as E.
  cbv zeta in E. fold start in E.
  set (l := loc checkInTime) in *.
  set (W := localSec checkInTime / 86400 * 86400 + secondOfDay workStart)
    in *.
  apply (wall_reading u checkInTime workStart) in Hu. fold W in Hu.
  assert (Hk : offsetAt l (W - offsetAt l (sec u)) = offsetAt l (sec u)).
  { unfold localSec in Hu. rewrite Hlu in Hu. fold l in Hu.
    replace (W - offsetAt l (sec u)) with (sec u) by lia. reflexivity. }
  pose proof (reading_found l W _ Hall Hspaced Hk) as Hb. cbv zeta in Hb.
  set (b := offsetAt l (W - offsetAt l W)) in *.
  assert (Hsec : sec start = W - b)
    by (unfold sec; rewrite E, Second_value; divmod).
  assert (Hns : nsec start = 0)
    by (unfold nsec; rewrite E, Second_value; divmod).
  assert (HL : localSec start = W).
  { assert (Hloc : loc start = l) by apply loc_todayWorkStart.
    unfold localSec. rewrite Hloc, Hsec, Hb. lia. }
  destruct (proj1 (wall_reading start checkInTime workStart) HL)
    as (H1 & H2 & H3 & H4).
  repeat split; assumption.
Qed.

(** In such a location today's work start is an expected start whenever
    there is one, and the expected start when there is exactly one. *)
Lemma todayWorkStart_isExpectedStart (checkInTime workStart : Time) :
  offsetsFit (loc checkInTime) ->
  spaced 172800 (loc checkInTime) ->
  (exists u, isExpectedStart u checkInTime workStart) ->
  isExpectedStart (todayWorkStart checkInTime workStart)
    checkInTime workStart.
Proof.
  intros Hfit Hspaced (u & Hl & Hd & Hh & Hm & Hs & _).
  destruct (todayWorkStart_reads checkInTime workStart Hfit Hspaced)
    as (H1 & H2 & H3 & H4 & H5).
  { exists u. repeat split; assumption. }
  split; [apply loc_todayWorkStart |]. repeat split; assumption.
Qed.

Lemma todayWorkStart_the_expected_start
    (checkInTime workStart u : Time) :
  offsetsFit (loc checkInTime) ->
  spaced 172800 (loc checkInTime) ->
  isExpectedStart u checkInTime workStart ->
  (forall v, isExpectedStart v checkInTime workStart ->
             unixNano v = unixNano u) ->
  unixNano (todayWorkStart checkInTime workStart) = unixNano u.
Proof.
  intros Hfit Hspaced Hu Only. apply Only.
  apply todayWorkStart_isExpectedStart; try assumption.
  exists u. exact Hu.
Qed.

(** The two outcomes of [calculateStatus] on a parseable work start. *)
Lemma calculateStatus_parsed (checkInTime : Time) (workStartTime : string)
    (workStart : Time) :
  Parse workStartTime = Some workStart ->
  calculateStatus checkInTime workStartTime =
    if unixNano checkInTime
       <? unixNano (todayWorkStart checkInTime workStart) + 300000000000
    then "ontime" else "late".
Proof.
  intros HP. unfold calculateStatus. rewrite HP.
  rewrite Before_lt, unixNano_Add. reflexivity.
Qed.

(** [calculateLateStatus] on a parseable work start, for a check-in at
    or after today's work start whose location is one in use. *)
Lemma calculateLateStatus_parsed (checkInTime : Time)
    (workStartTime : string) (workStart : Time) :
  Parse workStartTime = Some workStart ->
  offsetsFit (loc checkInTime) ->
  unixNano (todayWorkStart checkInTime workStart) <= unixNano checkInTime ->
  calculateLateStatus checkInTime workStartTime =
    "เข้าสาย "
    ++ formatInt
         (Z.quot (unixNano checkInTime
                  - unixNano (todayWorkStart checkInTime workStart))
                 60000000000)
    ++ " นาที".
Proof.
  intros HP Hfit Hle. unfold calculateLateStatus. rewrite HP.
  pose proof (checkIn_near_workStart checkInTime workStart Hfit) as Hnear.
  rewrite Sub_exact
    by (unfold minDuration, maxDuration;
        change (2 ^ 63) with 9223372036854775808; lia).
  rewrite intMinutes_quot
    by (rewrite Minute_value; change (2 ^ 16) with 65536; lia).
  reflexivity.
Qed.

(** *** The claims about the classifier *)

(** The classification against today's work start, and today's work
    start in a zone without transitions. *)
Lemma grace_period_bounds
    (checkInTime : Time) (workStartTime : string) (workStart : Time) :
  Parse workStartTime = Some workStart ->
  let arrival := unixNano checkInTime in
  let start := unixNano (todayWorkStart checkInTime workStart) in
  let status := calculateStatus checkInTime workStartTime in
  gracePeriod = 5 * 60 * 1000000000 /\
  (status = "ontime" <-> arrival < start + gracePeriod) /\
  (status = "late" <-> start + gracePeriod <= arrival) /\
  (arrival = start -> status = "ontime") /\
  (arrival = start + gracePeriod - 1000000000 -> status = "ontime") /\
  (arrival = start + gracePeriod + 1000000000 -> status = "late") /\
  loc (todayWorkStart checkInTime workStart) = loc checkInTime /\
  (forall off, loc checkInTime = FixedZone off ->
     date (todayWorkStart checkInTime workStart) = date checkInTime /\
     Hour (todayWorkStart checkInTime workStart) = Hour workStart /\
     Minute_ (todayWorkStart checkInTime workStart) = Minute_ workStart /\
     Second_ (todayWorkStart checkInTime workStart) = Second_ workStart /\
     nsec (todayWorkStart checkInTime workStart) = 0).
Proof.
  intros HP arrival start status.
  assert (Hs : status = if arrival <? start + 300000000000
                        then "ontime" else "late")
    by (apply calculateStatus_parsed; exact HP).
  change gracePeriod with 300000000000.
  split; [reflexivity |].
  destruct (Z.ltb_spec arrival (start + 300000000000)) as [Hlt | Hge];
    rewrite Hs.
  - repeat split; intros; try reflexivity; try discriminate; try lia.
    + apply loc_todayWorkStart.
    + apply (todayWorkStart_fixed_zone checkInTime workStart off); assumption.
    + apply (todayWorkStart_fixed_zone checkInTime workStart off); assumption.
    + apply (todayWorkStart_fixed_zone checkInTime workStart off); assumption.
    + apply (todayWorkStart_fixed_zone checkInTime workStart off); assumption.
    + apply (todayWorkStart_fixed_zone checkInTime workStart off); assumption.
  - repeat split; intros; try reflexivity; try discriminate; try lia.
    + apply loc_todayWorkStart.
    + apply (todayWorkStart_fixed_zone checkInTime workStart off); assumption.
    + apply (todayWorkStart_fixed_zone checkInTime workStart off); assumption.
    + apply (todayWorkStart_fixed_zone checkInTime workStart off); assumption.
    + apply (todayWorkStart_fixed_zone checkInTime workStart off); assumption.
    + apply (todayWorkStart_fixed_zone checkInTime workStart off); assumption.
Qed.

(** C3.  With a parseable expected start, the check-in is classified
    on time exactly when its instant is strictly before today's work
    start plus the grace period of five minutes, and late otherwise.  In
    particular a check-in exactly at work start, or one second short of
    the end of the grace period, is on time, and one second past the end
    of the grace period is late.
    Today's work start is in the check-in's location, in every location:
    it is the wall-clock second [W] of the check-in's calendar date at the
    parsed hour, minute and second, less an offset of the location; with
    sorted transitions that offset is the one in force at [W] less the
    offset in force at [W].  In a zone without transitions it reads the
    parsed time of day on the check-in's date; and so it does in a zone
    with transitions (offsets under a day, transitions two days apart or
    more) whenever some instant of the zone reads that date and time of
    day at all.  Where exactly one instant does, that instant is today's
    work start, and the check-in is on time exactly when it is strictly
    before that instant plus the grace period. *)
Theorem calculateStatus_grace_period
    (checkInTime : Time) (workStartTime : string) (workStart : Time) :
  Parse workStartTime = Some workStart ->
  let arrival := unixNano checkInTime in
  let start := unixNano (todayWorkStart checkInTime workStart) in
  let status := calculateStatus checkInTime workStartTime in
  let l := loc checkInTime in
  let W :=
    localSec checkInTime / secondsPerDay * secondsPerDay
    + secondOfDay workStart in
  gracePeriod = 5 * 60 * 1000000000 /\
  (status = "ontime" <-> arrival < start + gracePeriod) /\
  (status = "late" <-> start + gracePeriod <= arrival) /\
  (arrival = start -> status = "ontime") /\
  (arrival = start + gracePeriod - 1000000000 -> status = "ontime") /\
  (arrival = start + gracePeriod + 1000000000 -> status = "late") /\
  loc (todayWorkStart checkInTime workStart) = loc checkInTime /\
  (forall off, loc checkInTime = FixedZone off ->
     date (todayWorkStart checkInTime workStart) = date checkInTime /\
     Hour (todayWorkStart checkInTime workStart) = Hour workStart /\
     Minute_ (todayWorkStart checkInTime workStart) = Minute_ workStart /\
     Second_ (todayWorkStart checkInTime workStart) = Second_ workStart /\
     nsec (todayWorkStart checkInTime workStart) = 0) /\
  (exists off, In off (offsets l) /\ start = (W - off) * 1000000000) /\
  (spaced 0 l ->
   start = (W - offsetAt l (W - offsetAt l W)) * 1000000000) /\
  (offsetsFit l -> spaced (2 * secondsPerDay) l ->
   (exists u, isExpectedStart u checkInTime workStart) ->
   isExpectedStart (todayWorkStart checkInTime workStart)
     checkInTime workStart) /\
  (offsetsFit l -> spaced (2 * secondsPerDay) l ->
   forall u,
     isExpectedStart u checkInTime workStart ->
     (forall v, isExpectedStart v checkInTime workStart ->
                unixNano v = unixNano u) ->
     start = unixNano u /\
     (status = "ontime" <-> arrival < unixNano u + gracePeriod) /\
     (status = "late" <-> unixNano u + gracePeriod <= arrival)).
Proof.
  intros HP arrival start status l W.
  destruct (grace_period_bounds checkInTime workStartTime workStart HP)
    as (G & On & Late & At & Before & After & Hloc & Fixed).
  repeat (split; [assumption |]).
  split; [exact (todayWorkStart_unixNano checkInTime workStart) |].
  split; [exact (todayWorkStart_sorted checkInTime workStart) |].
  split; [exact (todayWorkStart_isExpectedStart checkInTime workStart) |].
  intros Hfit Hspaced u Hu Only.
  pose proof (todayWorkStart_the_expected_start checkInTime workStart u
                Hfit Hspaced Hu Only) as E.
  fold start in E. rewrite <- E.
  split; [reflexivity |]. split; assumption.
Qed.


(** C7.  With a malformed expected start the classifier answers on time,
    whatever the check-in time; the functions return plain strings, so no
    error can come out of them; and the lateness text is the generic
    message, with no minute figure. *)
Theorem malformed_work_start_is_on_time
    (checkInTime : Time) (workStartTime : string) :
  Parse workStartTime = None ->
  calculateStatus checkInTime workStartTime = "ontime" /\
  calculateLateStatus checkInTime workStartTime = "เข้าสาย".
Proof.
  intros HP. unfold calculateStatus, calculateLateStatus. rewrite HP.
  split; reflexivity.
Qed.




(** The parser accepts a fractional second after the seconds field; the
    service reads only hour, minute and second of the parsed time, so the
    fraction plays no part in the classification. *)
Lemma calculateStatus_ignores_fraction (checkInTime : Time) :
  calculateStatus checkInTime "08:00:00.5"
  = calculateStatus checkInTime "08:00:00".
Proof. reflexivity. Qed.


(** *** Concrete check-ins, after [attendance_test.go] *)

Import Samples.

(** On 1 July 2026 in New York one instant reads 08:00:00. *)
Lemma july1_expected_start (checkInTime : Time) :
  loc checkInTime = eastern ->
  date checkInTime = date (july1 8 0 0) ->
  isExpectedStart (july1 8 0 0) checkInTime eightOClock /\
  (forall v, isExpectedStart v checkInTime eightOClock ->
             unixNano v = unixNano (july1 8 0 0)).
Proof.
  intros Hl Hd. split.
  - unfold isExpectedStart. rewrite Hl, Hd. repeat split.
  - intros v (Lv & Dv & Hv & Mv & Sv & Nv).
    rewrite Hd in Dv. rewrite Hl in Lv.
    assert (HL : localSec v
                 = localSec (july1 8 0 0) / 86400 * 86400
                   + secondOfDay eightOClock).
    { apply wall_reading. repeat split; assumption. }
    destruct (sec_nsec v) as [Ev _]. rewrite Nv in Ev.
    unfold localSec in HL at 1. rewrite Lv in HL.
    change (localSec (july1 8 0 0) / 86400 * 86400
            + secondOfDay eightOClock) with 1782892800 in HL.
    change (unixNano (july1 8 0 0)) with 1782907200000000000.
    unfold offsetAt, lookup, eastern in HL.
    cbn [tx firstOffset lookupFrom when zoffset fst] in HL.
    destruct (Z.ltb_spec (sec v) 1772953200); cbn [fst] in HL; [lia |].
    destruct (Z.ltb_spec (sec v) 1793512800); cbn [fst] in HL; lia.
Qed.

Lemma calculateStatus_grace_period_witness :
  Parse "08:00:00" = Some eightOClock /\
  calculateStatus (feb1 8 0 0) "08:00:00" = "ontime" /\
  (calculateStatus (feb1 8 4 59) "08:00:00" = "ontime" <->
   unixNano (feb1 8 4 59)
     < unixNano (todayWorkStart (feb1 8 4 59) eightOClock) + gracePeriod) /\
  (calculateStatus (feb1 8 5 1) "08:00:00" = "late" <->
   unixNano (todayWorkStart (feb1 8 5 1) eightOClock) + gracePeriod
     <= unixNano (feb1 8 5 1)) /\
  offsetsFit (loc (july1 8 4 59)) /\
  spaced (2 * secondsPerDay) (loc (july1 8 4 59)) /\
  isExpectedStart (july1 8 0 0) (july1 8 4 59) eightOClock /\
  unixNano (todayWorkStart (july1 8 4 59) eightOClock)
    = unixNano (july1 8 0 0) /\
  (calculateStatus (july1 8 4 59) "08:00:00" = "ontime" <->
   unixNano (july1 8 4 59) < unixNano (july1 8 0 0) + gracePeriod).
Proof.
  assert (HP : Parse "08:00:00" = Some eightOClock) by reflexivity.
  split; [exact HP |].
  split; [| split; [| split]].
  - pose proof (calculateStatus_grace_period (feb1 8 0 0) "08:00:00"
                  eightOClock HP) as (_ & _ & _ & H & _).
    apply H. reflexivity.
  - pose proof (calculateStatus_grace_period (feb1 8 4 59) "08:00:00"
                  eightOClock HP) as (_ & H & _).
    exact H.
  - pose proof (calculateStatus_grace_period (feb1 8 5 1) "08:00:00"
                  eightOClock HP) as (_ & _ & H & _).
    exact H.
  - assert (Hfit : offsetsFit (loc (july1 8 4 59)))
      by (right; vm_compute; repeat constructor; discriminate).
    assert (Hsp : spaced (2 * secondsPerDay) (loc (july1 8 4 59)))
      by (vm_compute; split; [discriminate | exact I]).
    destruct (july1_expected_start (july1 8 4 59) eq_refl eq_refl)
      as [Hu Only].
    pose proof (calculateStatus_grace_period (july1 8 4 59) "08:00:00"
                  eightOClock HP)
      as (_ & _ & _ & _ & _ & _ & _ & _ & _ & _ & _ & H).
    destruct (H Hfit Hsp (july1 8 0 0) Hu Only) as (E & On & _).
    repeat (split; [assumption |]). exact On.
Defined.

Lemma malformed_work_start_is_on_time_witness :
  Parse "invalid" = None /\
  calculateStatus (feb1 9 0 0) "invalid" = "ontime" /\
  calculateLateStatus (feb1 8 30 0) "invalid" = "เข้าสาย".
Proof.
  assert (HP : Parse "invalid" = None) by reflexivity.
  split; [exact HP |].
  split.
  - exact (proj1 (malformed_work_start_is_on_time (feb1 9 0 0) "invalid" HP)).
  - exact (proj2 (malformed_work_start_is_on_time (feb1 8 30 0) "invalid" HP)).
Defined.


(** Where no instant reads the expected time of day, [time.Date] still
    answers: on 8 March 2026 in New York the clocks go from 02:00 to
    03:00, and today's work start for 02:30:00 is the instant that reads
    01:30:00, an hour before the change. *)
Example spring_forward_gap :
  match Parse "02:30:00" with
  | Some workStart =>
      let start :=
        todayWorkStart (Date 2026 3 8 12 0 0 0 eastern) workStart in
      Day start = 8 /\ Hour start = 1 /\ Minute_ start = 30
  | None => False
  end.
Proof. vm_compute. repeat split. Qed.

(** The table of [TestCalculateStatus]. *)
Example TestCalculateStatus :
  calculateStatus (feb1 8 0 0) "08:00:00" = "ontime" /\
  calculateStatus (feb1 8 4 0) "08:00:00" = "ontime" /\
  calculateStatus (feb1 8 6 0) "08:00:00" = "late" /\
  calculateStatus (feb1 8 30 0) "08:00:00" = "late" /\
  calculateStatus (feb1 7 45 0) "08:00:00" = "ontime" /\
  calculateStatus (feb1 9 0 0) "invalid" = "ontime".
Proof. repeat split. Qed.

(** The table of [TestCalculateLateStatus]. *)
Example TestCalculateLateStatus :
  calculateLateStatus (feb1 8 10 0) "08:00:00" = "เข้าสาย 10 นาที" /\
  calculateLateStatus (feb1 8 30 0) "08:00:00" = "เข้าสาย 30 นาที" /\
  calculateLateStatus (feb1 8 30 0) "invalid" = "เข้าสาย".
Proof. repeat split. Qed.


End Classifier.

(* ===================================================================== *)
(** ** The pipeline *)
(* ===================================================================== *)

Module Pipeline.

Local Open Scope list_scope.

Ltac run :=
  unfold ProcessDetection, saveDetection, recordAttendance,
    sendCheckInNotification, bind, call, notify, ret, getReq, modifyReq;
  cbn [req history fst snd].

(** [sendCheckInNotification] always messages the employee, messages the
    admin too when the status is late, and leaves the request alone. *)
Lemma sendCheckInNotification_run (employee : Employee.t) (now : Time)
    (scannerMac status : string) (st : State) :
  exists sent,
    sendCheckInNotification employee now scannerMac status st
      = (tt, mkState (req st) (history st ++ sent)) /\
    sent <> [] /\
    Forall (fun c => isNotification c = true) sent.
Proof.
  run. destruct (String.eqb status "late"); cbn [req history].
  - eexists [_; _]. rewrite <- app_assoc. cbn [app].
    split; [reflexivity |]. split; [discriminate |].
    repeat constructor.
  - eexists [_]. split; [reflexivity |]. split; [discriminate |].
    repeat constructor.
Qed.

(** [recordAttendance] asks the attendance repository once; on failure it
    returns the wrapped error and sends nothing, on success it notifies. *)
Lemma recordAttendance_run (s : AttendanceService) (employee : Employee.t)
    (scannerMac : string) (st : State) :
  exists attendance answer sent,
    Attendance.EmployeeID attendance = Employee.ID employee /\
    Attendance.ScannerMac attendance = scannerMac /\
    Attendance.Status attendance
      = calculateStatus (clock s (history st))
          (Employee.WorkStartTime employee) /\
    recordAttendance s employee scannerMac st
      = (match answer with
         | Some err => Some (Errorf "failed to create attendance record: " err)
         | None => None
         end,
         mkState (req st)
           (history st ++ CallAttendanceCreate attendance answer :: sent)) /\
    Forall (fun c => isNotification c = true) sent /\
    (answer = None <-> sent <> []).
Proof.
  unfold recordAttendance, bind, call, ret. cbn [req history fst snd].
  set (now := clock s (history st)).
  set (status := calculateStatus now (Employee.WorkStartTime employee)).
  set (attendance :=
         Attendance.mk "" (Employee.ID employee) now scannerMac status now).
  set (answer := AttendanceCreate (attendanceRepo s) (history st) attendance).
  exists attendance, answer.
  destruct answer as [err |].
  - exists []. repeat split; try reflexivity; try constructor.
    + discriminate.
    + intros H; contradiction H; reflexivity.
  - destruct (sendCheckInNotification_run employee now scannerMac status
                (mkState (req st)
                   (history st ++ [CallAttendanceCreate attendance None])))
      as (sent & E & Hne & Hall).
    exists sent. rewrite E. cbn [req history].
    rewrite <- app_assoc. cbn [app].
    repeat split; try reflexivity; try assumption.
    intros _. exact Hne.
Qed.

Section Branches.

Variable s : AttendanceService.
Variable st : State.

Lemma RSSI_markTarget (employee : Employee.t) (r : DetectionRequest.t) :
  DetectionRequest.RSSI (markTarget employee r) = DetectionRequest.RSSI r.
Proof. reflexivity. Qed.

(** The lookup failed: nothing else happens. *)
Lemma run_unknown (e : error) :
  lookupAnswer s st = inr e ->
  ProcessDetection s st
    = (None, mkState (req st) (history st ++ [lookupCall s st])).
Proof.
  intros H. run. fold (lookupAnswer s st). fold (lookupCall s st).
  rewrite H. reflexivity.
Qed.

(** Known device, signal below the threshold: the request is marked and
    nothing else happens. *)
Lemma run_too_far (employee : Employee.t) :
  lookupAnswer s st = inl employee ->
  DetectionRequest.RSSI (req st) < rssiThreshold ->
  ProcessDetection s st
    = (None,
       mkState (markTarget employee (req st))
         (history st ++ [lookupCall s st])).
Proof.
  intros H Hfar. apply Z.ltb_lt in Hfar. run.
  fold (lookupAnswer s st). fold (lookupCall s st).
  rewrite H. cbn [req history fst snd].
  fold (markTarget employee (req st)).
  rewrite RSSI_markTarget, Hfar. reflexivity.
Qed.

(** Known device, close enough: the check-in query decides. *)
Lemma run_close (employee : Employee.t) :
  lookupAnswer s st = inl employee ->
  rssiThreshold <= DetectionRequest.RSSI (req st) ->
  ProcessDetection s st
    = let r := markTarget employee (req st) in
      let h2 := history st ++ [lookupCall s st; checkedInCall s st employee] in
      match checkedInAnswer s st employee with
      | inr err =>
          (Some (Errorf "failed to check attendance status: " err),
           mkState r h2)
      | inl true => (None, mkState r h2)
      | inl false =>
          match detectionAnswer s st employee with
          | Some err =>
              (Some (Errorf "failed to save detection: "
                       (Errorf "failed to create detection: " err)),
               mkState r (h2 ++ [detectionCall s st employee]))
          | None =>
              let '(e, st') :=
                recordAttendance s employee
                  (DetectionRequest.ScannerMac (req st))
                  (mkState r (h2 ++ [detectionCall s st employee])) in
              (match e with
               | Some err => Some (Errorf "failed to record attendance: " err)
               | None => None
               end, st')
          end
      end.
Proof.
  intros H Hclose. apply Z.ltb_ge in Hclose.
  unfold ProcessDetection, saveDetection, bind, call, ret, getReq, modifyReq.
  cbn [req history fst snd].
  fold (lookupAnswer s st). fold (lookupCall s st).
  rewrite H. cbn [req history fst snd].
  fold (markTarget employee (req st)).
  rewrite RSSI_markTarget, Hclose.
  cbn [req history fst snd].
  fold (checkedInAnswer s st employee). fold (checkedInCall s st employee).
  rewrite <- !app_assoc. cbn [app].
  destruct (checkedInAnswer s st employee) as [[|] | err] eqn:Ec;
    cbn [negb req history fst snd]; try reflexivity.
  rewrite <- !app_assoc. cbn [app].
  change (DetectionCreate (detectionRepo s)
            (history st ++ [lookupCall s st; checkedInCall s st employee]) ?d)
    with (detectionAnswer s st employee).
  change (CallDetectionCreate ?d (detectionAnswer s st employee))
    with (detectionCall s st employee).
  destruct (detectionAnswer s st employee) as [err |] eqn:Ed;
    cbn [req history fst snd]; try reflexivity.
  change (DetectionRequest.ScannerMac (markTarget employee (req st)))
    with (DetectionRequest.ScannerMac (req st)).
  destruct (recordAttendance s employee (DetectionRequest.ScannerMac (req st))
              _) as [[err |] st'];
    reflexivity.
Qed.

End Branches.


(** Reading off a run whose outcome is known. *)
Lemma observe (s : AttendanceService) (st : State) (r : option error)
    (q : DetectionRequest.t) (new : History) :
  ProcessDetection s st = (r, mkState q (history st ++ new)) ->
  result s st = r /\ finalReq s st = q /\ calls s st = new.
Proof.
  intros E. unfold result, finalReq, calls. rewrite E. cbn [fst snd req history].
  repeat split.
  rewrite skipn_app, skipn_all, Nat.sub_diag. reflexivity.
Qed.

Section Outcomes.

Variable s : AttendanceService.
Variable st : State.
Variable employee : Employee.t.
Hypothesis known : lookupAnswer s st = inl employee.
Hypothesis close : rssiThreshold <= DetectionRequest.RSSI (req st).

Lemma run_check_failed (err : error) :
  checkedInAnswer s st employee = inr err ->
  ProcessDetection s st
    = (Some (Errorf "failed to check attendance status: " err),
       mkState (markTarget employee (req st))
         (history st ++ [lookupCall s st; checkedInCall s st employee])).
Proof. intros E. rewrite (run_close s st employee known close), E. reflexivity. Qed.

Lemma run_already_arrived :
  checkedInAnswer s st employee = inl true ->
  ProcessDetection s st
    = (None,
       mkState (markTarget employee (req st))
         (history st ++ [lookupCall s st; checkedInCall s st employee])).
Proof. intros E. rewrite (run_close s st employee known close), E. reflexivity. Qed.

Lemma run_save_failed (err : error) :
  checkedInAnswer s st employee = inl false ->
  detectionAnswer s st employee = Some err ->
  ProcessDetection s st
    = (Some (Errorf "failed to save detection: "
               (Errorf "failed to create detection: " err)),
       mkState (markTarget employee (req st))
         (history st
          ++ [lookupCall s st; checkedInCall s st employee;
              detectionCall s st employee])).
Proof.
  intros E Ed. rewrite (run_close s st employee known close), E, Ed.
  cbv zeta. rewrite <- app_assoc. reflexivity.
Qed.

(** A new arrival whose detection record was saved: the attendance
    repository is asked once, and the notifications follow exactly when
    it succeeds. *)
Lemma run_saved :
  checkedInAnswer s st employee = inl false ->
  detectionAnswer s st employee = None ->
  exists attendance answer sent,
    ProcessDetection s st
      = (match answer with
         | Some err =>
             Some (Errorf "failed to record attendance: "
                     (Errorf "failed to create attendance record: " err))
         | None => None
         end,
         mkState (markTarget employee (req st))
           (history st
            ++ [lookupCall s st; checkedInCall s st employee;
                detectionCall s st employee;
                CallAttendanceCreate attendance answer] ++ sent)) /\
    Attendance.EmployeeID attendance = Employee.ID employee /\
    Forall (fun c => isNotification c = true) sent /\
    (answer = None <-> sent <> []).
Proof.
  intros E Ed. rewrite (run_close s st employee known close), E, Ed.
  cbv zeta.
  destruct (recordAttendance_run s employee
              (DetectionRequest.ScannerMac (req st))
              (mkState (markTarget employee (req st))
                 ((history st
                   ++ [lookupCall s st; checkedInCall s st employee])
                  ++ [detectionCall s st employee])))
    as (attendance & answer & sent & Hid & _ & _ & Er & Hall & Hsent).
  exists attendance, answer, sent.
  rewrite Er. cbn [req history].
  rewrite <- !app_assoc. cbn [app].
  split; [| tauto].
  destruct answer; reflexivity.
Qed.

End Outcomes.

Lemma filter_notifications (p : Call -> bool) (sent : History) :
  (forall c, isNotification c = true -> p c = false) ->
  Forall (fun c => isNotification c = true) sent ->
  filter p sent = [].
Proof.
  intros Hp Hall. induction Hall as [| c l Hc _ IH]; simpl.
  - reflexivity.
  - rewrite (Hp c Hc). exact IH.
Qed.

Lemma notification_not_detection (c : Call) :
  isNotification c = true -> isDetectionCreate c = false.
Proof. destruct c; simpl; congruence. Qed.

(** *** The claims about the pipeline *)

Import Samples.

(** C1, as the code has it.  For a sighting that resolves to a known
    employee, a detection record is written exactly once when the signal
    passes the threshold and the check-in query answers "not yet"; when
    the signal is too weak, or the query answers "already checked in" or
    fails, no detection record is written. *)
Theorem detection_record_only_for_new_arrival
    (s : AttendanceService) (st : State) (employee : Employee.t) :
  lookupAnswer s st = inl employee ->
  let written := detectionWrites (calls s st) in
  (rssiThreshold <= DetectionRequest.RSSI (req st) ->
   checkedInAnswer s st employee = inl false ->
   written = [detectionCall s st employee]) /\
  (DetectionRequest.RSSI (req st) < rssiThreshold ->
   written = []) /\
  (checkedInAnswer s st employee <> inl false ->
   written = []).
Proof.
  intros known written. unfold written. split; [| split].
  - intros close E.
    destruct (detectionAnswer s st employee) as [err |] eqn:Ed.
    + destruct (observe _ _ _ _ _ (run_save_failed s st employee known close
                                     err E Ed)) as (_ & _ & ->).
      reflexivity.
    + destruct (run_saved s st employee known close E Ed)
        as (attendance & answer & sent & Er & _ & Hall & _).
      destruct (observe _ _ _ _ _ Er) as (_ & _ & ->).
      unfold detectionWrites. rewrite filter_app.
      rewrite (filter_notifications isDetectionCreate sent
                 notification_not_detection Hall).
      reflexivity.
  - intros far.
    destruct (observe _ _ _ _ _ (run_too_far s st employee known far))
      as (_ & _ & ->).
    reflexivity.
  - intros E.
    destruct (Z.lt_ge_cases (DetectionRequest.RSSI (req st)) rssiThreshold)
      as [far | close].
    + destruct (observe _ _ _ _ _ (run_too_far s st employee known far))
        as (_ & _ & ->).
      reflexivity.
    + destruct (checkedInAnswer s st employee) as [[|] | err] eqn:Ec.
      * destruct (observe _ _ _ _ _
                    (run_already_arrived s st employee known close Ec))
          as (_ & _ & ->).
        reflexivity.
      * contradiction E; reflexivity.
      * destruct (observe _ _ _ _ _
                    (run_check_failed s st employee known close err Ec))
          as (_ & _ & ->).
        reflexivity.
Qed.

(** C2, as the code has it.  Whatever error the lookup returns, "not
    found" or any other failure, [ProcessDetection] returns nil, makes no
    further call, writes no record and leaves the request as it was. *)
Theorem lookup_failure_is_ignored
    (s : AttendanceService) (st : State) (err : error) :
  lookupAnswer s st = inr err ->
  result s st = None /\
  calls s st = [lookupCall s st] /\
  detectionWrites (calls s st) = [] /\
  attendanceWrites (calls s st) = [] /\
  notifications (calls s st) = [] /\
  finalReq s st = req st.
Proof.
  intros E.
  destruct (observe _ _ _ _ _ (run_unknown s st err E)) as (-> & -> & ->).
  unfold lookupCall. rewrite E. repeat split.
Qed.

(** C4, as the code has it.  When the detection record cannot be created
    for a new arrival, [ProcessDetection] returns that failure wrapped and
    stops: no attendance record is attempted and nothing is sent. *)
Theorem detection_write_failure_aborts
    (s : AttendanceService) (st : State) (employee : Employee.t)
    (err : error) :
  lookupAnswer s st = inl employee ->
  rssiThreshold <= DetectionRequest.RSSI (req st) ->
  checkedInAnswer s st employee = inl false ->
  detectionAnswer s st employee = Some err ->
  result s st
    = Some (Errorf "failed to save detection: "
              (Errorf "failed to create detection: " err)) /\
  calls s st
    = [lookupCall s st; checkedInCall s st employee;
       detectionCall s st employee] /\
  attendanceWrites (calls s st) = [] /\
  notifications (calls s st) = [].
Proof.
  intros known close E Ed.
  destruct (observe _ _ _ _ _ (run_save_failed s st employee known close
                                 err E Ed)) as (-> & _ & ->).
  repeat split.
Qed.

(** C5.  When the employee already has an attendance record today (the
    check-in query answers true), a further sighting that resolves and
    passes the threshold returns nil and does nothing beyond the two
    queries: no attendance record, no notification, no detection record. *)
Theorem already_arrived_is_a_no_op
    (s : AttendanceService) (st : State) (employee : Employee.t) :
  lookupAnswer s st = inl employee ->
  rssiThreshold <= DetectionRequest.RSSI (req st) ->
  checkedInAnswer s st employee = inl true ->
  result s st = None /\
  calls s st = [lookupCall s st; checkedInCall s st employee] /\
  attendanceWrites (calls s st) = [] /\
  notifications (calls s st) = [] /\
  detectionWrites (calls s st) = [].
Proof.
  intros known close E.
  destruct (observe _ _ _ _ _ (run_already_arrived s st employee known close E))
    as (-> & _ & ->).
  repeat split.
Qed.

(** C6.  When the check-in query itself fails, [ProcessDetection] returns
    an error that wraps the failure and stops: no attendance record is
    created, no detection record, no notification. *)
Theorem dedup_failure_is_propagated
    (s : AttendanceService) (st : State) (employee : Employee.t)
    (err : error) :
  lookupAnswer s st = inl employee ->
  rssiThreshold <= DetectionRequest.RSSI (req st) ->
  checkedInAnswer s st employee = inr err ->
  result s st = Some (Errorf "failed to check attendance status: " err) /\
  option_map Unwrap (result s st) = Some (Some err) /\
  calls s st = [lookupCall s st; checkedInCall s st employee] /\
  attendanceWrites (calls s st) = [] /\
  detectionWrites (calls s st) = [] /\
  notifications (calls s st) = [].
Proof.
  intros known close E.
  destruct (observe _ _ _ _ _ (run_check_failed s st employee known close
                                 err E)) as (-> & _ & ->).
  repeat split.
Qed.


(** C9.  The gate threshold is -70.  For a sighting that resolves to a
    known employee, the run stops right after the lookup exactly when the
    signal strength is strictly below the threshold; and in that case
    [ProcessDetection] returns nil, no attendance record is created and
    nothing is sent. *)
Theorem weak_signal_is_rejected
    (s : AttendanceService) (st : State) (employee : Employee.t) :
  lookupAnswer s st = inl employee ->
  rssiThreshold = -70 /\
  (DetectionRequest.RSSI (req st) < rssiThreshold <->
   calls s st = [lookupCall s st]) /\
  (DetectionRequest.RSSI (req st) < rssiThreshold ->
   result s st = None /\
   attendanceWrites (calls s st) = [] /\
   notifications (calls s st) = []).
Proof.
  intros known. split; [reflexivity |].
  assert (Hfar : DetectionRequest.RSSI (req st) < rssiThreshold ->
                 result s st = None /\ calls s st = [lookupCall s st]).
  { intros far.
    destruct (observe _ _ _ _ _ (run_too_far s st employee known far))
      as (-> & _ & ->).
    split; reflexivity. }
  split; [split |].
  - intros far. apply Hfar. exact far.
  - intros Hcalls.
    destruct (Z.lt_ge_cases (DetectionRequest.RSSI (req st)) rssiThreshold)
      as [far | close]; [exact far | exfalso].
    destruct (checkedInAnswer s st employee) as [[|] | err] eqn:Ec.
    + destruct (observe _ _ _ _ _
                  (run_already_arrived s st employee known close Ec))
        as (_ & _ & E).
      rewrite E in Hcalls. discriminate.
    + destruct (detectionAnswer s st employee) as [err |] eqn:Ed.
      * destruct (observe _ _ _ _ _
                    (run_save_failed s st employee known close err Ec Ed))
          as (_ & _ & E).
        rewrite E in Hcalls. discriminate.
      * destruct (run_saved s st employee known close Ec Ed)
          as (attendance & answer & sent & Er & _).
        destruct (observe _ _ _ _ _ Er) as (_ & _ & E).
        rewrite E in Hcalls. discriminate.
    + destruct (observe _ _ _ _ _
                  (run_check_failed s st employee known close err Ec))
        as (_ & _ & E).
      rewrite E in Hcalls. discriminate.
  - intros far. destruct (Hfar far) as [-> ->]. repeat split.
Qed.

(** What [ProcessDetection] leaves behind the request pointer. *)
Lemma finalReq_marked (s : AttendanceService) (st : State) :
  finalReq s st
    = match lookupAnswer s st with
      | inl employee => markTarget employee (req st)
      | inr _ => req st
      end.
Proof.
  destruct (lookupAnswer s st) as [employee | err] eqn:known.
  - destruct (Z.lt_ge_cases (DetectionRequest.RSSI (req st)) rssiThreshold)
      as [far | close].
    + apply (observe _ _ _ _ _ (run_too_far s st employee known far)).
    + destruct (checkedInAnswer s st employee) as [[|] | err] eqn:Ec.
      * apply (observe _ _ _ _ _
                 (run_already_arrived s st employee known close Ec)).
      * destruct (detectionAnswer s st employee) as [err |] eqn:Ed.
        -- apply (observe _ _ _ _ _
                    (run_save_failed s st employee known close err Ec Ed)).
        -- destruct (run_saved s st employee known close Ec Ed)
             as (attendance & answer & sent & Er & _).
           apply (observe _ _ _ _ _ Er).
      * apply (observe _ _ _ _ _
                 (run_check_failed s st employee known close err Ec)).
  - apply (observe _ _ _ _ _ (run_unknown s st err known)).
Qed.

(** C10, as the code has it.  [ProcessDetection] never changes the
    scanner address, the hardware address, the signal strength, the
    device type or the tag flag of the request.  It leaves the whole
    request alone when the lookup fails; when the lookup finds an
    employee it sets the target-device flag and stores the employee's
    name as the device name. *)
Theorem request_fields_after_processing
    (s : AttendanceService) (st : State) :
  DetectionRequest.ScannerMac (finalReq s st)
    = DetectionRequest.ScannerMac (req st) /\
  DetectionRequest.MacAddress (finalReq s st)
    = DetectionRequest.MacAddress (req st) /\
  DetectionRequest.RSSI (finalReq s st) = DetectionRequest.RSSI (req st) /\
  DetectionRequest.DeviceType (finalReq s st)
    = DetectionRequest.DeviceType (req st) /\
  DetectionRequest.IsITag03 (finalReq s st)
    = DetectionRequest.IsITag03 (req st) /\
  (forall err, lookupAnswer s st = inr err -> finalReq s st = req st) /\
  (forall employee,
     lookupAnswer s st = inl employee ->
     DetectionRequest.IsTargetDevice (finalReq s st) = true /\
     DetectionRequest.DeviceName (finalReq s st) = Employee.Name employee).
Proof.
  rewrite finalReq_marked.
  destruct (lookupAnswer s st) as [found | failure];
    do 5 (split; [reflexivity |]); split.
  - intros err E. discriminate E.
  - intros employee E. injection E as <-. split; reflexivity.
  - intros err _. reflexivity.
  - intros employee E. discriminate E.
Qed.


(** *** Concrete runs *)

(** A known employee seen with a weak signal, and the same employee seen
    again after the arrival was recorded: neither run writes a detection
    record, so "one record per resolved sighting" fails. *)
Lemma weak_or_repeated_sighting_leaves_no_record :
  lookupAnswer (office serverUp morning) (sighting (-80)) = inl somchai /\
  detectionWrites (calls (office serverUp morning) (sighting (-80))) = [] /\
  lookupAnswer (office serverUp morning) replay = inl somchai /\
  detectionWrites (calls (office serverUp morning) replay) = [].
Proof. repeat split. Qed.

Lemma detection_record_only_for_new_arrival_witness :
  lookupAnswer (office serverUp morning) (sighting (-50)) = inl somchai /\
  rssiThreshold <= DetectionRequest.RSSI (req (sighting (-50))) /\
  checkedInAnswer (office serverUp morning) (sighting (-50)) somchai
    = inl false /\
  detectionWrites (calls (office serverUp morning) (sighting (-50)))
    = [detectionCall (office serverUp morning) (sighting (-50)) somchai].
Proof.
  assert (H1 : lookupAnswer (office serverUp morning) (sighting (-50))
               = inl somchai) by reflexivity.
  assert (H2 : rssiThreshold <= DetectionRequest.RSSI (req (sighting (-50))))
    by (unfold rssiThreshold; simpl; lia).
  assert (H3 : checkedInAnswer (office serverUp morning) (sighting (-50))
                 somchai = inl false) by reflexivity.
  split; [exact H1 | split; [exact H2 | split; [exact H3 |]]].
  exact (proj1 (detection_record_only_for_new_arrival
                  (office serverUp morning) (sighting (-50)) somchai H1)
           H2 H3).
Defined.

(** The server answers 500: the lookup fails with an error that is not
    "employee not found", and [ProcessDetection] still returns nil. *)
Lemma server_error_is_swallowed :
  lookupAnswer (office serverDown morning) (sighting (-50))
    = inr serverError /\
  serverError <> PocketBase.errNotFound /\
  result (office serverDown morning) (sighting (-50)) = None.
Proof. repeat split. discriminate. Qed.

Lemma lookup_failure_is_ignored_witness :
  lookupAnswer (office serverDown morning) (sighting (-50))
    = inr serverError /\
  result (office serverDown morning) (sighting (-50)) = None /\
  finalReq (office serverDown morning) (sighting (-50)) = request (-50).
Proof.
  assert (H1 : lookupAnswer (office serverDown morning) (sighting (-50))
               = inr serverError) by reflexivity.
  pose proof (lookup_failure_is_ignored
                (office serverDown morning) (sighting (-50)) serverError H1)
    as (R & _ & _ & _ & _ & Q).
  split; [exact H1 | split; [exact R | exact Q]].
Defined.

(** The detection repository refuses the write for a new arrival:
    [ProcessDetection] returns an error and the attendance repository is
    never asked. *)
Lemma failed_audit_write_stops_the_arrival :
  lookupAnswer brokenAudit (sighting (-50)) = inl somchai /\
  checkedInAnswer brokenAudit (sighting (-50)) somchai = inl false /\
  detectionAnswer brokenAudit (sighting (-50)) somchai = Some refused /\
  result brokenAudit (sighting (-50))
    = Some (Errorf "failed to save detection: "
              (Errorf "failed to create detection: " refused)) /\
  attendanceWrites (calls brokenAudit (sighting (-50))) = [].
Proof. repeat split. Qed.

Lemma detection_write_failure_aborts_witness :
  lookupAnswer brokenAudit (sighting (-50)) = inl somchai /\
  rssiThreshold <= DetectionRequest.RSSI (req (sighting (-50))) /\
  checkedInAnswer brokenAudit (sighting (-50)) somchai = inl false /\
  detectionAnswer brokenAudit (sighting (-50)) somchai = Some refused /\
  attendanceWrites (calls brokenAudit (sighting (-50))) = [] /\
  notifications (calls brokenAudit (sighting (-50))) = [].
Proof.
  assert (H1 : lookupAnswer brokenAudit (sighting (-50)) = inl somchai)
    by reflexivity.
  assert (H2 : rssiThreshold <= DetectionRequest.RSSI (req (sighting (-50))))
    by (unfold rssiThreshold; simpl; lia).
  assert (H3 : checkedInAnswer brokenAudit (sighting (-50)) somchai
               = inl false) by reflexivity.
  assert (H4 : detectionAnswer brokenAudit (sighting (-50)) somchai
               = Some refused) by reflexivity.
  pose proof (detection_write_failure_aborts
                brokenAudit (sighting (-50)) somchai refused H1 H2 H3 H4)
    as (_ & _ & A & N).
  repeat (split; [assumption |]). exact N.
Defined.

Lemma already_arrived_is_a_no_op_witness :
  lookupAnswer (office serverUp morning) replay = inl somchai /\
  rssiThreshold <= DetectionRequest.RSSI (req replay) /\
  checkedInAnswer (office serverUp morning) replay somchai = inl true /\
  result (office serverUp morning) replay = None /\
  attendanceWrites (calls (office serverUp morning) replay) = [] /\
  notifications (calls (office serverUp morning) replay) = [].
Proof.
  assert (H1 : lookupAnswer (office serverUp morning) replay = inl somchai)
    by reflexivity.
  assert (H2 : rssiThreshold <= DetectionRequest.RSSI (req replay))
    by (unfold rssiThreshold; simpl; lia).
  assert (H3 : checkedInAnswer (office serverUp morning) replay somchai
               = inl true) by reflexivity.
  pose proof (already_arrived_is_a_no_op
                (office serverUp morning) replay somchai H1 H2 H3)
    as (R & _ & A & N & _).
  repeat (split; [assumption |]). exact N.
Defined.

Lemma dedup_failure_is_propagated_witness :
  lookupAnswer brokenQuery (sighting (-50)) = inl somchai /\
  rssiThreshold <= DetectionRequest.RSSI (req (sighting (-50))) /\
  checkedInAnswer brokenQuery (sighting (-50)) somchai = inr refused /\
  result brokenQuery (sighting (-50))
    = Some (Errorf "failed to check attendance status: " refused) /\
  attendanceWrites (calls brokenQuery (sighting (-50))) = [].
Proof.
  assert (H1 : lookupAnswer brokenQuery (sighting (-50)) = inl somchai)
    by reflexivity.
  assert (H2 : rssiThreshold <= DetectionRequest.RSSI (req (sighting (-50))))
    by (unfold rssiThreshold; simpl; lia).
  assert (H3 : checkedInAnswer brokenQuery (sighting (-50)) somchai
               = inr refused) by reflexivity.
  pose proof (dedup_failure_is_propagated
                brokenQuery (sighting (-50)) somchai refused H1 H2 H3)
    as (R & _ & _ & A & _).
  repeat (split; [assumption |]). exact A.
Defined.

Lemma weak_signal_is_rejected_witness :
  lookupAnswer (office serverUp morning) (sighting (-80)) = inl somchai /\
  DetectionRequest.RSSI (req (sighting (-80))) < rssiThreshold /\
  result (office serverUp morning) (sighting (-80)) = None /\
  attendanceWrites (calls (office serverUp morning) (sighting (-80))) = [] /\
  notifications (calls (office serverUp morning) (sighting (-80))) = [].
Proof.
  assert (H1 : lookupAnswer (office serverUp morning) (sighting (-80))
               = inl somchai) by reflexivity.
  assert (H2 : DetectionRequest.RSSI (req (sighting (-80))) < rssiThreshold)
    by (unfold rssiThreshold; simpl; lia).
  pose proof (weak_signal_is_rejected
                (office serverUp morning) (sighting (-80)) somchai H1)
    as (_ & _ & R).
  split; [exact H1 | split; [exact H2 | exact (R H2)]].
Defined.

(** A known employee's sighting comes back with the target-device flag
    and the device name changed. *)
Lemma request_is_marked :
  DetectionRequest.IsTargetDevice (req (sighting (-50))) = false /\
  DetectionRequest.IsTargetDevice
    (finalReq (office serverUp morning) (sighting (-50))) = true /\
  DetectionRequest.DeviceName (req (sighting (-50))) = "" /\
  DetectionRequest.DeviceName
    (finalReq (office serverUp morning) (sighting (-50))) = "Somchai".
Proof. repeat split. Qed.


End Pipeline.

(* ===================================================================== *)
(** ** More about the pipeline: what a run writes, sends and returns *)
(* ===================================================================== *)

Module Arrival.

Import Pipeline.
Local Open Scope list_scope.

(** [sendCheckInNotification] messages the employee's chat and, exactly
    when the status is late, the admin. *)
Lemma sendCheckInNotification_exact (employee : Employee.t) (now : Time)
    (scannerMac status : string) (st : State) :
  exists message admin,
    sendCheckInNotification employee now scannerMac status st
      = (tt, mkState (req st)
               (history st
                ++ CallSendPersonalNotification
                     (Employee.TelegramChatID employee) message :: admin)) /\
    (status = "late" ->
     exists adminMessage, admin = [CallSendNotification adminMessage]) /\
    (status <> "late" -> admin = []).
Proof.
  unfold sendCheckInNotification, bind, notify, ret. cbn [req history].
  destruct (String.eqb_spec status "late") as [E | N];
    cbv beta iota zeta; cbn [req history].
  - eexists _, [_]. rewrite <- app_assoc. cbn [app].
    split; [reflexivity |]. split.
    + intros _. eexists. reflexivity.
    + intros H. contradiction.
  - eexists _, []. split; [reflexivity |]. split.
    + intros H. contradiction.
    + intros _. reflexivity.
Qed.

(** [recordAttendance], started after the detection write. *)
Lemma recordAttendance_exact (s : AttendanceService) (st : State)
    (employee : Employee.t) :
  let marked := markTarget employee (req st) in
  let before := beforeAttendance s st employee in
  exists message admin,
    recordAttendance s employee (DetectionRequest.ScannerMac (req st))
      (mkState marked before)
    = match attendanceAnswer s st employee with
      | Some err =>
          (Some (Errorf "failed to create attendance record: " err),
           mkState marked (before ++ [attendanceCall s st employee]))
      | None =>
          (None,
           mkState marked
             (before
              ++ attendanceCall s st employee
                 :: CallSendPersonalNotification
                      (Employee.TelegramChatID employee) message
                 :: admin))
      end /\
    (Attendance.Status (attendanceOf s st employee) = "late" ->
     exists adminMessage, admin = [CallSendNotification adminMessage]) /\
    (Attendance.Status (attendanceOf s st employee) <> "late" -> admin = []).
Proof.
  intros marked before.
  unfold recordAttendance, bind, call, ret. cbn [req history fst snd].
  fold before.
  change (Attendance.mk "" (Employee.ID employee) (clock s before)
            (DetectionRequest.ScannerMac (req st))
            (calculateStatus (clock s before)
               (Employee.WorkStartTime employee))
            (clock s before))
    with (attendanceOf s st employee).
  change (AttendanceCreate (attendanceRepo s) before
            (attendanceOf s st employee))
    with (attendanceAnswer s st employee).
  change (CallAttendanceCreate (attendanceOf s st employee)
            (attendanceAnswer s st employee))
    with (attendanceCall s st employee).
  destruct (sendCheckInNotification_exact employee (clock s before)
              (DetectionRequest.ScannerMac (req st))
              (calculateStatus (clock s before)
                 (Employee.WorkStartTime employee))
              (mkState marked (before ++ [attendanceCall s st employee])))
    as (message & admin & E & Hlate & Hnot).
  exists message, admin.
  split; [| split; assumption].
  destruct (attendanceAnswer s st employee) as [err |].
  - reflexivity.
  - rewrite E. cbv beta iota zeta. cbn [req history].
    rewrite <- app_assoc. reflexivity.
Qed.

(** Every run is one of the seven outcomes. *)
Lemma run_outcome (s : AttendanceService) (st : State) :
  Outcome s st (result s st) (finalReq s st) (calls s st).
Proof.
  destruct (lookupAnswer s st) as [employee | err] eqn:known.
  2: { destruct (observe _ _ _ _ _ (run_unknown s st err known))
         as (-> & -> & ->).
       apply (Unknown s st err known). }
  destruct (Z.lt_ge_cases (DetectionRequest.RSSI (req st)) rssiThreshold)
    as [far | close].
  { destruct (observe _ _ _ _ _ (run_too_far s st employee known far))
      as (-> & -> & ->).
    apply TooFar; assumption. }
  destruct (checkedInAnswer s st employee) as [[|] | err] eqn:Ec.
  - destruct (observe _ _ _ _ _
                (run_already_arrived s st employee known close Ec))
      as (-> & -> & ->).
    apply AlreadyArrived; assumption.
  - destruct (detectionAnswer s st employee) as [err |] eqn:Ed.
    + destruct (observe _ _ _ _ _
                  (run_save_failed s st employee known close err Ec Ed))
        as (-> & -> & ->).
      apply SaveFailed; assumption.
    + pose proof (run_close s st employee known close) as E.
      rewrite Ec, Ed in E. cbv zeta in E.
      destruct (recordAttendance_exact s st employee)
        as (message & admin & Er & Hlate & Hnot).
      cbv zeta in Er. unfold beforeAttendance in Er.
      rewrite <- app_assoc in E. cbn [app] in E.
      rewrite Er in E. fold (beforeAttendance s st employee) in E.
      destruct (attendanceAnswer s st employee) as [err |] eqn:Ea.
      * unfold beforeAttendance in E. rewrite <- app_assoc in E.
        cbn [app] in E.
        destruct (observe _ _ _ _ _ E) as (-> & -> & ->).
        apply RecordFailed; assumption.
      * unfold beforeAttendance in E. rewrite <- app_assoc in E.
        cbn [app] in E.
        destruct (observe _ _ _ _ _ E) as (-> & -> & ->).
        apply (Recorded s st employee message admin); assumption.
  - destruct (observe _ _ _ _ _
                (run_check_failed s st employee known close err Ec))
      as (-> & -> & ->).
    apply CheckFailed; assumption.
Qed.

(** Unify the employee of an outcome with the one at hand, and drop the
    outcomes the hypotheses exclude. *)
Ltac same_employee :=
  repeat match goal with
  | H1 : lookupAnswer ?s ?st = inl ?e1, H2 : lookupAnswer ?s ?st = inl ?e2
    |- _ =>
      assert (e2 = e1) by congruence; subst e2; clear H2
  end.

Ltac outcomes s st :=
  let O := fresh "O" in
  pose proof (run_outcome s st) as O;
  inversion O; subst; same_employee;
  try congruence; try lia.

(** X1.  A new arrival -- known employee, signal at or above the
    threshold, not yet checked in, both writes accepted -- returns nil,
    writes exactly one attendance record (for that employee, from the
    request's scanner, with the clock reading as check-in time and day,
    classified by [calculateStatus]), messages the employee's chat, and
    messages the admin exactly when the status is late. *)
Theorem new_arrival_is_recorded
    (s : AttendanceService) (st : State) (employee : Employee.t) :
  lookupAnswer s st = inl employee ->
  rssiThreshold <= DetectionRequest.RSSI (req st) ->
  checkedInAnswer s st employee = inl false ->
  detectionAnswer s st employee = None ->
  attendanceAnswer s st employee = None ->
  let attendance := attendanceOf s st employee in
  result s st = None /\
  attendanceWrites (calls s st) = [CallAttendanceCreate attendance None] /\
  Attendance.EmployeeID attendance = Employee.ID employee /\
  Attendance.ScannerMac attendance = DetectionRequest.ScannerMac (req st) /\
  Attendance.CreatedDate attendance = Attendance.CheckInTime attendance /\
  Attendance.Status attendance
    = calculateStatus (Attendance.CheckInTime attendance)
        (Employee.WorkStartTime employee) /\
  exists message admin,
    notifications (calls s st)
      = CallSendPersonalNotification (Employee.TelegramChatID employee)
          message :: admin /\
    (Attendance.Status attendance = "late" ->
     exists adminMessage, admin = [CallSendNotification adminMessage]) /\
    (Attendance.Status attendance <> "late" -> admin = []).
Proof.
  intros known close Ec Ed Ea attendance.
  outcomes s st.
  split; [reflexivity |].
  unfold attendanceWrites, notifications, lookupCall, checkedInCall,
    detectionCall, attendanceCall.
  cbn [filter isAttendanceCreate isNotification].
  rewrite Ea. fold attendance.
  assert (Hadmin : filter isAttendanceCreate admin = []
                   /\ filter isNotification admin = admin).
  { destruct (string_dec (Attendance.Status attendance) "late") as [L | N].
    - match goal with
      | H : Attendance.Status _ = "late" -> exists a, _ |- _ =>
          destruct (H L) as [a ->]
      end.
      split; reflexivity.
    - match goal with
      | H : Attendance.Status _ <> "late" -> _ |- _ => rewrite (H N)
      end.
      split; reflexivity. }
  destruct Hadmin as [Ha Hn]. rewrite Ha, Hn.
  repeat (split; [reflexivity |]).
  exists message, admin. repeat split; assumption.
Qed.


(** X2.  When the attendance repository refuses the record of a new
    arrival, [ProcessDetection] returns that failure wrapped twice and
    sends no notification; the detection record written just before stays
    written. *)
Theorem attendance_write_failure_sends_nothing
    (s : AttendanceService) (st : State) (employee : Employee.t)
    (err : error) :
  lookupAnswer s st = inl employee ->
  rssiThreshold <= DetectionRequest.RSSI (req st) ->
  checkedInAnswer s st employee = inl false ->
  detectionAnswer s st employee = None ->
  attendanceAnswer s st employee = Some err ->
  result s st
    = Some (Errorf "failed to record attendance: "
              (Errorf "failed to create attendance record: " err)) /\
  notifications (calls s st) = [] /\
  detectionWrites (calls s st)
    = [CallDetectionCreate (detectionOf s st employee) None] /\
  attendanceWrites (calls s st)
    = [CallAttendanceCreate (attendanceOf s st employee) (Some err)].
Proof.
  intros known close Ec Ed Ea.
  outcomes s st.
  assert (err0 = err) by congruence. subst err0.
  unfold notifications, detectionWrites, attendanceWrites, lookupCall,
    checkedInCall, detectionCall, attendanceCall.
  rewrite Ed, Ea. repeat split.
Qed.

(** X3.  Whatever a run stores as a detection record belongs to the
    employee the lookup found, copies the hardware address, scanner,
    signal strength, device type and tag flag of the request, has the
    target-device flag set and the employee's name as device name --
    whatever the request said in those two fields -- and has a signal
    strength at or above the threshold. *)
Theorem detection_record_fields
    (s : AttendanceService) (st : State) (employee : Employee.t)
    (d : EmployeeDetection.t) (answer : option error) :
  lookupAnswer s st = inl employee ->
  In (CallDetectionCreate d answer) (calls s st) ->
  EmployeeDetection.EmployeeID d = Employee.ID employee /\
  EmployeeDetection.MacAddress d = DetectionRequest.MacAddress (req st) /\
  EmployeeDetection.ScannerMac d = DetectionRequest.ScannerMac (req st) /\
  EmployeeDetection.RSSI d = DetectionRequest.RSSI (req st) /\
  EmployeeDetection.DeviceType d = DetectionRequest.DeviceType (req st) /\
  EmployeeDetection.IsITag03 d = DetectionRequest.IsITag03 (req st) /\
  EmployeeDetection.IsTargetDevice d = true /\
  EmployeeDetection.DeviceName d = Employee.Name employee /\
  rssiThreshold <= EmployeeDetection.RSSI d.
Proof.
  intros known Hin.
  assert (Hd : rssiThreshold <= DetectionRequest.RSSI (req st)
               /\ d = detectionOf s st employee).
  { pose proof (run_outcome s st) as O.
    inversion O as [ e K E1 E2 E3 | e K F E1 E2 E3 | e err K C Q E1 E2 E3
                   | e K C Q E1 E2 E3 | e err K C Q D E1 E2 E3
                   | e err K C Q D A E1 E2 E3
                   | e m adm K C Q D A L N E1 E2 E3 ];
      rewrite <- E3 in Hin; same_employee;
      unfold lookupCall, checkedInCall, detectionCall, attendanceCall in Hin;
      cbn [In app] in Hin;
      repeat match goal with
      | H : _ \/ _ |- _ => destruct H as [H | H]
      | H : False |- _ => contradiction
      end;
      try discriminate;
      try (injection Hin as <- _; split; [assumption | reflexivity]).
    (* a detection record among the admin messages *)
    exfalso.
    destruct (string_dec (Attendance.Status (attendanceOf s st employee))
                "late") as [Late | Not].
    - destruct (L Late) as [a ->]. cbn [In] in Hin.
      destruct Hin as [Hin | []]. discriminate.
    - rewrite (N Not) in Hin. contradiction. }
  destruct Hd as [close ->].
  repeat split; try reflexivity. exact close.
Qed.


(** The admin part of the notifications is empty or one message. *)
Lemma admin_cases (status : string) (admin : History) :
  (status = "late" ->
   exists adminMessage, admin = [CallSendNotification adminMessage]) ->
  (status <> "late" -> admin = []) ->
  admin = [] \/ exists adminMessage, admin = [CallSendNotification adminMessage].
Proof.
  intros L N. destruct (string_dec status "late") as [E | E].
  - right. exact (L E).
  - left. exact (N E).
Qed.

(** X4.  An attendance write happens only as the fourth call of a run,
    after the lookup found the employee, the signal passed the threshold,
    the check-in query answered "not yet" and the detection record was
    stored; and the record written is the one built for that employee. *)
Theorem attendance_write_is_guarded
    (s : AttendanceService) (st : State)
    (a : Attendance.t) (answer : option error) :
  In (CallAttendanceCreate a answer) (calls s st) ->
  exists employee rest,
    lookupAnswer s st = inl employee /\
    rssiThreshold <= DetectionRequest.RSSI (req st) /\
    checkedInAnswer s st employee = inl false /\
    detectionAnswer s st employee = None /\
    a = attendanceOf s st employee /\
    answer = attendanceAnswer s st employee /\
    calls s st
      = [lookupCall s st; checkedInCall s st employee;
         detectionCall s st employee; CallAttendanceCreate a answer]
        ++ rest.
Proof.
  intros Hin.
  pose proof (run_outcome s st) as O.
  inversion O as [ e K E1 E2 E3 | e K F E1 E2 E3 | e err K C Q E1 E2 E3
                 | e K C Q E1 E2 E3 | e err K C Q D E1 E2 E3
                 | e err K C Q D A E1 E2 E3
                 | e m adm K C Q D A L N E1 E2 E3 ];
    rewrite <- E3 in Hin;
    unfold lookupCall, checkedInCall, detectionCall, attendanceCall in Hin;
    cbn [In app] in Hin;
    repeat match goal with
    | H : _ \/ _ |- _ => destruct H as [H | H]
    | H : False |- _ => contradiction
    end;
    try discriminate.
  - injection Hin as <- <-.
    exists e, []. repeat split; assumption.
  - injection Hin as <- <-.
    exists e, (CallSendPersonalNotification (Employee.TelegramChatID e) m
               :: adm).
    repeat split; assumption.
  - exfalso.
    destruct (admin_cases _ _ L N) as [-> | [x ->]]; cbn [In] in Hin.
    + contradiction.
    + destruct Hin as [Hin | []]. discriminate.
Qed.

(** An error is the first of its own chain, and wrapping keeps the chain
    of the wrapped error. *)
Lemma chain_self (e : error) : In e (chain e).
Proof. destruct e; left; reflexivity. Qed.

Lemma chain_Errorf (prefix : string) (e err : error) :
  In err (chain e) -> In err (chain (Errorf prefix e)).
Proof. intros H. right. exact H. Qed.

(** X5.  [ProcessDetection] returns an error exactly when a collaborator
    other than the lookup fails.  The failing call is then the last call
    of the run, every call before it succeeded, and the returned error
    wraps the collaborator's error ([errors.Is] finds it).  When nil is
    returned, the only call that can have failed is the lookup. *)
Theorem returned_error_wraps_the_failure
    (s : AttendanceService) (st : State) :
  (forall e, result s st = Some e ->
     exists front c err,
       calls s st = front ++ [c] /\
       failure c = Some err /\
       In err (chain e) /\
       forall c', In c' front -> failure c' = None) /\
  (result s st = None ->
     forall c err, In c (calls s st) -> failure c = Some err ->
                   c = lookupCall s st).
Proof.
  pose proof (run_outcome s st) as O.
  inversion O as [ e K E1 E2 E3 | e K F E1 E2 E3 | e err K C Q E1 E2 E3
                 | e K C Q E1 E2 E3 | e err K C Q D E1 E2 E3
                 | e err K C Q D A E1 E2 E3
                 | e m adm K C Q D A L N E1 E2 E3 ];
    (split; [intros e' He' | intros Hnil c' err' Hin Hf]);
    try discriminate.
  - (* unknown device *)
    destruct Hin as [<- | []]. reflexivity.
  - (* too far *)
    destruct Hin as [<- | []]. reflexivity.
  - (* the check-in query failed *)
    injection He' as <-.
    exists [lookupCall s st], (checkedInCall s st e), err.
    split; [reflexivity |].
    unfold checkedInCall. rewrite Q. split; [reflexivity |].
    split; [apply chain_Errorf, chain_self |].
    intros c' [<- | []]. unfold lookupCall. rewrite K. reflexivity.
  - (* already arrived *)
    exfalso. unfold lookupCall, checkedInCall in Hin. rewrite K, Q in Hin.
    destruct Hin as [<- | [<- | []]]; discriminate.
  - (* the detection write failed *)
    injection He' as <-.
    exists [lookupCall s st; checkedInCall s st e],
           (detectionCall s st e), err.
    split; [reflexivity |].
    unfold detectionCall. rewrite D. split; [reflexivity |].
    split; [apply chain_Errorf, chain_Errorf, chain_self |].
    intros c' [<- | [<- | []]].
    + unfold lookupCall. rewrite K. reflexivity.
    + unfold checkedInCall. rewrite Q. reflexivity.
  - (* the attendance write failed *)
    injection He' as <-.
    exists [lookupCall s st; checkedInCall s st e; detectionCall s st e],
           (attendanceCall s st e), err.
    split; [reflexivity |].
    unfold attendanceCall. rewrite A. split; [reflexivity |].
    split; [apply chain_Errorf, chain_Errorf, chain_self |].
    intros c' [<- | [<- | [<- | []]]].
    + unfold lookupCall. rewrite K. reflexivity.
    + unfold checkedInCall. rewrite Q. reflexivity.
    + unfold detectionCall. rewrite D. reflexivity.
  - (* recorded *)
    exfalso.
    unfold lookupCall, checkedInCall, detectionCall, attendanceCall in Hin.
    rewrite K, Q, D, A in Hin. cbn [In app] in Hin.
    destruct Hin as [<- | [<- | [<- | [<- | [<- | Hin]]]]]; try discriminate.
    destruct (admin_cases _ _ L N) as [-> | [x ->]]; cbn [In] in Hin.
    + contradiction.
    + destruct Hin as [<- | []]. discriminate.
Qed.

(** X6.  A run writes at most one detection record and at most one
    attendance record and sends at most two notifications; it sends a
    notification exactly when the attendance record was created. *)
Theorem writes_and_notifications_are_bounded
    (s : AttendanceService) (st : State) :
  (List.length (detectionWrites (calls s st)) <= 1)%nat /\
  (List.length (attendanceWrites (calls s st)) <= 1)%nat /\
  (List.length (notifications (calls s st)) <= 2)%nat /\
  (notifications (calls s st) <> [] <->
   exists a, In (CallAttendanceCreate a None) (calls s st)).
Proof.
  pose proof (run_outcome s st) as O.
  inversion O as [ e K E1 E2 E3 | e K F E1 E2 E3 | e err K C Q E1 E2 E3
                 | e K C Q E1 E2 E3 | e err K C Q D E1 E2 E3
                 | e err K C Q D A E1 E2 E3
                 | e m adm K C Q D A L N E1 E2 E3 ];
    unfold detectionWrites, attendanceWrites, notifications, lookupCall,
      checkedInCall, detectionCall, attendanceCall;
    cbn [app filter isDetectionCreate isAttendanceCreate isNotification
         List.length In];
    try (repeat (split; [lia |]); split;
         [ intros H; contradiction H; reflexivity
         | intros [a Hin];
           repeat match goal with
           | H : _ \/ _ |- _ => destruct H as [H | H]
           | H : False |- _ => contradiction
           end; try discriminate ]).
  - (* the attendance write failed *)
    exfalso. injection Hin as _ Hn.
    unfold attendanceAnswer in *. congruence.
  - (* recorded *)
    destruct (admin_cases _ _ L N) as [-> | [x ->]];
      cbn [filter isDetectionCreate isAttendanceCreate isNotification
           List.length];
      (repeat (split; [lia |])); (split; [intros _ | discriminate]);
      exists (attendanceOf s st e); right; right; right; left;
      f_equal; exact A.
Qed.


(** *** A second sighting on the same day *)

(** A run only appends to the history: afterwards it is the history
    before, followed by the calls of the run. *)
Lemma history_after_run (s : AttendanceService) (st : State) :
  history (snd (ProcessDetection s st)) = history st ++ calls s st.
Proof.
  assert (shape : exists r q new,
             ProcessDetection s st = (r, mkState q (history st ++ new))).
  { destruct (lookupAnswer s st) as [employee | err] eqn:known.
    2: { eexists _, _, _. apply (run_unknown s st err known). }
    destruct (Z.lt_ge_cases (DetectionRequest.RSSI (req st)) rssiThreshold)
      as [far | close].
    { eexists _, _, _. apply (run_too_far s st employee known far). }
    destruct (checkedInAnswer s st employee) as [[|] | err] eqn:Ec.
    - eexists _, _, _.
      apply (run_already_arrived s st employee known close Ec).
    - destruct (detectionAnswer s st employee) as [err |] eqn:Ed.
      + eexists _, _, _.
        apply (run_save_failed s st employee known close err Ec Ed).
      + pose proof (run_close s st employee known close) as E.
        rewrite Ec, Ed in E. cbv zeta in E.
        destruct (recordAttendance_exact s st employee)
          as (message & admin & Er & _).
        cbv zeta in Er. unfold beforeAttendance in Er.
        rewrite <- app_assoc in E. cbn [app] in E.
        rewrite Er in E.
        destruct (attendanceAnswer s st employee) as [err |];
          unfold beforeAttendance in E; rewrite <- app_assoc in E;
          eexists _, _, _; exact E.
    - eexists _, _, _.
      apply (run_check_failed s st employee known close err Ec). }
  destruct shape as (r & q & new & E).
  destruct (observe _ _ _ _ _ E) as (_ & _ & ->).
  rewrite E. reflexivity.
Qed.

(** X7.  With a store that remembers today's arrivals, an arrival is
    recorded once a day: after a run that created an attendance record,
    any later sighting that resolves to an employee with the same ID,
    while the clock still shows the record's day, returns nil, writes
    nothing and sends nothing, whatever its signal strength. *)
Theorem arrival_is_recorded_once
    (s : AttendanceService) (st : State) (a : Attendance.t)
    (later : History) (again : DetectionRequest.t) (employee : Employee.t) :
  remembersToday s ->
  In (CallAttendanceCreate a None) (calls s st) ->
  let st' :=
    mkState again (history (snd (ProcessDetection s st)) ++ later) in
  lookupAnswer s st' = inl employee ->
  Employee.ID employee = Attendance.EmployeeID a ->
  date (Attendance.CreatedDate a)
    = date (clock s (history st' ++ [lookupCall s st'])) ->
  result s st' = None /\
  detectionWrites (calls s st') = [] /\
  attendanceWrites (calls s st') = [] /\
  notifications (calls s st') = [].
Proof.
  intros remembers made st' known same today.
  assert (Hin : In (CallAttendanceCreate a None)
                   (history st' ++ [lookupCall s st'])).
  { apply in_or_app. left. unfold st'. cbn [history].
    rewrite history_after_run.
    apply in_or_app. left. apply in_or_app. right. exact made. }
  pose proof (remembers _ a Hin today) as checked.
  rewrite <- same in checked.
  change (checkedInAnswer s st' employee = inl true) in checked.
  pose proof (run_outcome s st') as O.
  inversion O; same_employee; try congruence;
    unfold detectionWrites, attendanceWrites, notifications, lookupCall,
      checkedInCall;
    repeat split.
Qed.


(** Whatever attendance record a run writes was built for an employee
    whom the lookup found and the check-in query reported absent. *)
Lemma attendance_write_guard (s : AttendanceService) (st : State)
    (a : Attendance.t) (answer : option error) :
  In (CallAttendanceCreate a answer) (calls s st) ->
  exists employee,
    lookupAnswer s st = inl employee /\
    checkedInAnswer s st employee = inl false /\
    a = attendanceOf s st employee.
Proof.
  intros Hin.
  pose proof (run_outcome s st) as O.
  inversion O as [ e K E1 E2 E3 | e K F E1 E2 E3 | e err K C Q E1 E2 E3
                 | e K C Q E1 E2 E3 | e err K C Q D E1 E2 E3
                 | e err K C Q D A E1 E2 E3
                 | e m adm K C Q D A L N E1 E2 E3 ];
    rewrite <- E3 in Hin;
    unfold lookupCall, checkedInCall, detectionCall, attendanceCall in Hin;
    cbn [In app] in Hin;
    repeat match goal with
    | H : _ \/ _ |- _ => destruct H as [H | H]
    | H : False |- _ => contradiction
    end;
    try discriminate.
  - injection Hin as <- _. exists e. repeat split; assumption.
  - injection Hin as <- _. exists e. repeat split; assumption.
  - exfalso.
    destruct (admin_cases _ _ L N) as [-> | [x ->]]; cbn [In] in Hin.
    + contradiction.
    + destruct Hin as [Hin | []]. discriminate.
Qed.

(** *** Many sightings in a day *)

Lemma filter_recordedFor_In (employeeID : string) (h : History) :
  filter (recordedFor employeeID) h <> [] ->
  exists a, In (CallAttendanceCreate a None) h
            /\ Attendance.EmployeeID a = employeeID.
Proof.
  intros Hne.
  destruct (filter (recordedFor employeeID) h) as [| c rest] eqn:E;
    [contradiction Hne; reflexivity |].
  assert (Hc : In c (filter (recordedFor employeeID) h))
    by (rewrite E; left; reflexivity).
  apply filter_In in Hc. destruct Hc as [Hin Hr].
  destruct c as [| | | a [err |] | |]; try discriminate.
  exists a. split; [exact Hin |]. apply String.eqb_eq. exact Hr.
Qed.

(** The successful attendance writes of one run: at most one, and only
    for an employee the check-in query answered "not yet" for. *)
Lemma run_records (s : AttendanceService) (st : State)
    (employeeID : string) :
  (List.length (filter (recordedFor employeeID) (calls s st)) <= 1)%nat /\
  (forall a, In (CallAttendanceCreate a None) (calls s st) ->
     exists employee,
       lookupAnswer s st = inl employee /\
       checkedInAnswer s st employee = inl false /\
       a = attendanceOf s st employee).
Proof.
  split.
  - pose proof (run_outcome s st) as O.
    inversion O as [ e K E1 E2 E3 | e K F E1 E2 E3 | e err K C Q E1 E2 E3
                   | e K C Q E1 E2 E3 | e err K C Q D E1 E2 E3
                   | e err K C Q D A E1 E2 E3
                   | e m adm K C Q D A L N E1 E2 E3 ];
      unfold lookupCall, checkedInCall, detectionCall, attendanceCall;
      cbn [app filter recordedFor List.length];
      try lia.
    + destruct (attendanceAnswer s st e);
        [| destruct (String.eqb _ _)]; cbn [List.length]; lia.
    + destruct (admin_cases _ _ L N) as [-> | [x ->]];
        cbn [filter recordedFor];
        (destruct (attendanceAnswer s st e);
         [| destruct (String.eqb _ _)]); cbn [List.length]; lia.
  - intros a Hin.
    destruct (attendance_write_guard s st a None Hin)
      as (employee & K & Q & Ea).
    exists employee. repeat split; assumption.
Qed.

(** X20.  Over any number of sightings processed one after another on
    one calendar day, with a store that remembers today's arrivals, no
    employee gets a second attendance record: for every employee ID the
    history holds at most one successful attendance write. *)
Theorem one_attendance_record_a_day
    (s : AttendanceService) (requests : list DetectionRequest.t)
    (employeeID : string) :
  remembersToday s ->
  withinOneDay s ->
  (List.length (filter (recordedFor employeeID) (serve s requests []))
   <= 1)%nat.
Proof.
  intros remembers oneDay.
  assert (Inv : forall requests h,
            (List.length (filter (recordedFor employeeID) h) <= 1)%nat ->
            (forall a, In (CallAttendanceCreate a None) h ->
               exists h0, Attendance.CreatedDate a = clock s h0) ->
            (List.length (filter (recordedFor employeeID)
                            (serve s requests h)) <= 1)%nat).
  { clear requests. induction requests as [| r requests IH];
      intros h Hone Hdate; [exact Hone |].
    cbn [serve fold_left].
    change (fold_left _ requests ?x) with (serve s requests x).
    set (st := mkState r h).
    rewrite (history_after_run s st).
    change (history st) with h.
    destruct (run_records s st employeeID) as [Hrun Hnew].
    apply IH.
    - rewrite filter_app, length_app.
      destruct (filter (recordedFor employeeID) (calls s st))
        as [| c rest] eqn:Ec; [cbn [List.length]; lia |].
      destruct (filter (recordedFor employeeID) h) as [| c' rest'] eqn:Eh;
        [exact Hrun |].
      exfalso.
      destruct (filter_recordedFor_In employeeID (calls s st))
        as (a & Hin & Hid); [rewrite Ec; discriminate |].
      destruct (filter_recordedFor_In employeeID h)
        as (a' & Hin' & Hid'); [rewrite Eh; discriminate |].
      destruct (Hnew a Hin) as (employee & K & Q & ->).
      destruct (Hdate a' Hin') as [h0 Hc].
      assert (checked : IsCheckedInToday (employeeRepo s)
                          (history st ++ [lookupCall s st])
                          (Attendance.EmployeeID a') = inl true).
      { apply remembers.
        - apply in_or_app. left. exact Hin'.
        - rewrite Hc. apply oneDay. }
      rewrite Hid', <- Hid in checked.
      change (checkedInAnswer s st employee = inl true) in checked.
      congruence.
    - intros a Hin. apply in_app_or in Hin. destruct Hin as [Hin | Hin].
      + exact (Hdate a Hin).
      + destruct (Hnew a Hin) as (employee & _ & _ & ->).
        eexists. reflexivity. }
  apply Inv.
  - cbn. lia.
  - intros a [].
Qed.


(** *** Concrete runs for the properties above *)

Import Samples.

Lemma new_arrival_is_recorded_witness :
  lookupAnswer (office serverUp morning) (sighting (-50)) = inl somchai /\
  rssiThreshold <= DetectionRequest.RSSI (req (sighting (-50))) /\
  checkedInAnswer (office serverUp morning) (sighting (-50)) somchai
    = inl false /\
  detectionAnswer (office serverUp morning) (sighting (-50)) somchai = None /\
  attendanceAnswer (office serverUp morning) (sighting (-50)) somchai
    = None /\
  result (office serverUp morning) (sighting (-50)) = None /\
  attendanceWrites (calls (office serverUp morning) (sighting (-50)))
    = [CallAttendanceCreate
         (attendanceOf (office serverUp morning) (sighting (-50)) somchai)
         None].
Proof.
  assert (H1 : lookupAnswer (office serverUp morning) (sighting (-50))
               = inl somchai) by reflexivity.
  assert (H2 : rssiThreshold <= DetectionRequest.RSSI (req (sighting (-50))))
    by (unfold rssiThreshold; simpl; lia).
  assert (H3 : checkedInAnswer (office serverUp morning) (sighting (-50))
                 somchai = inl false) by reflexivity.
  assert (H4 : detectionAnswer (office serverUp morning) (sighting (-50))
                 somchai = None) by reflexivity.
  assert (H5 : attendanceAnswer (office serverUp morning) (sighting (-50))
                 somchai = None) by reflexivity.
  pose proof (new_arrival_is_recorded (office serverUp morning)
                (sighting (-50)) somchai H1 H2 H3 H4 H5) as (R & W & _).
  repeat (split; [assumption |]). exact W.
Defined.

Lemma attendance_write_failure_sends_nothing_witness :
  lookupAnswer brokenStore (sighting (-50)) = inl somchai /\
  rssiThreshold <= DetectionRequest.RSSI (req (sighting (-50))) /\
  checkedInAnswer brokenStore (sighting (-50)) somchai = inl false /\
  detectionAnswer brokenStore (sighting (-50)) somchai = None /\
  attendanceAnswer brokenStore (sighting (-50)) somchai = Some refused /\
  notifications (calls brokenStore (sighting (-50))) = [] /\
  detectionWrites (calls brokenStore (sighting (-50)))
    = [CallDetectionCreate (detectionOf brokenStore (sighting (-50)) somchai)
         None].
Proof.
  assert (H1 : lookupAnswer brokenStore (sighting (-50)) = inl somchai)
    by reflexivity.
  assert (H2 : rssiThreshold <= DetectionRequest.RSSI (req (sighting (-50))))
    by (unfold rssiThreshold; simpl; lia).
  assert (H3 : checkedInAnswer brokenStore (sighting (-50)) somchai
               = inl false) by reflexivity.
  assert (H4 : detectionAnswer brokenStore (sighting (-50)) somchai = None)
    by reflexivity.
  assert (H5 : attendanceAnswer brokenStore (sighting (-50)) somchai
               = Some refused) by reflexivity.
  pose proof (attendance_write_failure_sends_nothing brokenStore
                (sighting (-50)) somchai refused H1 H2 H3 H4 H5)
    as (_ & N & D & _).
  repeat (split; [assumption |]). exact D.
Defined.

Lemma detection_record_fields_witness :
  lookupAnswer brokenStore (sighting (-50)) = inl somchai /\
  In (CallDetectionCreate (detectionOf brokenStore (sighting (-50)) somchai)
        None)
     (calls brokenStore (sighting (-50))) /\
  EmployeeDetection.IsTargetDevice
    (detectionOf brokenStore (sighting (-50)) somchai) = true /\
  EmployeeDetection.DeviceName
    (detectionOf brokenStore (sighting (-50)) somchai) = "Somchai".
Proof.
  assert (H1 : lookupAnswer brokenStore (sighting (-50)) = inl somchai)
    by reflexivity.
  assert (H2 : In (CallDetectionCreate
                     (detectionOf brokenStore (sighting (-50)) somchai) None)
                  (calls brokenStore (sighting (-50))))
    by (right; right; left; reflexivity).
  pose proof (detection_record_fields brokenStore (sighting (-50)) somchai
                _ _ H1 H2) as (_ & _ & _ & _ & _ & _ & T & N & _).
  repeat (split; [assumption |]). exact N.
Defined.

Lemma attendance_write_is_guarded_witness :
  In (CallAttendanceCreate
        (attendanceOf brokenStore (sighting (-50)) somchai) (Some refused))
     (calls brokenStore (sighting (-50))) /\
  exists employee rest,
    lookupAnswer brokenStore (sighting (-50)) = inl employee /\
    calls brokenStore (sighting (-50))
      = [lookupCall brokenStore (sighting (-50));
         checkedInCall brokenStore (sighting (-50)) employee;
         detectionCall brokenStore (sighting (-50)) employee;
         CallAttendanceCreate
           (attendanceOf brokenStore (sighting (-50)) somchai)
           (Some refused)] ++ rest.
Proof.
  assert (H : In (CallAttendanceCreate
                    (attendanceOf brokenStore (sighting (-50)) somchai)
                    (Some refused))
                 (calls brokenStore (sighting (-50))))
    by (right; right; right; left; reflexivity).
  split; [exact H |].
  destruct (attendance_write_is_guarded brokenStore (sighting (-50)) _ _ H)
    as (employee & rest & K & _ & _ & _ & _ & _ & E).
  exists employee, rest. split; assumption.
Defined.



(** The sample office remembers today's arrivals. *)
Lemma office_remembersToday (server : string -> PocketBase.httpReply)
    (now : Time) :
  remembersToday (office server now).
Proof.
  intros h a Hin today. cbn [office employeeRepo IsCheckedInToday clock] in *.
  f_equal. apply existsb_exists.
  exists (CallAttendanceCreate a None). split; [exact Hin |].
  cbn [attended]. rewrite String.eqb_refl. cbn [andb].
  unfold sameDay. rewrite today.
  destruct (date now) as [[y m] d].
  rewrite !Z.eqb_refl. reflexivity.
Qed.

Lemma arrival_is_recorded_once_witness :
  remembersToday (office serverUp morning) /\
  In (CallAttendanceCreate
        (attendanceOf (office serverUp morning) (sighting (-50)) somchai)
        None)
     (calls (office serverUp morning) (sighting (-50))) /\
  lookupAnswer (office serverUp morning) (afterwards [] (-80))
    = inl somchai /\
  result (office serverUp morning) (afterwards [] (-80)) = None /\
  attendanceWrites (calls (office serverUp morning) (afterwards [] (-80)))
    = [] /\
  notifications (calls (office serverUp morning) (afterwards [] (-80)))
    = [].
Proof.
  pose proof (office_remembersToday serverUp morning) as H0.
  assert (H1 : In (CallAttendanceCreate
                     (attendanceOf (office serverUp morning) (sighting (-50))
                        somchai) None)
                  (calls (office serverUp morning) (sighting (-50))))
    by (vm_compute; right; right; right; left; reflexivity).
  unfold afterwards, firstRun.
  set (st' := mkState (request (-80)) _).
  assert (H2 : lookupAnswer (office serverUp morning) st' = inl somchai)
    by (vm_compute; reflexivity).
  assert (H3 : Employee.ID somchai
               = Attendance.EmployeeID
                   (attendanceOf (office serverUp morning) (sighting (-50))
                      somchai)) by reflexivity.
  assert (H4 : date (Attendance.CreatedDate
                       (attendanceOf (office serverUp morning)
                          (sighting (-50)) somchai))
               = date (clock (office serverUp morning)
                         (history st'
                          ++ [lookupCall (office serverUp morning) st'])))
    by (vm_compute; reflexivity).
  destruct (arrival_is_recorded_once (office serverUp morning)
              (sighting (-50)) _ [] (request (-80)) somchai H0 H1 H2 H3 H4)
    as (R & _ & W & N).
  repeat (split; [assumption |]). exact N.
Defined.


Lemma one_attendance_record_a_day_witness :
  remembersToday (office serverUp morning) /\
  withinOneDay (office serverUp morning) /\
  (List.length
     (filter (recordedFor "emp001")
        (serve (office serverUp morning)
           [request (-50); request (-80); request (-50)] []))
   <= 1)%nat.
Proof.
  pose proof (office_remembersToday serverUp morning) as H0.
  assert (H1 : withinOneDay (office serverUp morning))
    by (intros h h'; reflexivity).
  split; [exact H0 |]. split; [exact H1 |].
  exact (one_attendance_record_a_day (office serverUp morning)
           [request (-50); request (-80); request (-50)] "emp001" H0 H1).
Defined.


End Arrival.

(* ===================================================================== *)
(** ** More about the classifier: wall-clock readings *)
(* ===================================================================== *)

Module WallClock.

Import GoTimeFacts Classifier Samples.

Lemma secondOfDay_range (t : Time) : 0 <= secondOfDay t < 86400.
Proof.
  pose proof (Hour_range t). pose proof (Minute_range t).
  pose proof (Second_range t). unfold secondOfDay. lia.
Qed.

(** Today's work start depends on the check-in only through its calendar
    date and its location. *)
Lemma todayWorkStart_same_day (t u workStart : Time) :
  loc t = loc u -> date t = date u ->
  todayWorkStart t workStart = todayWorkStart u workStart.
Proof.
  intros Hl Hd. unfold todayWorkStart, Year, Month, Day.
  rewrite Hl, Hd. reflexivity.
Qed.

(** X8.  In a zone without transitions the classification reads the wall
    clock only: with a parseable expected start, the check-in is on time
    exactly when its second of the day is less than 300 seconds past the
    expected start's, and late otherwise.  No check-in is ever late
    against an expected start in the last five minutes of the day, and
    every check-in before the expected start is on time: the comparison
    never reaches across midnight. *)
Theorem status_by_wall_clock
    (checkInTime : Time) (workStartTime : string) (workStart : Time)
    (off : Z) :
  Parse workStartTime = Some workStart ->
  loc checkInTime = FixedZone off ->
  let status := calculateStatus checkInTime workStartTime in
  (status = "ontime"
   <-> secondOfDay checkInTime < secondOfDay workStart + 300) /\
  (status = "late"
   <-> secondOfDay workStart + 300 <= secondOfDay checkInTime) /\
  (86100 <= secondOfDay workStart -> status = "ontime") /\
  (secondOfDay checkInTime <= secondOfDay workStart -> status = "ontime").
Proof.
  intros HP Hloc status.
  pose proof (fixed_zone_lateness checkInTime workStart off Hloc) as Hd.
  destruct (sec_nsec checkInTime) as [_ Hns].
  pose proof (secondOfDay_range checkInTime) as Ht.
  pose proof (secondOfDay_range workStart) as Hw.
  unfold status. rewrite (calculateStatus_parsed _ _ _ HP).
  destruct (Z.ltb_spec (unixNano checkInTime)
              (unixNano (todayWorkStart checkInTime workStart)
               + 300000000000)) as [Hlt | Hge].
  - assert (secondOfDay checkInTime < secondOfDay workStart + 300) by lia.
    repeat split; intros; try reflexivity; try discriminate; lia.
  - assert (secondOfDay workStart + 300 <= secondOfDay checkInTime) by lia.
    repeat split; intros; try reflexivity; try discriminate; lia.
Qed.

(** X9.  Within one calendar day of one location the classification is
    monotone: once a check-in is late, every later check-in that day is
    late, and a check-in on time makes every earlier one that day on
    time. *)
Theorem late_stays_late
    (earlier later : Time) (workStartTime : string) :
  loc earlier = loc later ->
  date earlier = date later ->
  unixNano earlier <= unixNano later ->
  (calculateStatus earlier workStartTime = "late" ->
   calculateStatus later workStartTime = "late") /\
  (calculateStatus later workStartTime = "ontime" ->
   calculateStatus earlier workStartTime = "ontime").
Proof.
  intros Hl Hd Hle. unfold calculateStatus.
  destruct (Parse workStartTime) as [workStart |].
  2: { split; [discriminate | reflexivity]. }
  rewrite !Before_lt, !unixNano_Add.
  rewrite (todayWorkStart_same_day earlier later workStart Hl Hd).
  set (limit := unixNano (todayWorkStart later workStart) + gracePeriod).
  destruct (Z.ltb_spec (unixNano earlier) limit),
           (Z.ltb_spec (unixNano later) limit);
    split; intros; try reflexivity; try discriminate; lia.
Qed.

(** X10.  In a zone without transitions the lateness figure of a late
    check-in is the whole minutes between the two wall-clock readings: it
    is at least 5 and at most 1439. *)
Theorem late_minutes_by_wall_clock
    (checkInTime : Time) (workStartTime : string) (workStart : Time)
    (off : Z) :
  Parse workStartTime = Some workStart ->
  loc checkInTime = FixedZone off ->
  calculateStatus checkInTime workStartTime = "late" ->
  let lateMinutes :=
    (secondOfDay checkInTime - secondOfDay workStart) / 60 in
  calculateLateStatus checkInTime workStartTime
    = "เข้าสาย " ++ formatInt lateMinutes ++ " นาที" /\
  5 <= lateMinutes <= 1439.
Proof.
  intros HP Hloc Hlate lateMinutes.
  pose proof (fixed_zone_lateness checkInTime workStart off Hloc) as Hd.
  destruct (sec_nsec checkInTime) as [_ Hns].
  pose proof (secondOfDay_range checkInTime) as Ht.
  pose proof (secondOfDay_range workStart) as Hw.
  rewrite (calculateStatus_parsed _ _ _ HP) in Hlate.
  destruct (Z.ltb_spec (unixNano checkInTime)
              (unixNano (todayWorkStart checkInTime workStart)
               + 300000000000)) as [Hlt | Hge];
    [discriminate |].
  assert (Hfit : offsetsFit (loc checkInTime))
    by (left; rewrite Hloc; reflexivity).
  rewrite (calculateLateStatus_parsed _ _ _ HP Hfit) by lia.
  replace (Z.quot (unixNano checkInTime
                   - unixNano (todayWorkStart checkInTime workStart))
                  60000000000)
    with lateMinutes by (unfold lateMinutes; divmod).
  split; [reflexivity |].
  unfold lateMinutes. divmod.
Qed.

(** *** Concrete check-ins *)

Lemma status_by_wall_clock_witness :
  Parse "08:00:00" = Some eightOClock /\
  loc (feb1 8 4 59) = FixedZone (7 * 3600) /\
  (calculateStatus (feb1 8 4 59) "08:00:00" = "ontime"
   <-> secondOfDay (feb1 8 4 59) < secondOfDay eightOClock + 300).
Proof.
  assert (HP : Parse "08:00:00" = Some eightOClock) by reflexivity.
  assert (Hl : loc (feb1 8 4 59) = FixedZone (7 * 3600)) by reflexivity.
  split; [exact HP |]. split; [exact Hl |].
  exact (proj1 (status_by_wall_clock (feb1 8 4 59) "08:00:00" eightOClock
                  (7 * 3600) HP Hl)).
Defined.

Lemma late_stays_late_witness :
  loc (feb1 8 6 0) = loc (feb1 17 30 0) /\
  date (feb1 8 6 0) = date (feb1 17 30 0) /\
  unixNano (feb1 8 6 0) <= unixNano (feb1 17 30 0) /\
  (calculateStatus (feb1 8 6 0) "08:00:00" = "late" ->
   calculateStatus (feb1 17 30 0) "08:00:00" = "late").
Proof.
  assert (H1 : loc (feb1 8 6 0) = loc (feb1 17 30 0)) by reflexivity.
  assert (H2 : date (feb1 8 6 0) = date (feb1 17 30 0)) by reflexivity.
  assert (H3 : unixNano (feb1 8 6 0) <= unixNano (feb1 17 30 0))
    by (vm_compute; discriminate).
  repeat (split; [assumption |]).
  exact (proj1 (late_stays_late (feb1 8 6 0) (feb1 17 30 0) "08:00:00"
                  H1 H2 H3)).
Defined.

Lemma late_minutes_by_wall_clock_witness :
  Parse "08:00:00" = Some eightOClock /\
  loc (feb1 8 30 0) = FixedZone (7 * 3600) /\
  calculateStatus (feb1 8 30 0) "08:00:00" = "late" /\
  calculateLateStatus (feb1 8 30 0) "08:00:00"
    = "เข้าสาย "
      ++ formatInt
           ((secondOfDay (feb1 8 30 0) - secondOfDay eightOClock) / 60)
      ++ " นาที".
Proof.
  assert (HP : Parse "08:00:00" = Some eightOClock) by reflexivity.
  assert (Hl : loc (feb1 8 30 0) = FixedZone (7 * 3600)) by reflexivity.
  assert (Hs : calculateStatus (feb1 8 30 0) "08:00:00" = "late")
    by reflexivity.
  repeat (split; [assumption |]).
  exact (proj1 (late_minutes_by_wall_clock (feb1 8 30 0) "08:00:00"
                  eightOClock (7 * 3600) HP Hl Hs)).
Defined.

End WallClock.

(* ===================================================================== *)
(** ** The detection endpoint *)
(* ===================================================================== *)

Module Endpoint.

Import Handlers.
Local Open Scope list_scope.

(** X11.  The answer of [HandleDetect] depends on the request alone: 405
    for any method but POST, 400 for a body that does not decode, and
    200 with body OK otherwise, whatever the service does with the
    detection and whatever it returns.  A client cannot tell from the
    response whether the detection was ignored, recorded or failed. *)
Theorem response_hides_the_outcome
    (Decode : string -> DetectionRequest.t + error)
    (service service' : M (option error)) (r : Request) (h h' : History) :
  let response := fst (HandleDetect Decode service r h) in
  response = fst (HandleDetect Decode service' r h') /\
  (Code response = 200 \/ Code response = 400 \/ Code response = 405) /\
  (Code response = 405 <-> Method r <> "POST") /\
  (Code response = 200
   <-> Method r = "POST" /\ exists req, Decode (Body r) = inl req) /\
  (Code response = 200 -> Payload response = "OK").
Proof.
  unfold HandleDetect, MethodPost.
  destruct (String.eqb_spec (Method r) "POST") as [E | N]; cbn [negb].
  - destruct (Decode (Body r)) as [req | err].
    + destruct (service (mkState req h)) as [e st].
      destruct (service' (mkState req h')) as [e' st'].
      cbn. split; [reflexivity |]. split; [left; reflexivity |].
      split; [split; [discriminate | intros H; contradiction] |].
      split; [| reflexivity].
      split; [intros _; split; [exact E | exists req; reflexivity]
             | reflexivity].
    + cbn. split; [reflexivity |]. split; [right; left; reflexivity |].
      split; [split; [discriminate | intros H; contradiction] |].
      split; [| discriminate].
      split; [discriminate | intros [_ [req Hreq]]; discriminate].
  - cbn. split; [reflexivity |]. split; [right; right; reflexivity |].
    split; [split; [intros _; exact N | reflexivity] |].
    split; [| discriminate].
    split; [discriminate | intros [H _]; contradiction].
Qed.

(** X12.  A request that is not answered 200 reaches no collaborator: the
    handler returns before the service is called.  A request answered 200
    has been decoded and handed to [ProcessDetection] once; the calls
    made are those of that one run, also when the run returned an
    error. *)
Theorem rejected_request_makes_no_call
    (Decode : string -> DetectionRequest.t + error)
    (s : AttendanceService) (r : Request) (h : History) :
  let response := fst (HandleDetect Decode (ProcessDetection s) r h) in
  let after := snd (HandleDetect Decode (ProcessDetection s) r h) in
  (Code response <> 200 -> after = h) /\
  (Code response = 200 ->
   exists req, Decode (Body r) = inl req /\
               after = h ++ calls s (mkState req h)).
Proof.
  unfold HandleDetect, MethodPost.
  destruct (String.eqb_spec (Method r) "POST") as [E | N]; cbn [negb].
  - destruct (Decode (Body r)) as [req | err].
    + pose proof (Arrival.history_after_run s (mkState req h)) as Hh.
      destruct (ProcessDetection s (mkState req h)) as [e st].
      cbn [fst snd Code history] in *. split.
      * intros H. contradiction H. reflexivity.
      * intros _. exists req. split; [reflexivity | exact Hh].
    + cbn. split; [reflexivity | discriminate].
  - cbn. split; [reflexivity | discriminate].
Qed.

End Endpoint.

(* ===================================================================== *)
(** ** The PocketBase repositories *)
(* ===================================================================== *)

Module Records.

Import GoTimeFacts Pipeline Repository.

(** *** Strings *)

Lemma length_append (a b : string) :
  String.length (a ++ b) = (String.length a + String.length b)%nat.
Proof. induction a as [| c a IH]; cbn; [reflexivity | rewrite IH; reflexivity]. Qed.

Lemma append_inv_head (a b b' : string) : a ++ b = a ++ b' -> b = b'.
Proof.
  induction a as [| c a IH]; cbn; intros H; [exact H |].
  injection H as H. exact (IH H).
Qed.

(** Two equal concatenations with heads of equal length agree part by
    part. *)
Lemma append_inj_length (a a' b b' : string) :
  String.length a = String.length a' ->
  a ++ b = a' ++ b' -> a = a' /\ b = b'.
Proof.
  revert a'. induction a as [| c a IH]; intros [| c' a'] Hl H;
    try discriminate.
  - split; [reflexivity | exact H].
  - cbn in H, Hl. injection H as -> H. injection Hl as Hl.
    destruct (IH a' Hl H) as [-> ->]. split; reflexivity.
Qed.

(** *** Formatted fields read back *)

Lemma below_in_seq (n y : Z) :
  0 <= y < n -> In y (map Z.of_nat (seq 0 (Z.to_nat n))).
Proof.
  intros H. apply in_map_iff. exists (Z.to_nat y).
  split; [lia |]. apply in_seq. lia.
Qed.

Lemma appendInt_4 (y : Z) :
  0 <= y <= 9999 ->
  readDigits (appendInt y 4) 0 = y /\ String.length (appendInt y 4) = 4%nat.
Proof.
  intros H.
  assert (table :
            forallb (fun y => (readDigits (appendInt y 4) 0 =? y)
                              && (String.length (appendInt y 4) =? 4)%nat)
              (map Z.of_nat (seq 0 (Z.to_nat 10000))) = true)
    by (vm_compute; reflexivity).
  rewrite forallb_forall in table.
  specialize (table y (below_in_seq 10000 y ltac:(lia))).
  apply andb_true_iff in table. destruct table as [R L].
  split; [apply Z.eqb_eq, R | apply Nat.eqb_eq, L].
Qed.

Lemma appendInt_2 (y : Z) :
  0 <= y <= 99 ->
  readDigits (appendInt y 2) 0 = y /\ String.length (appendInt y 2) = 2%nat.
Proof.
  intros H.
  assert (table :
            forallb (fun y => (readDigits (appendInt y 2) 0 =? y)
                              && (String.length (appendInt y 2) =? 2)%nat)
              (map Z.of_nat (seq 0 (Z.to_nat 100))) = true)
    by (vm_compute; reflexivity).
  rewrite forallb_forall in table.
  specialize (table y (below_in_seq 100 y ltac:(lia))).
  apply andb_true_iff in table. destruct table as [R L].
  split; [apply Z.eqb_eq, R | apply Nat.eqb_eq, L].
Qed.

Lemma date_fields (t : Time) : date t = (Year t, Month t, Day t).
Proof. unfold Year, Month, Day. destruct (date t) as [[y m] d]. reflexivity. Qed.

Lemma Month_Day_range (t : Time) : 1 <= Month t <= 12 /\ 1 <= Day t <= 31.
Proof.
  unfold Month, Day, date.
  pose proof (civilFromDays_range (localSec t / secondsPerDay)) as H.
  destruct (civilFromDays (localSec t / secondsPerDay)) as [[y m] d].
  exact H.
Qed.

(** In the years 0 to 9999 the formatted day has ten characters and
    names the calendar date. *)
Lemma formatDate_length (t : Time) :
  0 <= Year t <= 9999 -> String.length (formatDate t) = 10%nat.
Proof.
  intros Hy. destruct (Month_Day_range t) as [Hm Hd].
  unfold formatDate. rewrite !length_append.
  rewrite (proj2 (appendInt_4 _ Hy)).
  rewrite (proj2 (appendInt_2 (Month t) ltac:(lia))).
  rewrite (proj2 (appendInt_2 (Day t) ltac:(lia))).
  reflexivity.
Qed.

Lemma formatDate_inj (t u : Time) :
  0 <= Year t <= 9999 -> 0 <= Year u <= 9999 ->
  formatDate t = formatDate u -> date t = date u.
Proof.
  intros Ht Hu E.
  destruct (Month_Day_range t) as [Hmt Hdt].
  destruct (Month_Day_range u) as [Hmu Hdu].
  unfold formatDate in E.
  apply append_inj_length in E;
    [| rewrite (proj2 (appendInt_4 _ Ht)), (proj2 (appendInt_4 _ Hu));
       reflexivity].
  destruct E as [Ey E].
  apply (append_inv_head "-") in E.
  apply append_inj_length in E;
    [| rewrite (proj2 (appendInt_2 (Month t) ltac:(lia))),
               (proj2 (appendInt_2 (Month u) ltac:(lia)));
       reflexivity].
  destruct E as [Em E].
  apply (append_inv_head "-") in E.
  rewrite !date_fields.
  rewrite <- (proj1 (appendInt_4 _ Ht)), <- (proj1 (appendInt_4 _ Hu)), Ey.
  rewrite <- (proj1 (appendInt_2 (Month t) ltac:(lia))),
          <- (proj1 (appendInt_2 (Month u) ltac:(lia))), Em.
  rewrite <- (proj1 (appendInt_2 (Day t) ltac:(lia))),
          <- (proj1 (appendInt_2 (Day u) ltac:(lia))), E.
  reflexivity.
Qed.

(** X13.  The day key is kept consistently: the filter
    [IsCheckedInToday] sends for an employee at instant [now] is the one
    that names the [employee_id] and [created_date] which [Create]
    posted for an attendance record exactly when the employee IDs are the
    same and [now] falls on the local calendar date of the record's
    [CreatedDate] (years 0 to 9999). *)
Theorem check_in_query_matches_the_stored_day
    (attendance : Attendance.t) (now : Time) (employeeID : string) :
  0 <= Year (Attendance.CreatedDate attendance) <= 9999 ->
  0 <= Year now <= 9999 ->
  let stored := attendanceData attendance in
  checkInFilter employeeID (formatDate now)
    = checkInFilter (field "employee_id" stored)
        (field "created_date" stored)
  <-> employeeID = Attendance.EmployeeID attendance
      /\ date now = date (Attendance.CreatedDate attendance).
Proof.
  intros Hc Hn stored.
  change (field "employee_id" stored) with (Attendance.EmployeeID attendance).
  change (field "created_date" stored)
    with (formatDate (Attendance.CreatedDate attendance)).
  split.
  - intros E. unfold checkInFilter in E.
    apply append_inv_head in E.
    pose proof (f_equal String.length E) as L.
    rewrite !length_append in L.
    rewrite (formatDate_length _ Hc), (formatDate_length _ Hn) in L.
    apply append_inj_length in E; [| lia].
    destruct E as [Eid E]. split; [exact Eid |].
    apply append_inv_head in E.
    apply append_inj_length in E;
      [| rewrite (formatDate_length _ Hc), (formatDate_length _ Hn);
         reflexivity].
    apply formatDate_inj; [assumption | assumption | exact (proj1 E)].
  - intros [-> Ed].
    assert (Ef : formatDate now
                 = formatDate (Attendance.CreatedDate attendance)).
    { unfold formatDate, Year, Month, Day. rewrite Ed. reflexivity. }
    rewrite Ef. reflexivity.
Qed.

(** X14.  [IsCheckedInToday] never looks at the status code: whenever
    the body of the reply decodes, the answer is whether it lists an
    item.  So in the service built by [initApplication] an error response
    whose body decodes without items reads as "not checked in today",
    and the run goes on to write the detection record as for a first
    arrival. *)
Theorem failed_check_in_query_reads_as_absent
    (b : Backend) (st : State) (employee : Employee.t)
    (statusCode : Z) (status body : string) :
  let s := attendanceService b in
  let h := (history st ++ [lookupCall s st])%list in
  lookupAnswer s st = inl employee ->
  rssiThreshold <= DetectionRequest.RSSI (req st) ->
  attendanceQuery b h
    (checkInFilter (Employee.ID employee) (formatDate (now b h)))
    = response statusCode status body (inr []) ->
  checkedInAnswer s st employee = inl false /\
  exists rest,
    calls s st
      = (lookupCall s st :: checkedInCall s st employee
         :: detectionCall s st employee :: rest)%list.
Proof.
  intros s h known close reply.
  assert (Ec : checkedInAnswer s st employee = inl false).
  { change (checkedInAnswer s st employee)
      with (IsCheckedInToday (attendanceQuery b h) (now b h)
              (Employee.ID employee)).
    unfold IsCheckedInToday. rewrite reply. reflexivity. }
  split; [exact Ec |].
  pose proof (Arrival.run_outcome s st) as O.
  inversion O as [ e K E1 E2 E3 | e K F E1 E2 E3 | e err K C Q E1 E2 E3
                 | e K C Q E1 E2 E3 | e err K C Q D E1 E2 E3
                 | e err K C Q D A E1 E2 E3
                 | e m adm K C Q D A L N E1 E2 E3 ];
    try (assert (e = employee) by congruence; subst e);
    try congruence; try lia.
  - exists []. reflexivity.
  - exists [attendanceCall s st employee]. reflexivity.
  - eexists. reflexivity.
Qed.

(** X21.  In the service built by [initApplication], a detection insert
    that the server answers with any status but 200 and 201 stops the
    run: [ProcessDetection] returns an error whose text names the
    failure three times over and ends in the status line and the body of
    the response, the attendance collection is not touched and nothing
    is sent.  The request's address is ASCII text, on which the
    lower-casing of the posted address is byte by byte. *)
Theorem rejected_detection_insert_stops_the_run
    (b : Backend) (st : State) (employee : Employee.t)
    (statusCode : Z) (status body : string) (decoded : error + unit) :
  let s := attendanceService b in
  let h :=
    (history st ++ [lookupCall s st; checkedInCall s st employee])%list in
  Bot.isASCII (DetectionRequest.MacAddress (req st)) = true ->
  lookupAnswer s st = inl employee ->
  rssiThreshold <= DetectionRequest.RSSI (req st) ->
  checkedInAnswer s st employee = inl false ->
  detectionInsert b h (detectionData (detectionOf s st employee))
    = response statusCode status body decoded ->
  statusCode <> 200 -> statusCode <> 201 ->
  (exists err,
     result s st = Some err /\
     Error err
       = "failed to save detection: failed to create detection: "
         ++ "failed to create detection: " ++ status ++ " - " ++ body) /\
  attendanceWrites (calls s st) = [] /\
  notifications (calls s st) = [].
Proof.
  intros s h _ known close Ec reply H200 H201.
  assert (Ed : detectionAnswer s st employee
               = Some (errorString ("failed to create detection: "
                                    ++ status ++ " - " ++ body))).
  { change (detectionAnswer s st employee)
      with (DetectionCreate (detectionInsert b h)
              (detectionOf s st employee)).
    unfold DetectionCreate. rewrite reply. unfold created.
    destruct (Z.eqb_spec statusCode 200) as [E | _]; [contradiction |].
    destruct (Z.eqb_spec statusCode 201) as [E | _]; [contradiction |].
    reflexivity. }
  destruct (observe _ _ _ _ _
              (run_save_failed s st employee known close _ Ec Ed))
    as (-> & _ & ->).
  split; [eexists; split; [reflexivity | reflexivity] |].
  repeat split.
Qed.

(** X22.  In the service built by [initApplication], the attendance
    insert counts as done only when the server answers 200 or 201 and
    the body of the response decodes.  With another status, or with a
    body that does not decode, [ProcessDetection] returns an error that
    wraps the repository's, sends no notification, and leaves the
    detection record written. *)
Theorem attendance_insert_must_decode
    (b : Backend) (st : State) (employee : Employee.t)
    (statusCode : Z) (status body : string) (decoded : error + string) :
  let s := attendanceService b in
  lookupAnswer s st = inl employee ->
  rssiThreshold <= DetectionRequest.RSSI (req st) ->
  checkedInAnswer s st employee = inl false ->
  detectionAnswer s st employee = None ->
  attendanceInsert b (beforeAttendance s st employee)
    (attendanceData (attendanceOf s st employee))
    = response statusCode status body decoded ->
  let failure :=
    if negb (created statusCode)
    then Some (errorString ("failed to create attendance: " ++ status
                            ++ " - " ++ body))
    else match decoded with
         | inl err => Some err
         | inr _ => None
         end in
  attendanceAnswer s st employee = failure /\
  (forall err, failure = Some err ->
     result s st
       = Some (Errorf "failed to record attendance: "
                 (Errorf "failed to create attendance record: " err)) /\
     notifications (calls s st) = [] /\
     detectionWrites (calls s st)
       = [CallDetectionCreate (detectionOf s st employee) None]) /\
  (failure = None ->
   result s st = None /\ notifications (calls s st) <> []).
Proof.
  intros s known close Ec Ed reply failure.
  assert (Ea : attendanceAnswer s st employee = failure).
  { change (attendanceAnswer s st employee)
      with (fst (AttendanceCreate
                   (attendanceInsert b (beforeAttendance s st employee))
                   (attendanceOf s st employee))).
    unfold AttendanceCreate, failure. rewrite reply.
    destruct (negb (created statusCode)); [reflexivity |].
    destruct decoded; reflexivity. }
  split; [exact Ea |].
  pose proof (Arrival.run_outcome s st) as O.
  split.
  - intros err Hf. rewrite Hf in Ea.
    inversion O as [ e K E1 E2 E3 | e K F E1 E2 E3 | e err' K C Q E1 E2 E3
                   | e K C Q E1 E2 E3 | e err' K C Q D E1 E2 E3
                   | e err' K C Q D A E1 E2 E3
                   | e m adm K C Q D A L N E1 E2 E3 ];
      try (assert (e = employee) by congruence; subst e);
      try congruence; try lia.
    assert (err' = err) by congruence. subst err'.
    unfold notifications, detectionWrites, lookupCall, checkedInCall,
      detectionCall, attendanceCall.
    rewrite Ed, Ea. repeat split.
  - intros Hf. rewrite Hf in Ea.
    inversion O as [ e K E1 E2 E3 | e K F E1 E2 E3 | e err' K C Q E1 E2 E3
                   | e K C Q E1 E2 E3 | e err' K C Q D E1 E2 E3
                   | e err' K C Q D A E1 E2 E3
                   | e m adm K C Q D A L N E1 E2 E3 ];
      try (assert (e = employee) by congruence; subst e);
      try congruence; try lia.
    split; [reflexivity |].
    unfold notifications, lookupCall, checkedInCall, detectionCall,
      attendanceCall.
    cbn [app filter isNotification]. discriminate.
Qed.


(** *** Concrete records *)

Import Samples.

Lemma check_in_query_matches_the_stored_day_witness :
  0 <= Year (Attendance.CreatedDate
               (attendanceOf brokenStore (sighting (-50)) somchai)) <= 9999 /\
  0 <= Year (feb1 17 30 0) <= 9999 /\
  (checkInFilter "emp001" (formatDate (feb1 17 30 0))
     = checkInFilter
         (field "employee_id"
            (attendanceData
               (attendanceOf brokenStore (sighting (-50)) somchai)))
         (field "created_date"
            (attendanceData
               (attendanceOf brokenStore (sighting (-50)) somchai)))
   <-> "emp001"
       = Attendance.EmployeeID
           (attendanceOf brokenStore (sighting (-50)) somchai)
       /\ date (feb1 17 30 0)
          = date (Attendance.CreatedDate
                    (attendanceOf brokenStore (sighting (-50)) somchai))).
Proof.
  assert (H1 : 0 <= Year (Attendance.CreatedDate
                            (attendanceOf brokenStore (sighting (-50))
                               somchai)) <= 9999)
    by (vm_compute; split; discriminate).
  assert (H2 : 0 <= Year (feb1 17 30 0) <= 9999)
    by (vm_compute; split; discriminate).
  split; [exact H1 |]. split; [exact H2 |].
  exact (check_in_query_matches_the_stored_day
           (attendanceOf brokenStore (sighting (-50)) somchai)
           (feb1 17 30 0) "emp001" H1 H2).
Defined.

Lemma failed_check_in_query_reads_as_absent_witness :
  lookupAnswer (attendanceService forbidden) (sighting (-50))
    = inl somchai /\
  rssiThreshold <= DetectionRequest.RSSI (req (sighting (-50))) /\
  checkedInAnswer (attendanceService forbidden) (sighting (-50)) somchai
    = inl false.
Proof.
  assert (H1 : lookupAnswer (attendanceService forbidden) (sighting (-50))
               = inl somchai) by reflexivity.
  assert (H2 : rssiThreshold <= DetectionRequest.RSSI (req (sighting (-50))))
    by (unfold rssiThreshold; simpl; lia).
  split; [exact H1 |]. split; [exact H2 |].
  exact (proj1 (failed_check_in_query_reads_as_absent forbidden
                  (sighting (-50)) somchai 403 "403 Forbidden"
                  (errorBody "403" "Only superusers can perform this action.")
                  H1 H2 eq_refl)).
Defined.


Lemma rejected_detection_insert_stops_the_run_witness :
  Bot.isASCII (DetectionRequest.MacAddress (req (sighting (-50)))) = true /\
  lookupAnswer (attendanceService rejecting) (sighting (-50))
    = inl somchai /\
  rssiThreshold <= DetectionRequest.RSSI (req (sighting (-50))) /\
  checkedInAnswer (attendanceService rejecting) (sighting (-50)) somchai
    = inl false /\
  attendanceWrites (calls (attendanceService rejecting) (sighting (-50)))
    = [] /\
  notifications (calls (attendanceService rejecting) (sighting (-50)))
    = [].
Proof.
  assert (H1 : lookupAnswer (attendanceService rejecting) (sighting (-50))
               = inl somchai) by reflexivity.
  assert (H2 : rssiThreshold <= DetectionRequest.RSSI (req (sighting (-50))))
    by (unfold rssiThreshold; simpl; lia).
  assert (H3 : checkedInAnswer (attendanceService rejecting)
                 (sighting (-50)) somchai = inl false) by reflexivity.
  assert (H4 : 400 <> 200) by discriminate.
  assert (H5 : 400 <> 201) by discriminate.
  assert (H0 : Bot.isASCII
                 (DetectionRequest.MacAddress (req (sighting (-50))))
               = true) by reflexivity.
  destruct (rejected_detection_insert_stops_the_run rejecting
              (sighting (-50)) somchai 400 "400 Bad Request"
              (errorBody "400" "Failed to create record.") (inr tt)
              H0 H1 H2 H3 eq_refl H4 H5)
    as (_ & A & N).
  repeat (split; [assumption |]). exact N.
Defined.

Lemma attendance_insert_must_decode_witness :
  lookupAnswer (attendanceService garbled) (sighting (-50)) = inl somchai /\
  rssiThreshold <= DetectionRequest.RSSI (req (sighting (-50))) /\
  checkedInAnswer (attendanceService garbled) (sighting (-50)) somchai
    = inl false /\
  detectionAnswer (attendanceService garbled) (sighting (-50)) somchai
    = None /\
  attendanceAnswer (attendanceService garbled) (sighting (-50)) somchai
    = Some (errorString
              "invalid character '<' looking for beginning of value").
Proof.
  assert (H1 : lookupAnswer (attendanceService garbled) (sighting (-50))
               = inl somchai) by reflexivity.
  assert (H2 : rssiThreshold <= DetectionRequest.RSSI (req (sighting (-50))))
    by (unfold rssiThreshold; simpl; lia).
  assert (H3 : checkedInAnswer (attendanceService garbled)
                 (sighting (-50)) somchai = inl false) by reflexivity.
  assert (H4 : detectionAnswer (attendanceService garbled)
                 (sighting (-50)) somchai = None) by reflexivity.
  repeat (split; [assumption |]).
  exact (proj1 (attendance_insert_must_decode garbled (sighting (-50))
                  somchai 200 "200 OK" "<html>"
                  (inl (errorString
                          "invalid character '<' looking for beginning of value"))
                  H1 H2 H3 H4 eq_refl)).
Defined.


End Records.

(* ===================================================================== *)
(** ** The Telegram notifier *)
(* ===================================================================== *)

Module Telegram.

Import Pipeline Bot.

(** *** [ParseInt] over a formatted number *)

Lemma uintVal_ge (d : Decimal.uint) : forall n, 0 <= n -> n <= uintVal d n.
Proof.
  induction d; intros n Hn; cbn [uintVal]; try lia;
    match goal with
    | IH : forall n, 0 <= n -> n <= uintVal ?d n |- _ <= uintVal ?d ?m =>
        specialize (IH m ltac:(lia)); lia
    end.
Qed.

Lemma parseDigits_uint (d : Decimal.uint) :
  forall n, 0 <= n -> uintVal d n <= maxUint64 ->
  parseDigits (NilEmpty.string_of_uint d) n = (uintVal d n, None).
Proof.
  unfold maxUint64. change (2 ^ 64 - 1) with 18446744073709551615.
  induction d; intros n Hn Hv; cbn [uintVal NilEmpty.string_of_uint] in *;
    try reflexivity;
    cbn [parseDigits];
    match goal with
    | |- context [digitVal ?c] =>
        let v := eval vm_compute in (digitVal c) in
        change (digitVal c) with v; cbv beta iota
    end;
    match goal with
    | IH : forall n, 0 <= n -> uintVal ?d n <= _ -> _,
      Hv : uintVal ?d ?m <= _ |- _ =>
        pose proof (uintVal_ge d m ltac:(lia)) as Hge;
        unfold maxUint64; change (2 ^ 64 - 1) with 18446744073709551615;
        change (18446744073709551615 / 10 + 1) with 1844674407370955162;
        destruct (Z.leb_spec 1844674407370955162 n); [lia |];
        match goal with
        | |- context [18446744073709551615 <? ?x] =>
            destruct (Z.ltb_spec 18446744073709551615 x); [lia |]
        end;
        replace (n * 10 + 0) with (n * 10) by lia;
        apply IH; lia
    end.
Qed.

Lemma of_uint_acc_val (d : Decimal.uint) :
  forall acc, Z.pos (Pos.of_uint_acc d acc) = uintVal d (Z.pos acc).
Proof.
  induction d; intros acc; cbn [Pos.of_uint_acc uintVal];
    try reflexivity; rewrite IHd; f_equal; lia.
Qed.

Lemma of_uint_val (d : Decimal.uint) :
  Z.of_N (Pos.of_uint d) = uintVal d 0.
Proof.
  induction d; cbn [Pos.of_uint uintVal]; try reflexivity;
    try (rewrite IHd; reflexivity);
    cbn [Z.of_N]; rewrite of_uint_acc_val; reflexivity.
Qed.

Lemma to_uint_val (p : positive) : uintVal (Pos.to_uint p) 0 = Z.pos p.
Proof.
  rewrite <- of_uint_val, DecimalPos.Unsigned.of_to. reflexivity.
Qed.

(** The decimal form of a positive number has a first character, which
    is no sign, and [ParseUint] reads the number back. *)
Lemma ParseUint_digits (p : positive) :
  Z.pos p <= maxUint64 ->
  exists c rest,
    NilEmpty.string_of_uint (Pos.to_uint p) = String c rest /\
    Ascii.eqb c "+" = false /\ Ascii.eqb c "-" = false /\
    ParseUint (String c rest) = (Z.pos p, None).
Proof.
  intros Hp.
  pose proof (parseDigits_uint (Pos.to_uint p) 0 ltac:(lia)) as H.
  rewrite to_uint_val in H. specialize (H Hp).
  pose proof (DecimalPos.Unsigned.to_uint_nonnil p) as Hn.
  destruct (Pos.to_uint p) as [| d | d | d | d | d | d | d | d | d | d];
    [contradiction Hn; reflexivity | ..];
    cbn [NilEmpty.string_of_uint] in *;
    eexists _, _; (split; [reflexivity |]);
    (split; [reflexivity |]); (split; [reflexivity |]); exact H.
Qed.

(** [ParseInt] reads back what the [%d] verb prints of an [int64]. *)
Lemma ParseInt_formatInt (z : Z) :
  - 2 ^ 63 <= z < 2 ^ 63 -> ParseInt (formatInt z) = (z, None).
Proof.
  change (2 ^ 63) with 9223372036854775808. intros Hz.
  unfold formatInt. destruct z as [| p | p]; [reflexivity | |].
  - cbn [Z.to_int NilZero.string_of_int].
    destruct (ParseUint_digits p) as (c & rest & E & Hplus & Hminus & HP).
    { unfold maxUint64. change (2 ^ 64 - 1) with 18446744073709551615. lia. }
    unfold NilZero.string_of_uint.
    pose proof (DecimalPos.Unsigned.to_uint_nonnil p) as Hn.
    destruct (Pos.to_uint p) eqn:Eu; [contradiction Hn; reflexivity | ..];
      rewrite E; unfold ParseInt; rewrite Hplus, Hminus, HP;
      change (2 ^ 63) with 9223372036854775808; cbn [negb andb];
      (destruct (Z.leb_spec 9223372036854775808 (Z.pos p)); [lia |]);
      reflexivity.
  - cbn [Z.to_int NilZero.string_of_int].
    destruct (ParseUint_digits p) as (c & rest & E & Hplus & Hminus & HP).
    { unfold maxUint64. change (2 ^ 64 - 1) with 18446744073709551615. lia. }
    unfold NilZero.string_of_uint.
    pose proof (DecimalPos.Unsigned.to_uint_nonnil p) as Hn.
    destruct (Pos.to_uint p) eqn:Eu; [contradiction Hn; reflexivity | ..];
      rewrite E; unfold ParseInt;
      change (Ascii.eqb "-" "+") with false;
      change (Ascii.eqb "-" "-") with true; cbv beta iota;
      rewrite HP;
      change (2 ^ 63) with 9223372036854775808; cbn [negb andb];
      (destruct (Z.ltb_spec 9223372036854775808 (Z.pos p)); [lia |]);
      reflexivity.
Qed.

Lemma append_inv_tail (a b : string) (c : ascii) :
  a ++ String c "" = b ++ String c "" -> a = b.
Proof.
  revert b. induction a as [| x a IH]; intros [| y b] H; cbn in H.
  - reflexivity.
  - injection H as _ H. destruct b; discriminate.
  - injection H as _ H. destruct a; discriminate.
  - injection H as -> H. rewrite (IH b H). reflexivity.
Qed.

Section Notifier.

Variable BotAPI : Type.
Variable NewBotAPI : string -> BotAPI + error.

(** X15.  After [Init] on the fresh package state, a personal
    notification is handed to Telegram exactly when [Init] returned nil
    (the bot logged in), and an admin notification exactly when, besides,
    the configured chat ID parses as a decimal [int64] other than 0; the
    message then goes to that chat.  With an empty, malformed or zero
    chat ID the admin alerts are dropped without an error. *)
Theorem admin_alerts_need_a_chat_id
    (token authorizedChatIDStr message : string) (chatID : Z) :
  let err := fst (Init NewBotAPI token authorizedChatIDStr start) in
  let g := snd (Init NewBotAPI token authorizedChatIDStr start) in
  (err = None <-> exists b, NewBotAPI token = inl b) /\
  (sent (SendPersonalNotification chatID message g)
     = match err with
       | Some _ => []
       | None => [mkMessage chatID message "Markdown"]
       end) /\
  (sent (SendNotification message g) <> []
   <-> err = None /\
       exists id, ParseInt authorizedChatIDStr = (id, None) /\ id <> 0) /\
  (forall id,
     err = None -> ParseInt authorizedChatIDStr = (id, None) -> id <> 0 ->
     sent (SendNotification message g) = [mkMessage id message "Markdown"]).
Proof.
  unfold Init.
  destruct (NewBotAPI token) as [b | e]; cbn [fst snd].
  2: { split; [split; [discriminate | intros [b H]; discriminate] |].
       split; [reflexivity |].
       split; [| discriminate].
       split; [intros H; contradiction H; reflexivity
              | intros [H _]; discriminate]. }
  split; [split; [intros _; exists b; reflexivity | reflexivity] |].
  split; [reflexivity |].
  unfold SendNotification, start. cbn [bot targetChatID sent app].
  destruct (String.eqb_spec authorizedChatIDStr "") as [-> | Hne];
    cbn [negb].
  - cbn. split; [| intros id _ H; discriminate].
    split; [intros H; contradiction H; reflexivity
           | intros [_ (id & H & _)]; discriminate].
  - destruct (ParseInt authorizedChatIDStr) as [id [e |]].
    + cbn. split; [| intros id' _ H; discriminate].
      split; [intros H; contradiction H; reflexivity
             | intros [_ (id' & H & _)]; discriminate].
    + destruct (Z.eqb_spec id 0) as [-> | Hid].
      * split; [split; [intros H; contradiction H; reflexivity |] |].
        -- intros [_ (id' & H & Hz)]. injection H as <-.
           contradiction Hz; reflexivity.
        -- intros id' _ H Hz. injection H as <-.
           contradiction Hz; reflexivity.
      * split; [split; [| discriminate] |].
        -- intros _. split; [reflexivity |]. exists id.
           split; [reflexivity | exact Hid].
        -- intros id' _ H _. injection H as <-. reflexivity.
Qed.

(** X16.  The chat ID that the [getid] command prints can be configured
    as it stands: [Init] with the number between the backquotes of the
    reply makes that chat the target of the admin notifications. *)
Theorem getid_reply_configures_the_admin_chat
    (token authorizedChatIDStr : string) (chatID : Z) (b : BotAPI)
    (g : Globals BotAPI) :
  - 2 ^ 63 <= chatID < 2 ^ 63 ->
  NewBotAPI token = inl b ->
  getid chatID = "Chat ID: `" ++ authorizedChatIDStr ++ "`" ->
  ParseInt authorizedChatIDStr = (chatID, None) /\
  targetChatID (snd (Init NewBotAPI token authorizedChatIDStr g)) = chatID.
Proof.
  intros Hrange Hlogin Hreply.
  unfold getid in Hreply.
  apply Records.append_inv_head in Hreply.
  apply append_inv_tail in Hreply. subst authorizedChatIDStr.
  pose proof (ParseInt_formatInt chatID Hrange) as HP.
  split; [exact HP |].
  unfold Init. rewrite Hlogin, HP. cbn [snd targetChatID].
  destruct (String.eqb_spec (formatInt chatID) "") as [E | _];
    [| reflexivity].
  rewrite E in HP. discriminate.
Qed.

(** X17.  What a recorded arrival hands to Telegram depends on the
    package state: nothing when the bot is nil (after a failed [Init]
    the arrival is still recorded); with a bot, one message to the
    employee's chat, followed by one to the target chat exactly when the
    status is late and the target chat is not 0. *)
Theorem notifications_reach_telegram
    (s : AttendanceService) (st : State) (employee : Employee.t)
    (g : Globals BotAPI) :
  lookupAnswer s st = inl employee ->
  rssiThreshold <= DetectionRequest.RSSI (req st) ->
  checkedInAnswer s st employee = inl false ->
  detectionAnswer s st employee = None ->
  attendanceAnswer s st employee = None ->
  let status := Attendance.Status (attendanceOf s st employee) in
  let after := sent (deliver (calls s st) g) in
  result s st = None /\
  (bot g = None -> after = sent g) /\
  (bot g <> None ->
   exists message,
     let personal :=
       mkMessage (Employee.TelegramChatID employee) message "Markdown" in
     (status <> "late" \/ targetChatID g = 0 ->
      after = (sent g ++ [personal])%list) /\
     (status = "late" -> targetChatID g <> 0 ->
      exists adminMessage,
        after = (sent g ++ [personal;
                            mkMessage (targetChatID g) adminMessage
                              "Markdown"])%list)).
Proof.
  intros known close Ec Ed Ea status after.
  pose proof (Arrival.run_outcome s st) as O.
  inversion O as [ e K E1 E2 E3 | e K F E1 E2 E3 | e err K C Q E1 E2 E3
                 | e K C Q E1 E2 E3 | e err K C Q D E1 E2 E3
                 | e err K C Q D A E1 E2 E3
                 | e m adm K C Q D A L N E1 E2 E3 ];
    try (assert (e = employee) by congruence; subst e);
    try congruence; try lia.
  split; [reflexivity |].
  unfold after. rewrite <- E3.
  unfold deliver, lookupCall, checkedInCall, detectionCall, attendanceCall.
  cbn [fold_left relay].
  fold status in L, N.
  destruct (bot g) as [b |] eqn:Eb.
  - split; [discriminate |]. intros _. exists m.
    unfold SendPersonalNotification. rewrite Eb.
    destruct (string_dec status "late") as [late | ontime].
    + destruct (L late) as [adminMessage ->].
      cbn [fold_left relay]. unfold SendNotification.
      cbn [bot targetChatID sent].
      destruct (Z.eqb_spec (targetChatID g) 0) as [Ez | Hnz].
      * split; [intros _; reflexivity | intros _ H; contradiction].
      * split.
        -- intros [H | H]; contradiction.
        -- intros _ _. exists adminMessage. cbn [sent].
           rewrite <- app_assoc. reflexivity.
    + rewrite (N ontime). cbn [fold_left sent].
      split; [intros _; reflexivity | intros H; contradiction].
  - split; [| intros H; contradiction H; reflexivity].
    intros _. unfold SendPersonalNotification. rewrite Eb.
    destruct (Arrival.admin_cases _ _ L N) as [-> | [x ->]];
      cbn [fold_left relay]; [reflexivity |].
    unfold SendNotification. rewrite Eb. reflexivity.
Qed.

End Notifier.

(** *** Registered addresses and the lookup *)

Lemma lowerByte_not_upper (c : ascii) :
  let n := nat_of_ascii (PocketBase.lowerByte c) in
  ((65 <=? n)%nat && (n <=? 90)%nat) = false.
Proof.
  unfold PocketBase.lowerByte.
  destruct ((65 <=? nat_of_ascii c)%nat && (nat_of_ascii c <=? 90)%nat)
    eqn:E; cbv zeta.
  - apply andb_true_iff in E. destruct E as [E1 E2].
    apply Nat.leb_le in E1, E2.
    rewrite nat_ascii_embedding by lia.
    apply andb_false_iff. right. apply Nat.leb_gt. lia.
  - exact E.
Qed.

Lemma upperByte_letter (c : ascii) :
  isLetter c = true ->
  let n := nat_of_ascii (upperByte c) in
  ((65 <=? n)%nat && (n <=? 90)%nat) = true.
Proof.
  unfold isLetter, upperByte. intros H.
  destruct ((97 <=? nat_of_ascii c)%nat && (nat_of_ascii c <=? 122)%nat)
    eqn:E; cbv zeta.
  - apply andb_true_iff in E. destruct E as [E1 E2].
    apply Nat.leb_le in E1, E2.
    rewrite nat_ascii_embedding by lia.
    apply andb_true_iff. split; apply Nat.leb_le; lia.
  - rewrite orb_false_r in H. exact H.
Qed.

Lemma upperByte_no_letter (c : ascii) :
  isLetter c = false -> upperByte c = c /\ PocketBase.lowerByte c = c.
Proof.
  unfold isLetter, upperByte, PocketBase.lowerByte. intros H.
  apply orb_false_iff in H. destruct H as [-> ->]. split; reflexivity.
Qed.

Lemma ToUpper_ne_ToLower (mac macAddress : string) :
  hasLetter mac = true -> ToUpper mac <> PocketBase.ToLower macAddress.
Proof.
  revert macAddress. induction mac as [| c mac IH]; intros macAddress H.
  - discriminate.
  - destruct macAddress as [| c' macAddress]; [discriminate |].
    cbn [ToUpper PocketBase.ToLower]. intros E. injection E as Ec E.
    unfold hasLetter in H. cbn [list_ascii_of_string existsb] in H.
    destruct (isLetter c) eqn:Lc.
    + pose proof (upperByte_letter c Lc) as U. cbv zeta in U.
      pose proof (lowerByte_not_upper c') as Lw. cbv zeta in Lw.
      rewrite Ec in U. congruence.
    + cbn [orb] in H. exact (IH macAddress H E).
Qed.

Lemma ToUpper_eq_ToLower (mac : string) :
  hasLetter mac = false -> ToUpper mac = PocketBase.ToLower mac.
Proof.
  induction mac as [| c mac IH]; intros H; [reflexivity |].
  unfold hasLetter in H. cbn [list_ascii_of_string existsb] in H.
  apply orb_false_iff in H. destruct H as [Lc H].
  destruct (upperByte_no_letter c Lc) as [U L].
  cbn [ToUpper PocketBase.ToLower]. rewrite U, L, (IH H). reflexivity.
Qed.

(** X18.  [registerEmployee] stores the address in upper case while
    [GetByMacAddress] asks for it in lower case.  For an address with a
    letter in it the stored [mac_address] is therefore never the one a
    lookup names, whatever address is sighted: a server that compares
    addresses exactly answers every lookup with "employee not found".
    An address without letters is stored as the lookup names it.
    Addresses are ASCII text, on which [strings.ToUpper] and
    [strings.ToLower] work byte by byte. *)
Theorem registered_address_is_not_the_lookup_key
    (mac : string) (chatID : Z) (name code dept : string)
    (employee : Employee.t) :
  isASCII mac = true ->
  let stored :=
    Repository.field "mac_address"
      (employeeData mac chatID name code dept) in
  (hasLetter mac = true ->
   forall macAddress,
     isASCII macAddress = true ->
     stored <> PocketBase.ToLower macAddress /\
     PocketBase.GetByMacAddress (exactServer stored employee) macAddress
       = inr PocketBase.errNotFound) /\
  (hasLetter mac = false ->
   stored = PocketBase.ToLower mac /\
   PocketBase.GetByMacAddress (exactServer stored employee) mac
     = inl employee).
Proof.
  intros _ stored. change stored with (ToUpper mac). split.
  - intros H macAddress _.
    pose proof (ToUpper_ne_ToLower mac macAddress H) as Hne.
    split; [exact Hne |].
    unfold PocketBase.GetByMacAddress, exactServer.
    destruct (String.eqb_spec
                ("mac_address='" ++ PocketBase.ToLower macAddress
                 ++ "' && is_active=true")
                ("mac_address='" ++ ToUpper mac ++ "' && is_active=true"))
      as [E | _]; [| reflexivity].
    apply Records.append_inv_head in E.
    exfalso.
    assert (L : String.length (PocketBase.ToLower macAddress)
                = String.length (ToUpper mac)).
    { pose proof (f_equal String.length E) as HL.
      rewrite !Records.length_append in HL. lia. }
    apply Records.append_inj_length in E; [| exact L].
    apply Hne. symmetry. exact (proj1 E).
  - intros H. rewrite (ToUpper_eq_ToLower mac H).
    split; [reflexivity |].
    unfold PocketBase.GetByMacAddress, exactServer.
    rewrite String.eqb_refl. reflexivity.
Qed.

(** *** Concrete cases *)

Import Samples.

Lemma getid_reply_configures_the_admin_chat_witness :
  - 2 ^ 63 <= 123456789 < 2 ^ 63 /\
  login "token" = inl tt /\
  getid 123456789 = "Chat ID: `" ++ "123456789" ++ "`" /\
  targetChatID (snd (Init login "token" "123456789" start)) = 123456789.
Proof.
  assert (H1 : - 2 ^ 63 <= 123456789 < 2 ^ 63)
    by (vm_compute; split; [discriminate | reflexivity]).
  assert (H2 : login "token" = inl tt) by reflexivity.
  assert (H3 : getid 123456789 = "Chat ID: `" ++ "123456789" ++ "`")
    by reflexivity.
  repeat (split; [assumption |]).
  exact (proj2 (getid_reply_configures_the_admin_chat unit login "token"
                  "123456789" 123456789 tt start H1 H2 H3)).
Defined.

Lemma notifications_reach_telegram_witness :
  lookupAnswer (office serverUp morning) (sighting (-50)) = inl somchai /\
  rssiThreshold <= DetectionRequest.RSSI (req (sighting (-50))) /\
  checkedInAnswer (office serverUp morning) (sighting (-50)) somchai
    = inl false /\
  detectionAnswer (office serverUp morning) (sighting (-50)) somchai = None /\
  attendanceAnswer (office serverUp morning) (sighting (-50)) somchai
    = None /\
  (bot (@start unit) = None ->
   sent (deliver (calls (office serverUp morning) (sighting (-50)))
           (@start unit))
   = sent (@start unit)).
Proof.
  assert (H1 : lookupAnswer (office serverUp morning) (sighting (-50))
               = inl somchai) by reflexivity.
  assert (H2 : rssiThreshold <= DetectionRequest.RSSI (req (sighting (-50))))
    by (unfold rssiThreshold; simpl; lia).
  assert (H3 : checkedInAnswer (office serverUp morning) (sighting (-50))
                 somchai = inl false) by reflexivity.
  assert (H4 : detectionAnswer (office serverUp morning) (sighting (-50))
                 somchai = None) by reflexivity.
  assert (H5 : attendanceAnswer (office serverUp morning) (sighting (-50))
                 somchai = None) by reflexivity.
  repeat (split; [assumption |]).
  exact (proj1 (proj2 (notifications_reach_telegram unit
                         (office serverUp morning) (sighting (-50)) somchai
                         start H1 H2 H3 H4 H5))).
Defined.

Lemma registered_address_is_not_the_lookup_key_witness :
  isASCII "AA:BB:CC:DD:EE:FF" = true /\
  hasLetter "AA:BB:CC:DD:EE:FF" = true /\
  isASCII "aa:bb:cc:dd:ee:ff" = true /\
  PocketBase.GetByMacAddress
    (exactServer
       (Repository.field "mac_address"
          (employeeData "AA:BB:CC:DD:EE:FF" 123456789 "Somchai" "E001"
             "Ward 5"))
       somchai)
    "aa:bb:cc:dd:ee:ff"
  = inr PocketBase.errNotFound.
Proof.
  assert (H1 : isASCII "AA:BB:CC:DD:EE:FF" = true) by reflexivity.
  assert (H2 : hasLetter "AA:BB:CC:DD:EE:FF" = true) by reflexivity.
  assert (H3 : isASCII "aa:bb:cc:dd:ee:ff" = true) by reflexivity.
  repeat (split; [assumption |]).
  exact (proj2 (proj1 (registered_address_is_not_the_lookup_key
                         "AA:BB:CC:DD:EE:FF" 123456789 "Somchai" "E001"
                         "Ward 5" somchai H1)
                  H2 "aa:bb:cc:dd:ee:ff" H3)).
Defined.


End Telegram.

(* ===================================================================== *)
(** ** The scanner firmware *)
(* ===================================================================== *)

Module Firmware.

Import Scanner.

(** X19.  [getDeviceType] answers iTag03 exactly when [isITag03] holds,
    and it never answers Apple or FindMy_Tag: a device with Apple's
    company ID or with the Find My service UUID is already an iTag03, so
    those two branches cannot be reached.  The answer is one of iTag03,
    Samsung, Microsoft, Google, Tile and Unknown. *)
Theorem device_type_of_a_tag (dev : BLEAdvertisedDevice) :
  (getDeviceType dev = "iTag03" <-> isITag03 dev = true) /\
  getDeviceType dev <> "Apple" /\
  getDeviceType dev <> "FindMy_Tag" /\
  In (getDeviceType dev)
     ["iTag03"; "Samsung"; "Microsoft"; "Google"; "Tile"; "Unknown"].
Proof.
  unfold getDeviceType.
  destruct (isITag03 dev) eqn:Tag.
  { split; [split; reflexivity |].
    split; [discriminate |]. split; [discriminate |]. left; reflexivity. }
  unfold isITag03, APPLE_COMPANY_ID in Tag.
  destruct (haveServiceUUID dev
            && (found "fd6f" (getServiceUUID dev)
                || found "FD6F" (getServiceUUID dev))) eqn:FindMy;
    [discriminate |].
  destruct (haveManufacturerData dev
            && (2 <=? String.length (getManufacturerData dev))%nat) eqn:Manu;
    cbn [andb] in Tag.
  - destruct (companyId (getManufacturerData dev) =? 76) eqn:Apple;
      [discriminate |].
    unfold vendor. rewrite Apple.
    destruct (companyId (getManufacturerData dev) =? 117);
      [split; [split; discriminate |];
       split; [discriminate |]; split; [discriminate |];
       right; left; reflexivity |].
    destruct (companyId (getManufacturerData dev) =? 6);
      [split; [split; discriminate |];
       split; [discriminate |]; split; [discriminate |];
       right; right; left; reflexivity |].
    destruct (companyId (getManufacturerData dev) =? 261);
      [split; [split; discriminate |];
       split; [discriminate |]; split; [discriminate |];
       right; right; right; left; reflexivity |].
    unfold serviceType.
    destruct (haveServiceUUID dev); cbn [andb] in FindMy;
      [rewrite FindMy;
       destruct (found "fe9f" (getServiceUUID dev)
                 || found "FE9F" (getServiceUUID dev)) |];
      (split; [split; discriminate |]);
      (split; [discriminate |]); (split; [discriminate |]);
      cbn; tauto.
  - unfold serviceType.
    destruct (haveServiceUUID dev); cbn [andb] in FindMy;
      [rewrite FindMy;
       destruct (found "fe9f" (getServiceUUID dev)
                 || found "FE9F" (getServiceUUID dev)) |];
      (split; [split; discriminate |]);
      (split; [discriminate |]); (split; [discriminate |]);
      cbn; tauto.
Qed.

End Firmware.
